(** * Training portal: enrollment and report workflow

    A shallow embedding of the request handlers of the training portal
    server (server-ai.js, and its predecessor server-backup.js, whose
    enroll and report handlers are the same code) and of the derived
    statistics of the insights layer.

    Conventions of the embedding.
    - The relational store is a record of four tables; a table is the
      list of its rows in insertion order.
    - A handler is a function from the store to the store after the
      request and the outcome seen by the client.  The callbacks of the
      source are nested [match]es on the result of each storage call.
      (Module [Callbacks] runs the storage calls of two enroll requests
      one at a time, under a schedule.)
    - Every storage call can fail: the environment of a request says,
      for the k-th storage call of the handler, whether the engine
      reports an error and with which message.
    - JavaScript numbers are exact rationals ([Q]) or integers ([Z]);
      request fields carry the JSON type the schema gives them, and an
      absent field is [None].  (Module [Wire] has the hours field of a
      report as any number or text.)
    - Dates are texts.  The columns declared [DATE] keep a calendar date
      [YYYY-MM-DD] as text; what is said of the order of dates and of
      date filters is said for calendar dates.
    - Timestamps ([CURRENT_TIMESTAMP]) are integers read from the
      environment of the request. *)

From Stdlib Require Import ZArith QArith Qround Qminmax List String Ascii Bool Lia Lqa.
From Stdlib Require Import Sorted.
From Stdlib Require DecimalString.
Import ListNotations.
Local Open Scope string_scope.
Local Open Scope list_scope.
Local Open Scope Z_scope.

(** ** JavaScript values as the handlers use them *)

Module Js.

(** [!x] is false for a non-empty string and for a number other than 0;
    an absent field is [undefined], which is falsy. *)
Definition truthy_string (s : option string) : bool :=
  match s with
  | Some s => negb (String.eqb s "")
  | None => false
  end.

Definition truthy_int (n : option Z) : bool :=
  match n with
  | Some n => negb (n =? 0)
  | None => false
  end.

Definition truthy_number (x : option Q) : bool :=
  match x with
  | Some x => negb (Qeq_bool x 0)
  | None => false
  end.

(** [hay.includes(needle)] *)
Fixpoint includes (needle hay : string) : bool :=
  String.prefix needle hay
  || match hay with
     | EmptyString => false
     | String _ rest => includes needle rest
     end.

(** [a >= b] where [a] may be [null]: [null] converts to 0. *)
Definition ge_nullable (a : option Q) (b : Q) : bool :=
  match a with
  | Some a => Qle_bool b a
  | None => Qle_bool b 0
  end.

(** [a < b] where [a] may be [null]. *)
Definition lt_nullable (a : option Q) (b : Q) : bool :=
  match a with
  | Some a => negb (Qle_bool b a)
  | None => negb (Qle_bool b 0)
  end.

Definition digits (n : Z) : string :=
  DecimalString.NilZero.string_of_int (Z.to_int n).

(** The nearest integer, the larger one on a tie. *)
Definition round_half_up (x : Q) : Z := Qfloor (x + (1 # 2))%Q.

(** The last [f] decimal digits of [m], with leading zeros. *)
Fixpoint pad_digits (f : nat) (m : Z) : string :=
  match f with
  | O => ""
  | S f' => (pad_digits f' (m / 10) ++ digits (m mod 10))%string
  end.

Definition unsigned_fixed (f : nat) (x : Q) : string :=
  let n := round_half_up (x * inject_Z (10 ^ Z.of_nat f))%Q in
  match f with
  | O => digits n
  | S _ =>
    (digits (n / 10 ^ Z.of_nat f) ++ "." ++ pad_digits f (n mod 10 ^ Z.of_nat f))%string
  end.

(** [x.toFixed(f)] for a number below 10^21: the sign of a negative
    number first, then the magnitude rounded to [f] fraction digits. *)
Definition toFixed (f : nat) (x : Q) : string :=
  if Qle_bool 0 x then unsigned_fixed f x
  else ("-" ++ unsigned_fixed f (- x)%Q)%string.

(** What a handler puts in a JSON field that is a number on one branch
    of the code and a string on the other. *)
Inductive Value :=
| Number (n : Z)
| Text (s : string).

(** *** [new Date(text)] for a calendar date

    Only the date-only ISO form YYYY-MM-DD of a real calendar date is
    covered (the form of a date input field); it denotes midnight UTC of
    that day.  For any other text [Date_parse] answers [None]: what the
    engine's parser does with it is not part of the embedding. *)

Definition digit_of (a : ascii) : option Z :=
  let n := Z.of_N (N_of_ascii a) in
  if (48 <=? n) && (n <=? 57) then Some (n - 48) else None.

Definition is_leap (y : Z) : bool :=
  ((y mod 4 =? 0) && negb (y mod 100 =? 0)) || (y mod 400 =? 0).

Definition days_in_month (y m : Z) : Z :=
  if m =? 2 then (if is_leap y then 29 else 28)
  else if (m =? 4) || (m =? 6) || (m =? 9) || (m =? 11) then 30
  else 31.

(** Number of leap years among the years 1 .. y. *)
Definition leaps_through (y : Z) : Z := y / 4 - y / 100 + y / 400.

(** Days from 1970-01-01 to the first of January of year [y]. *)
Definition days_before_year (y : Z) : Z :=
  365 * (y - 1970) + (leaps_through (y - 1) - leaps_through 1969).

(** Days from the first of January to the first of month [m]. *)
Fixpoint days_before_month (y : Z) (months : nat) : Z :=
  match months with
  | O => 0
  | S k => days_before_month y k + days_in_month y (Z.of_nat (S k))
  end.

(** Days from 1970-01-01 to the given day. *)
Definition days_from_epoch (y m d : Z) : Z :=
  days_before_year y + days_before_month y (Z.to_nat (m - 1)) + (d - 1).

Definition number2 (a b : ascii) : option Z :=
  match digit_of a, digit_of b with
  | Some x, Some y => Some (10 * x + y)
  | _, _ => None
  end.

Definition calendar_day (text : string) : option Z :=
  match text with
  | String y1 (String y2 (String y3 (String y4 (String "-"
      (String m1 (String m2 (String "-" (String d1 (String d2 EmptyString))))))))) =>
    match number2 y1 y2, number2 y3 y4, number2 m1 m2, number2 d1 d2 with
    | Some yh, Some yl, Some m, Some d =>
      let y := 100 * yh + yl in
      if (1 <=? m) && (m <=? 12) && (1 <=? d) && (d <=? days_in_month y m)
      then Some (days_from_epoch y m d)
      else None
    | _, _, _, _ => None
    end
  | _ => None
  end.

Definition ms_per_day : Z := 1000 * 60 * 60 * 24.

(** Milliseconds since the epoch. *)
Definition Date_parse (text : string) : option Z :=
  option_map (fun day => day * ms_per_day) (calendar_day text).

End Js.

(** ** The relational schema *)

Record User := mkUser {
  u_id : Z;
  u_username : string;
  u_email : string;
  u_password : string;
  u_full_name : string;
  u_role : string;
  u_created_at : Z
}.

Record Batch := mkBatch {
  b_id : Z;
  b_name : string;
  b_instructor_id : Z;
  b_duration : string;
  b_start_date : string;
  b_status : string;
  b_max_participants : Z;
  b_created_at : Z
}.

Record Enrollment := mkEnrollment {
  e_id : Z;
  e_user_id : Z;
  e_batch_id : Z;
  e_enrolled_at : Z
}.

Record Report := mkReport {
  r_id : Z;
  r_user_id : Z;
  r_batch_id : Z;
  r_report_date : string;
  r_tasks_completed : string;
  r_challenges : option string;
  r_hours_worked : Q;
  r_notes : option string;
  r_created_at : Z;
  r_updated_at : Z
}.

(** [last_insert_rowid] is the connection's last inserted row id, which
    the handlers read as [this.lastID]. *)
Record Database := mkDatabase {
  users : list User;
  batches : list Batch;
  enrollments : list Enrollment;
  daily_reports : list Report;
  last_insert_rowid : Z
}.

(** The environment of one request: the clock, and the failures of the
    storage engine ([fault k = Some msg]: the k-th storage call of the
    handler calls back with an error whose message is [msg]). *)
Record Env := mkEnv {
  now : Z;
  fault : nat -> option string
}.

(** An environment in which the storage engine does not fail. *)
Definition calm (t : Z) : Env := {| now := t; fault := fun _ => None |}.

(** The authenticated caller, as [authenticateToken] leaves it in
    [req.user] after verifying the bearer token. *)
Record Caller := mkCaller {
  c_id : Z;
  c_username : string;
  c_role : string
}.

Module Sql.

(** [INTEGER PRIMARY KEY AUTOINCREMENT]: one more than the largest id
    of the table (rows are never deleted). *)
Definition next_id (ids : list Z) : Z := 1 + fold_right Z.max 0 ids.

(** The outcome of a storage call: the engine's error, or the result. *)
Definition call {A : Type} (env : Env) (k : nat) (result : A) : string + A :=
  match fault env k with
  | Some msg => inl msg
  | None => inr result
  end.

(** [SELECT * FROM batches WHERE id = ?] *)
Definition batch_by_id (db : Database) (batchId : Z) : option Batch :=
  find (fun b => b_id b =? batchId) (batches db).

(** [SELECT COUNT( * ) as count FROM enrollments WHERE batch_id = ?] *)
Definition enrollment_count (db : Database) (batchId : Z) : Z :=
  Z.of_nat (List.length (filter (fun e => e_batch_id e =? batchId) (enrollments db))).

(** [SELECT * FROM enrollments WHERE user_id = ? AND batch_id = ?] *)
Definition enrollment_of (db : Database) (userId batchId : Z) : option Enrollment :=
  find (fun e => (e_user_id e =? userId) && (e_batch_id e =? batchId)) (enrollments db).

Definition unique_enrollment_message : string :=
  "SQLITE_CONSTRAINT: UNIQUE constraint failed: enrollments.user_id, enrollments.batch_id".

(** [INSERT INTO enrollments (user_id, batch_id) VALUES (?, ?)] under
    [UNIQUE(user_id, batch_id)]. *)
Definition insert_enrollment (env : Env) (k : nat) (db : Database)
    (userId batchId : Z) : string + Database :=
  match fault env k with
  | Some msg => inl msg
  | None =>
    match enrollment_of db userId batchId with
    | Some _ => inl unique_enrollment_message
    | None =>
      let id := next_id (map e_id (enrollments db)) in
      inr {| users := users db;
             batches := batches db;
             enrollments := enrollments db ++
               [ {| e_id := id; e_user_id := userId; e_batch_id := batchId;
                    e_enrolled_at := now env |} ];
             daily_reports := daily_reports db;
             last_insert_rowid := id |}
    end
  end.

Definition same_key (userId batchId : Z) (date : string) (r : Report) : bool :=
  (r_user_id r =? userId) && (r_batch_id r =? batchId)
  && String.eqb (r_report_date r) date.

(** [INSERT INTO daily_reports (...) VALUES (...)
     ON CONFLICT(user_id, batch_id, report_date) DO UPDATE SET
       tasks_completed = excluded.tasks_completed, challenges = excluded.challenges,
       hours_worked = excluded.hours_worked, notes = excluded.notes,
       updated_at = CURRENT_TIMESTAMP]
    The report date is compared as text. *)
Definition overwrite (env : Env) (tasks : string) (challenges : option string)
    (hours : Q) (notes : option string) (r : Report) : Report :=
  {| r_id := r_id r;
     r_user_id := r_user_id r;
     r_batch_id := r_batch_id r;
     r_report_date := r_report_date r;
     r_tasks_completed := tasks;
     r_challenges := challenges;
     r_hours_worked := hours;
     r_notes := notes;
     r_created_at := r_created_at r;
     r_updated_at := now env |}.

(** [DO UPDATE] applies to the row in conflict and to no other. *)
Definition on_conflict (env : Env) (userId batchId : Z) (date tasks : string)
    (challenges : option string) (hours : Q) (notes : option string) (r : Report)
    : Report :=
  if same_key userId batchId date r
  then overwrite env tasks challenges hours notes r
  else r.

Definition upsert_report (env : Env) (k : nat) (db : Database)
    (userId batchId : Z) (date tasks : string) (challenges : option string)
    (hours : Q) (notes : option string) : string + Database :=
  match fault env k with
  | Some msg => inl msg
  | None =>
    if existsb (same_key userId batchId date) (daily_reports db) then
      inr {| users := users db;
             batches := batches db;
             enrollments := enrollments db;
             daily_reports :=
               map (on_conflict env userId batchId date tasks challenges hours notes)
                   (daily_reports db);
             last_insert_rowid := last_insert_rowid db |}
    else
      let id := next_id (map r_id (daily_reports db)) in
      inr {| users := users db;
             batches := batches db;
             enrollments := enrollments db;
             daily_reports := daily_reports db ++
               [ {| r_id := id;
                    r_user_id := userId;
                    r_batch_id := batchId;
                    r_report_date := date;
                    r_tasks_completed := tasks;
                    r_challenges := challenges;
                    r_hours_worked := hours;
                    r_notes := notes;
                    r_created_at := now env;
                    r_updated_at := now env |} ];
             last_insert_rowid := id |}
  end.

Definition check_status_message : string :=
  "SQLITE_CONSTRAINT: CHECK constraint failed: status IN ('active', 'upcoming', 'completed')".

(** [INSERT INTO batches (name, instructor_id, duration, start_date, status,
    max_participants) VALUES (?, ?, ?, ?, ?, ?)] under the [CHECK] on status. *)
Definition insert_batch (env : Env) (k : nat) (db : Database)
    (name : string) (instructor : Z) (duration start status : string) (capacity : Z)
    : string + Database :=
  match fault env k with
  | Some msg => inl msg
  | None =>
    if String.eqb status "active" || String.eqb status "upcoming"
       || String.eqb status "completed" then
      let id := next_id (map b_id (batches db)) in
      inr {| users := users db;
             batches := batches db ++
               [ {| b_id := id; b_name := name; b_instructor_id := instructor;
                    b_duration := duration; b_start_date := start;
                    b_status := status; b_max_participants := capacity;
                    b_created_at := now env |} ];
             enrollments := enrollments db;
             daily_reports := daily_reports db;
             last_insert_rowid := id |}
    else inl check_status_message
  end.

Definition unique_user_message (column : string) : string :=
  ("SQLITE_CONSTRAINT: UNIQUE constraint failed: users." ++ column)%string.

Definition check_role_message : string :=
  "SQLITE_CONSTRAINT: CHECK constraint failed: role IN ('student', 'teacher', 'admin')".

(** [INSERT INTO users (username, email, password, full_name, role)
    VALUES (?, ?, ?, ?, ?)] under [UNIQUE] on username and on email and
    the [CHECK] on role. *)
Definition insert_user (env : Env) (k : nat) (db : Database)
    (username email password full_name role : string) : string + Database :=
  match fault env k with
  | Some msg => inl msg
  | None =>
    if negb (String.eqb role "student" || String.eqb role "teacher"
             || String.eqb role "admin") then inl check_role_message
    else if existsb (fun u => String.eqb (u_username u) username) (users db) then
      inl (unique_user_message "username")
    else if existsb (fun u => String.eqb (u_email u) email) (users db) then
      inl (unique_user_message "email")
    else
      let id := next_id (map u_id (users db)) in
      inr {| users := users db ++
               [ {| u_id := id; u_username := username; u_email := email;
                    u_password := password; u_full_name := full_name;
                    u_role := role; u_created_at := now env |} ];
             batches := batches db;
             enrollments := enrollments db;
             daily_reports := daily_reports db;
             last_insert_rowid := id |}
  end.

(** A row of [SELECT r.*, u.full_name as user_name, u.username,
    b.name as batch_name]. *)
Record ReportRow := mkReportRow {
  row_report : Report;
  row_user_name : string;
  row_username : string;
  row_batch_name : string
}.

(** [FROM daily_reports r INNER JOIN users u ON r.user_id = u.id
    INNER JOIN batches b ON r.batch_id = b.id] *)
Definition joined_reports (db : Database) : list ReportRow :=
  flat_map (fun r =>
    flat_map (fun u =>
      if r_user_id r =? u_id u then
        flat_map (fun b =>
          if r_batch_id r =? b_id b then
            [ {| row_report := r; row_user_name := u_full_name u;
                 row_username := u_username u; row_batch_name := b_name b |} ]
          else [])
          (batches db)
      else [])
      (users db))
    (daily_reports db).

(** [ORDER BY r.report_date DESC, r.created_at DESC]: does [x] come
    no later than [y]?  Rows that agree on both columns keep the order
    of the table. *)
Definition precedes (x y : ReportRow) : bool :=
  match String.compare (r_report_date (row_report x)) (r_report_date (row_report y)) with
  | Gt => true
  | Lt => false
  | Eq => r_created_at (row_report y) <=? r_created_at (row_report x)
  end.

Fixpoint insert_sorted (x : ReportRow) (rows : list ReportRow) : list ReportRow :=
  match rows with
  | [] => [x]
  | y :: rest => if precedes x y then x :: rows else y :: insert_sorted x rest
  end.

Definition order_by_date_desc (rows : list ReportRow) : list ReportRow :=
  fold_right insert_sorted [] rows.

(** [LIMIT ?]: a negative limit is no limit. *)
Definition limit_rows (n : Z) (rows : list ReportRow) : list ReportRow :=
  if n <? 0 then rows else firstn (Z.to_nat n) rows.

(** The dynamic [WHERE 1=1 AND ... ] clause: a row is kept when it
    meets every condition that was appended to the query. *)
Definition select_reports (db : Database) (conditions : list (Report -> bool))
    (limit : Z) : list ReportRow :=
  limit_rows limit
    (order_by_date_desc
       (filter (fun row => forallb (fun c => c (row_report row)) conditions)
               (joined_reports db))).

End Sql.

(** ** Responses *)

Inductive Json :=
| JsonError (error : string)                     (* {error: ...} *)
| JsonMessage (message : string)                 (* {message: ...} *)
| JsonCreated (message : string) (id : Z).       (* {message: ..., <key>: this.lastID} *)

Inductive Outcome (A : Type) :=
| Respond (status : Z) (body : Json)             (* res.status(status).json(body) *)
| Result (payload : A)                           (* res.json(payload), status 200 *)
| Uncaught (exception : string).                 (* thrown inside a callback *)

Arguments Respond {A} status body.
Arguments Result {A} payload.
Arguments Uncaught {A} exception.

Module Server.

(** [POST /api/batches/:batchId/enroll] *)
Definition enroll (env : Env) (caller : Caller) (batchId : Z) (db : Database)
    : Database * Outcome unit :=
  let userId := c_id caller in
  match Sql.call env 0 (Sql.batch_by_id db batchId) with
  | inl _ | inr None => (db, Respond 404 (JsonError "Batch not found"))
  | inr (Some batch) =>
    match Sql.call env 1 (Sql.enrollment_count db batchId) with
    | inl _ =>
      (* [err] is not looked at and [result] is undefined *)
      (db, Uncaught "TypeError: Cannot read properties of undefined (reading 'count')")
    | inr count =>
      if count >=? b_max_participants batch then
        (db, Respond 400 (JsonError "Batch is full"))
      else
        match Sql.insert_enrollment env 2 db userId batchId with
        | inl message =>
          if Js.includes "UNIQUE" message then
            (db, Respond 400 (JsonError "Already enrolled"))
          else
            (db, Respond 500 (JsonError "Enrollment failed"))
        | inr db' => (db', Respond 200 (JsonMessage "Enrolled successfully"))
        end
    end
  end.

(** The body of [POST /api/reports]. *)
Record ReportBody := mkReportBody {
  batch_id : option Z;
  report_date : option string;
  tasks_completed : option string;
  challenges : option string;
  hours_worked : option Q;
  notes : option string
}.

(** [POST /api/reports] *)
Definition submitReport (env : Env) (caller : Caller) (body : ReportBody)
    (db : Database) : Database * Outcome unit :=
  let user_id := c_id caller in
  if negb (Js.truthy_int (batch_id body))
     || negb (Js.truthy_string (report_date body))
     || negb (Js.truthy_string (tasks_completed body))
     || negb (Js.truthy_number (hours_worked body)) then
    (db, Respond 400 (JsonError "Required fields missing"))
  else
    match batch_id body, report_date body, tasks_completed body, hours_worked body with
    | Some batch, Some date, Some tasks, Some hours =>
      match Sql.call env 0 (Sql.enrollment_of db user_id batch) with
      | inl _ | inr None => (db, Respond 403 (JsonError "Not enrolled in this batch"))
      | inr (Some _) =>
        match Sql.upsert_report env 1 db user_id batch date tasks
                (challenges body) hours (notes body) with
        | inl _ => (db, Respond 500 (JsonError "Failed to submit report"))
        | inr db' =>
          (db', Respond 200
                  (JsonCreated "Report submitted successfully" (last_insert_rowid db')))
        end
      end
    | _, _, _, _ =>
      (* not reached: a truthy field is present *)
      (db, Respond 400 (JsonError "Required fields missing"))
    end.

(** The query string of [GET /api/reports]; [q_limit] is [parseInt(limit)]. *)
Record ReportQuery := mkReportQuery {
  q_batch_id : option Z;
  q_user_id : option Z;
  q_start_date : option string;
  q_end_date : option string;
  q_limit : option Z
}.

(** The conditions appended to the query, in the order of the source. *)
Definition report_conditions (caller : Caller) (query : ReportQuery)
    : list (Report -> bool) :=
  (if String.eqb (c_role caller) "student"
   then [fun r => r_user_id r =? c_id caller] else [])
  ++ match q_batch_id query with
     | Some b => [fun r => r_batch_id r =? b]
     | None => []
     end
  ++ match q_user_id query with
     | Some u =>
       if negb (String.eqb (c_role caller) "student")
       then [fun r => r_user_id r =? u] else []
     | None => []
     end
  ++ (if Js.truthy_string (q_start_date query)
      then match q_start_date query with
           | Some d => [fun r => String.leb d (r_report_date r)]
           | None => []
           end
      else [])
  ++ (if Js.truthy_string (q_end_date query)
      then match q_end_date query with
           | Some d => [fun r => String.leb (r_report_date r) d]
           | None => []
           end
      else []).

(** [GET /api/reports] *)
Definition queryReports (env : Env) (caller : Caller) (query : ReportQuery)
    (db : Database) : Outcome (list Sql.ReportRow) :=
  let limit := match q_limit query with Some n => n | None => 100 end in
  match Sql.call env 0 (Sql.select_reports db (report_conditions caller query) limit) with
  | inl _ => Respond 500 (JsonError "Failed to fetch reports")
  | inr reports => Result reports
  end.

(** [authorizeRole(...roles)] *)
Definition authorizeRole (roles : list string) (caller : Caller) : bool :=
  existsb (String.eqb (c_role caller)) roles.

(** The body of [POST /api/batches]. *)
Record BatchBody := mkBatchBody {
  name : option string;
  duration : option string;
  start_date : option string;
  status : option string;
  max_participants : option Z
}.

(** [POST /api/batches] *)
Definition createBatch (env : Env) (caller : Caller) (body : BatchBody)
    (db : Database) : Database * Outcome unit :=
  if negb (authorizeRole ["teacher"; "admin"] caller) then
    (db, Respond 403 (JsonError "Insufficient permissions"))
  else
    let instructor_id := c_id caller in
    if negb (Js.truthy_string (name body))
       || negb (Js.truthy_string (duration body))
       || negb (Js.truthy_string (start_date body))
       || negb (Js.truthy_string (status body)) then
      (db, Respond 400 (JsonError "Required fields missing"))
    else
      match name body, duration body, start_date body, status body with
      | Some n, Some d, Some s, Some st =>
        let capacity :=
          match max_participants body with
          | Some m => if Js.truthy_int (Some m) then m else 100
          | None => 100
          end in
        match Sql.insert_batch env 0 db n instructor_id d s st capacity with
        | inl _ => (db, Respond 500 (JsonError "Failed to create batch"))
        | inr db' =>
          (db', Respond 201
                  (JsonCreated "Batch created successfully" (last_insert_rowid db')))
        end
      | _, _, _, _ =>
        (* not reached: a truthy field is present *)
        (db, Respond 400 (JsonError "Required fields missing"))
      end.

(** The body of [POST /api/register]. *)
Record RegisterBody := mkRegisterBody {
  username : option string;
  email : option string;
  password : option string;
  full_name : option string;
  role : option string
}.

(** [POST /api/register]; [hashed] is what [bcrypt.hash(password, 10)]
    resolves to for this request, [None] when it rejects. *)
Definition register (env : Env) (hashed : option string) (body : RegisterBody)
    (db : Database) : Database * Outcome unit :=
  if negb (Js.truthy_string (username body))
     || negb (Js.truthy_string (email body))
     || negb (Js.truthy_string (password body))
     || negb (Js.truthy_string (full_name body))
     || negb (Js.truthy_string (role body)) then
    (db, Respond 400 (JsonError "All fields are required"))
  else
    match username body, email body, full_name body, role body with
    | Some u, Some e, Some f, Some r =>
      if negb (existsb (String.eqb r) ["student"; "teacher"]) then
        (db, Respond 400 (JsonError "Invalid role"))
      else
        match hashed with
        | None => (db, Respond 500 (JsonError "Server error"))
        | Some hashedPassword =>
          match Sql.insert_user env 0 db u e hashedPassword f r with
          | inl message =>
            if Js.includes "UNIQUE" message then
              (db, Respond 400 (JsonError "Username or email already exists"))
            else
              (db, Respond 500 (JsonError "Registration failed"))
          | inr db' =>
            (db', Respond 201
                    (JsonCreated "User registered successfully" (last_insert_rowid db')))
          end
        end
    | _, _, _, _ =>
      (* not reached: a truthy field is present *)
      (db, Respond 400 (JsonError "All fields are required"))
    end.

(** The requests that write to the store. *)
Inductive Request :=
| Register (hashed : option string) (body : RegisterBody)
| CreateBatch (caller : Caller) (body : BatchBody)
| Enroll (caller : Caller) (batchId : Z)
| SubmitReport (caller : Caller) (body : ReportBody).

Definition handle (env : Env) (request : Request) (db : Database)
    : Database * Outcome unit :=
  match request with
  | Register hashed body => register env hashed body db
  | CreateBatch caller body => createBatch env caller body db
  | Enroll caller batchId => enroll env caller batchId db
  | SubmitReport caller body => submitReport env caller body db
  end.

(** The stores the server can be in after any number of requests,
    starting from [db0]. *)
Inductive reachable (db0 : Database) : Database -> Prop :=
| reachable_start : reachable db0 db0
| reachable_step (db : Database) (env : Env) (request : Request) :
    reachable db0 db -> reachable db0 (fst (handle env request db)).

End Server.

(** ** The hours field as it arrives

    [req.body] is parsed JSON: nothing in the handler of
    [POST /api/reports] looks at the type of [hours_worked].  The bodies
    of [Server] hold the case of a number; here the field is a number or
    a text. *)

Module Wire.

(** A field of a JSON body: absent, a number or a text. *)
Inductive Field :=
| Absent
| NumberField (q : Q)
| TextField (s : string).

(** The truthiness behind [!hours_worked]: [undefined], the number 0 and
    the empty text are falsy; every other number and every non-empty
    text, the text "0" among them, is truthy. *)
Definition truthy (v : Field) : bool :=
  match v with
  | Absent => false
  | NumberField q => negb (Qeq_bool q 0)
  | TextField s => negb (s =? "")%string
  end.

(** The number a text of digits spells. *)
Fixpoint digits_value (acc : Z) (text : string) : option Z :=
  match text with
  | EmptyString => Some acc
  | String c rest =>
    match Js.digit_of c with
    | Some d => digits_value (10 * acc + d) rest
    | None => None
    end
  end.

(** What the column [hours_worked REAL] holds for a bound value.  A
    number is stored as it is.  A text that is an integer literal is
    converted by the REAL affinity of the column to the number it
    spells; this covers the texts of 1 to 15 digits, whose value a
    double holds exactly.  [None]: not covered (an absent value violates
    [NOT NULL]; of the other texts the engine converts some and stores
    the rest as text). *)
Definition real_affinity (v : Field) : option Q :=
  match v with
  | Absent => None
  | NumberField q => Some q
  | TextField s =>
    if (1 <=? Z.of_nat (String.length s)) && (Z.of_nat (String.length s) <=? 15)
    then option_map inject_Z (digits_value 0 s)
    else None
  end.

(** [app.post('/api/reports', ...)] on the body whose [hours_worked] is
    [hours] and whose other fields are those of [body] (the
    [hours_worked] of [body] is not read).  The answer is [None] when the
    row to store is not covered by [real_affinity]. *)
Definition submitReport (env : Env) (caller : Caller) (body : Server.ReportBody)
    (hours : Field) (db : Database) : option (Database * Outcome unit) :=
  let user_id := c_id caller in
  if negb (Js.truthy_int (Server.batch_id body))
     || negb (Js.truthy_string (Server.report_date body))
     || negb (Js.truthy_string (Server.tasks_completed body))
     || negb (truthy hours) then
    Some (db, Respond 400 (JsonError "Required fields missing"))
  else
    match Server.batch_id body, Server.report_date body, Server.tasks_completed body with
    | Some batch, Some date, Some tasks =>
      match Sql.call env 0 (Sql.enrollment_of db user_id batch) with
      | inl _ | inr None => Some (db, Respond 403 (JsonError "Not enrolled in this batch"))
      | inr (Some _) =>
        match real_affinity hours with
        | None => None
        | Some stored =>
          match Sql.upsert_report env 1 db user_id batch date tasks
                  (Server.challenges body) stored (Server.notes body) with
          | inl _ => Some (db, Respond 500 (JsonError "Failed to submit report"))
          | inr db' =>
            Some (db', Respond 200
                         (JsonCreated "Report submitted successfully"
                            (last_insert_rowid db')))
          end
        end
      end
    | _, _, _ =>
      (* not reached: a truthy field is present *)
      Some (db, Respond 400 (JsonError "Required fields missing"))
    end.


End Wire.

(** ** The callbacks of enroll, one at a time

    [Server.enroll] runs the three storage calls of the handler on one
    store.  The source issues them from nested callbacks, so the calls
    of another request can run between the count query of a request and
    its insert.  Here a request in flight advances by one storage call
    at a time, and two requests are run under a schedule. *)

Module Callbacks.

(** Where a request stands: before its batch lookup, before its count
    query (holding the batch found), before its insert, or answered. *)
Inductive Pending :=
| AtLookup (caller : Caller) (batchId : Z)
| AtCount (caller : Caller) (batchId : Z) (batch : Batch)
| AtInsert (caller : Caller) (batchId : Z)
| Answered (outcome : Outcome unit).

(** One storage call of the request and its callback. *)
Definition advance (env : Env) (request : Pending) (db : Database)
    : Database * Pending :=
  match request with
  | AtLookup caller batchId =>
    match Sql.call env 0 (Sql.batch_by_id db batchId) with
    | inl _ | inr None => (db, Answered (Respond 404 (JsonError "Batch not found")))
    | inr (Some batch) => (db, AtCount caller batchId batch)
    end
  | AtCount caller batchId batch =>
    match Sql.call env 1 (Sql.enrollment_count db batchId) with
    | inl _ =>
      (db, Answered
             (Uncaught "TypeError: Cannot read properties of undefined (reading 'count')"))
    | inr count =>
      if count >=? b_max_participants batch then
        (db, Answered (Respond 400 (JsonError "Batch is full")))
      else
        (db, AtInsert caller batchId)
    end
  | AtInsert caller batchId =>
    match Sql.insert_enrollment env 2 db (c_id caller) batchId with
    | inl message =>
      if Js.includes "UNIQUE" message then
        (db, Answered (Respond 400 (JsonError "Already enrolled")))
      else
        (db, Answered (Respond 500 (JsonError "Enrollment failed")))
    | inr db' => (db', Answered (Respond 200 (JsonMessage "Enrolled successfully")))
    end
  | Answered outcome => (db, Answered outcome)
  end.

(** Two requests under a schedule: at each step the first request
    advances ([false]) or the second ([true]). *)
Fixpoint run (env : Env) (schedule : list bool) (first second : Pending)
    (db : Database) : Database * Pending * Pending :=
  match schedule with
  | [] => (db, first, second)
  | false :: rest =>
    let (db', first') := advance env first db in run env rest first' second db'
  | true :: rest =>
    let (db', second') := advance env second db in run env rest first second' db'
  end.

(** The first request from beginning to end, then the second. *)
Definition one_after_the_other : list bool := [false; false; false; true; true; true].

(** The number of steps of a request in a schedule. *)
Definition steps_of (who : bool) (schedule : list bool) : nat :=
  List.length (filter (Bool.eqb who) schedule).

(** Three calls of each request, and both count queries run before
    either insert: the first four steps are the lookups and the count
    queries of the two requests in any order, the last two the inserts
    in either order. *)
Definition counted_first (schedule : list bool) : bool :=
  (List.length schedule =? 6)%nat
  && (steps_of false (firstn 4 schedule) =? 2)%nat
  && (steps_of false (skipn 4 schedule) =? 1)%nat.

End Callbacks.

(** ** The insights layer

    The aggregate queries ([COUNT], [AVG], [MIN], [MAX]) are evaluated
    by the storage engine; the functions below are the callbacks that
    receive the engine's answer, an error or the aggregate row. *)

Module Insights.

(** The row of [SELECT COUNT( * ) as reports_count, AVG(hours_worked) as
    avg_hours FROM daily_reports WHERE user_id = ? AND batch_id = ?];
    [AVG] over no row is [NULL]. *)
Record CompletionData := mkCompletionData {
  reports_count : Z;
  avg_hours : option Q
}.

Record Prediction := mkPrediction {
  completionProbability : Z;
  reportsSubmitted : Z;
  averageHours : Js.Value;
  prediction : string
}.

(** The threshold chain of [predictCompletionRate]. *)
Definition completion_probability (data : CompletionData) : Z :=
  if (15 <=? reports_count data) && Js.ge_nullable (avg_hours data) 6 then 95
  else if (10 <=? reports_count data) && Js.ge_nullable (avg_hours data) 5 then 80
  else if (5 <=? reports_count data) && Js.ge_nullable (avg_hours data) 4 then 60
  else if 0 <? reports_count data then 40
  else 20.

(** [data.avg_hours ? data.avg_hours.toFixed(2) : 0] *)
Definition average_hours (avg : option Q) : Js.Value :=
  if Js.truthy_number avg then
    match avg with
    | Some a => Js.Text (Js.toFixed 2 a)
    | None => Js.Number 0
    end
  else Js.Number 0.

(** [predictCompletionRate(userId, batchId, callback)]: what the
    callback is called with, given the engine's answer to the query. *)
Definition predictCompletionRate (answer : string + CompletionData)
    : string + Prediction :=
  match answer with
  | inl err => inl err
  | inr data =>
    let completionProbability := completion_probability data in
    inr {| completionProbability := completionProbability;
           reportsSubmitted := reports_count data;
           averageHours := average_hours (avg_hours data);
           prediction :=
             if 70 <=? completionProbability then "High likelihood of completion"
             else if 50 <=? completionProbability then "Moderate likelihood of completion"
             else "Needs more engagement" |}
  end.

(** [GET /api/ai/completion-prediction/:batchId] *)
Definition completionPrediction (answer : string + CompletionData)
    : Outcome Prediction :=
  match predictCompletionRate answer with
  | inl _ => Respond 500 (JsonError "Failed to predict completion")
  | inr prediction => Result prediction
  end.

(** A row of the class query: one enrolled user of the batch with
    [COUNT(r.id)], [AVG(r.hours_worked)] and [MAX(r.report_date)]. *)
Record StudentRow := mkStudentRow {
  s_id : Z;
  s_full_name : string;
  total_reports : Z;
  s_avg_hours : option Q;
  last_report : option string
}.

Record StudentInsight := mkStudentInsight {
  studentId : Z;
  studentName : string;
  totalReports : Z;
  i_averageHours : Js.Value;
  lastReportDate : option string;
  engagementLevel : string;
  needsAttention : bool
}.

Definition student_insight (student : StudentRow) : StudentInsight :=
  {| studentId := s_id student;
     studentName := s_full_name student;
     totalReports := total_reports student;
     i_averageHours := average_hours (s_avg_hours student);
     lastReportDate := last_report student;
     engagementLevel :=
       if 15 <=? total_reports student then "High"
       else if 10 <=? total_reports student then "Medium" else "Low";
     needsAttention := total_reports student <? 5 |}.

Record ClassInsights := mkClassInsights {
  ci_batchId : Z;
  totalStudents : Z;
  highEngagement : Z;
  ci_needsAttention : Z;
  students : list StudentInsight
}.

(** [GET /api/ai/class-insights/:batchId] *)
Definition classInsights (caller : Caller) (batchId : Z)
    (answer : string + list StudentRow) : Outcome ClassInsights :=
  if negb (Server.authorizeRole ["teacher"; "admin"] caller) then
    Respond 403 (JsonError "Insufficient permissions")
  else
    match answer with
    | inl _ => Respond 500 (JsonError "Failed to get class insights")
    | inr rows =>
      let insights := map student_insight rows in
      Result
        {| ci_batchId := batchId;
           totalStudents := Z.of_nat (List.length insights);
           highEngagement :=
             Z.of_nat (List.length
               (filter (fun s => String.eqb (engagementLevel s) "High") insights));
           ci_needsAttention :=
             Z.of_nat (List.length (filter needsAttention insights));
           students := insights |}
    end.

(** Does [x] lie exactly halfway between two integers? *)
Definition halfway (x : Q) : bool :=
  Qeq_bool (x + (1 # 2))%Q (inject_Z (Qfloor (x + (1 # 2))%Q)).

(** [calculateConsistency(totalReports, firstReport, lastReport)].

    The quotient and the product are computed here in exact arithmetic,
    the source computes them in double precision.  The two agree after
    rounding to an integer except when the exact value lies halfway
    between two integers, where the rounding error of the doubles decides
    (23 reports in 40 days: 57.5 exactly, 57.49999999999999 in doubles,
    printed as 57).  In that case, and for a date text that
    [Js.Date_parse] does not cover, the answer is [None]: the embedding
    does not say what is printed. *)
Definition calculateConsistency (totalReports : Z)
    (firstReport lastReport : option string) : option Js.Value :=
  if negb (Js.truthy_string firstReport) || negb (Js.truthy_string lastReport) then
    Some (Js.Number 0)
  else
    match firstReport, lastReport with
    | Some first, Some last =>
      match Js.Date_parse first, Js.Date_parse last with
      | Some t_first, Some t_last =>
        let daysDiff := (t_last - t_first) / Js.ms_per_day + 1 in
        if daysDiff =? 0 then
          (* division by zero: Infinity, NaN or -Infinity *)
          if 0 <? totalReports then Some (Js.Text "100")
          else if totalReports =? 0 then Some (Js.Text "NaN")
          else Some (Js.Text "-Infinity")
        else
          let consistency := (inject_Z totalReports / inject_Z daysDiff * 100)%Q in
          let capped := Qmin consistency 100 in
          if halfway capped then None
          else Some (Js.Text (Js.toFixed 0 capped))
      | _, _ => None
      end
    | _, _ =>
      (* not reached: a truthy text is present *)
      Some (Js.Number 0)
    end.

End Insights.

(** ** The specification's wording of the derived quantities *)

Module Spec.

(** "days_span is the inclusive number of calendar days from the user's
    first report date to their last report date" *)
Definition days_span (first last : string) : option Z :=
  match Js.calendar_day first, Js.calendar_day last with
  | Some f, Some l => Some (l - f + 1)
  | _, _ => None
  end.

(** "min(total_reports / days_span * 100, 100)" *)
Definition consistency (total_reports days : Z) : Q :=
  Qmin (inject_Z total_reports / inject_Z days * 100)%Q 100.

(** "the batch exists" *)
Definition batch_exists (db : Database) (batchId : Z) : Prop :=
  exists b, In b (batches db) /\ b_id b = batchId.

(** "an Enrollment for the (user, batch) pair exists" *)
Definition enrolled (db : Database) (userId batchId : Z) : Prop :=
  exists e, In e (enrollments db) /\ e_user_id e = userId /\ e_batch_id e = batchId.

(** What a successful enroll request does to the store: exactly one
    enrollment row, for the caller and the batch, is appended. *)
Definition enrolls (db db' : Database) (userId batchId : Z) : Prop :=
  exists row,
    enrollments db' = enrollments db ++ [row]
    /\ e_user_id row = userId /\ e_batch_id row = batchId
    /\ users db' = users db /\ batches db' = batches db
    /\ daily_reports db' = daily_reports db.

(** The required fields of a report are present: each is there and is
    neither 0 nor the empty text. *)
Definition required_fields (body : Server.ReportBody) (batch : Z) (date tasks : string)
    (hours : Q) : Prop :=
  Server.batch_id body = Some batch /\ batch <> 0
  /\ Server.report_date body = Some date /\ date <> ""
  /\ Server.tasks_completed body = Some tasks /\ tasks <> ""
  /\ Server.hours_worked body = Some hours /\ ~ hours == 0.

(** The rows of the report table for a (user, batch, date) triple. *)
Definition reports_of (db : Database) (userId batchId : Z) (date : string)
    : list Report :=
  filter (Sql.same_key userId batchId date) (daily_reports db).

(** "at most one Report per (user, batch, date) triple" *)
Definition one_report_per_day (db : Database) : Prop :=
  forall userId batchId date,
    (List.length (reports_of db userId batchId date) <= 1)%nat.

(** What a second submission for a triple leaves behind.  [db1] is the
    store after the first submission, [before] the store the second
    one finds, [db2] the store it leaves, [t] its time. *)
Definition updated_in_place (db1 before db2 : Database) (userId batch : Z)
    (date : string) (second : Server.ReportBody) (t : Z) : Prop :=
  exists original row,
    reports_of db1 userId batch date = [original]
    /\ reports_of db2 userId batch date = [row]
    /\ Some (r_tasks_completed row) = Server.tasks_completed second
    /\ r_challenges row = Server.challenges second
    /\ Some (r_hours_worked row) = Server.hours_worked second
    /\ r_notes row = Server.notes second
    /\ r_updated_at row = t
    /\ r_created_at row = r_created_at original
    /\ r_id row = r_id original
    /\ List.length (daily_reports db2) = List.length (daily_reports before).

(** "a report can only ever be stored for a (user, batch) pair that has
    an Enrollment" *)
Definition reports_enrolled (db : Database) : Prop :=
  forall r, In r (daily_reports db) -> enrolled db (r_user_id r) (r_batch_id r).



(** The number a nullable aggregate counts as in a comparison. *)
Definition number_of (x : option Q) : Q :=
  match x with
  | Some x => x
  | None => 0
  end.

(** The number a JSON value stands for, when it is a number or the
    decimal text of an integer printed by [Js.digits]. *)
Definition denotes (v : Js.Value) (x : Q) : Prop :=
  match v with
  | Js.Number n => x == inject_Z n
  | Js.Text s => exists n, s = Js.digits n /\ x == inject_Z n
  end.

End Spec.

(** ** A small store for the examples

    One batch with two seats, of which alice has one; bob is a student
    without enrollment; no report yet. *)

Module Sample.

Definition alice : Caller := {| c_id := 2; c_username := "alice"; c_role := "student" |}.
Definition bob : Caller := {| c_id := 3; c_username := "bob"; c_role := "student" |}.
Definition carol : Caller := {| c_id := 4; c_username := "carol"; c_role := "teacher" |}.

Definition account (id : Z) (username role : string) : User :=
  {| u_id := id; u_username := username;
     u_email := (username ++ "@training.com")%string;
     u_password := "$2b$10$"; u_full_name := username; u_role := role;
     u_created_at := 0 |}.

Definition db : Database :=
  {| users := [account 1 "admin" "admin"; account 2 "alice" "student";
               account 3 "bob" "student"; account 4 "carol" "teacher"];
     batches := [ {| b_id := 1; b_name := "Web Development Fundamentals";
                     b_instructor_id := 1; b_duration := "8 weeks";
                     b_start_date := "2026-01-15"; b_status := "active";
                     b_max_participants := 2; b_created_at := 0 |} ];
     enrollments := [ {| e_id := 1; e_user_id := 2; e_batch_id := 1;
                         e_enrolled_at := 1 |} ];
     daily_reports := [];
     last_insert_rowid := 1 |}.

(** A report for batch 1 on 2026-01-05. *)
Definition report (tasks : option string) (hours : option Q) : Server.ReportBody :=
  {| Server.batch_id := Some 1;
     Server.report_date := Some "2026-01-05";
     Server.tasks_completed := tasks;
     Server.challenges := None;
     Server.hours_worked := hours;
     Server.notes := None |}.

(** The engine fails at the [k]-th storage call of the handler. *)
Definition failing (k : nat) : Env :=
  {| now := 10;
     fault := fun i => if Nat.eqb i k then Some "SQLITE_IOERR: disk I/O error" else None |}.

(** The store after alice's first report, and after bob took the last
    seat in between. *)
Definition after_first : Database :=
  fst (Server.submitReport (calm 20) alice (report (Some "forms") (Some (4 # 1))) db).

Definition in_between : Database :=
  fst (Server.handle (calm 25) (Server.Enroll bob 1) after_first).

Definition after_second : Database :=
  fst (Server.submitReport (calm 30) alice (report (Some "tables") (Some (13 # 2)))
         in_between).

(** The store after bob, now enrolled, has reported too. *)
Definition both_reported : Database :=
  fst (Server.submitReport (calm 35) bob (report (Some "layout") (Some (5 # 1)))
         after_second).

(** A query for the reports of user [u], nothing else given. *)
Definition reports_of_user (u : option Z) : Server.ReportQuery :=
  {| Server.q_batch_id := None; Server.q_user_id := u;
     Server.q_start_date := None; Server.q_end_date := None;
     Server.q_limit := None |}.

End Sample.

(** ** Authentication *)

Module Auth.

(** [text.split(' ')] *)
Fixpoint split_space (text : string) : list string :=
  match text with
  | EmptyString => [EmptyString]
  | String c rest =>
    if Ascii.eqb c " " then EmptyString :: split_space rest
    else
      match split_space rest with
      | piece :: pieces => String c piece :: pieces
      | [] => [String c EmptyString]
      end
  end.

(** [authHeader && authHeader.split(' ')[1]]: an absent header is
    [undefined], an empty one is the empty text, and a header without a
    second piece gives [undefined]. *)
Definition bearer_token (authHeader : option string) : option string :=
  match authHeader with
  | None => None
  | Some header =>
    if String.eqb header "" then Some "" else nth_error (split_space header) 1
  end.

(** Is the text free of spaces? *)
Fixpoint spaceless (text : string) : bool :=
  match text with
  | EmptyString => true
  | String c rest => negb (Ascii.eqb c " ") && spaceless rest
  end.

(** What a middleware does with a request: answer it, or hand it on
    with [req.user] set. *)
Inductive Checked :=
| Rejected (status : Z) (body : Json)
| Next (user : Caller).

(** [authenticateToken(req, res, next)]; [verify token] is the payload
    [jwt.verify(token, JWT_SECRET, ...)] calls back with, [None] when it
    calls back with an error. *)
Definition authenticateToken (verify : string -> option Caller)
    (authHeader : option string) : Checked :=
  let token := bearer_token authHeader in
  if negb (Js.truthy_string token) then
    Rejected 401 (JsonError "Access token required")
  else
    match token with
    | Some t =>
      match verify t with
      | None => Rejected 403 (JsonError "Invalid or expired token")
      | Some user => Next user
      end
    | None =>
      (* not reached: a truthy token is present *)
      Rejected 401 (JsonError "Access token required")
    end.

(** The body of [POST /api/login]. *)
Record LoginBody := mkLoginBody {
  login_username : option string;
  login_password : option string
}.

(** The answer to a successful login. *)
Record Session := mkSession {
  token : string;
  session_id : Z;
  session_username : string;
  session_email : string;
  session_full_name : string;
  session_role : string
}.

(** [SELECT * FROM users WHERE username = ?] *)
Definition user_by_username (db : Database) (username : string) : option User :=
  find (fun u => String.eqb (u_username u) username) (users db).

(** [POST /api/login]; [compare password hash] is what
    [bcrypt.compare] resolves to ([None]: it rejects, inside the
    callback, where nothing catches it), [sign] is
    [jwt.sign(payload, JWT_SECRET, { expiresIn: '24h' })]. *)
Definition login (env : Env) (compare : string -> string -> option bool)
    (sign : Caller -> string) (body : LoginBody) (db : Database) : Outcome Session :=
  if negb (Js.truthy_string (login_username body))
     || negb (Js.truthy_string (login_password body)) then
    Respond 400 (JsonError "Username and password required")
  else
    match login_username body, login_password body with
    | Some username, Some password =>
      match Sql.call env 0 (user_by_username db username) with
      | inl _ => Respond 500 (JsonError "Server error")
      | inr None => Respond 401 (JsonError "Invalid credentials")
      | inr (Some user) =>
        match compare password (u_password user) with
        | None => Uncaught "bcrypt.compare rejected"
        | Some validPassword =>
          if negb validPassword then Respond 401 (JsonError "Invalid credentials")
          else
            Result
              {| token := sign {| c_id := u_id user; c_username := u_username user;
                                  c_role := u_role user |};
                 session_id := u_id user;
                 session_username := u_username user;
                 session_email := u_email user;
                 session_full_name := u_full_name user;
                 session_role := u_role user |}
        end
      end
    | _, _ =>
      (* not reached: a truthy field is present *)
      Respond 400 (JsonError "Username and password required")
    end.

End Auth.

(** ** Invariants of the store *)

Module Inv.

(** The enrollment rows of a (user, batch) pair. *)
Definition enrollments_of (db : Database) (userId batchId : Z) : list Enrollment :=
  filter (fun e => (e_user_id e =? userId) && (e_batch_id e =? batchId))
         (enrollments db).

(** "at most one Enrollment per (user, batch) pair" *)
Definition one_enrollment_per_pair (db : Database) : Prop :=
  forall userId batchId,
    (List.length (enrollments_of db userId batchId) <= 1)%nat.

(** The primary key of the batch table. *)
Definition distinct_batch_ids (db : Database) : Prop :=
  NoDup (map b_id (batches db)).

(** A calendar date written [YYYY-MM-DD].  The columns [report_date]
    and [start_date] are declared [DATE]: the engine keeps such a text
    as text and compares and orders two of them byte by byte, as
    [String.compare] does.  (A text that reads as a number is stored as
    a number and sorts below every text; the order and the date filters
    of the listings are stated for calendar dates.) *)
Definition is_date (text : string) : Prop := Js.calendar_day text <> None.

(** Every stored report date is a calendar date. *)
Definition reports_dated (db : Database) : Prop :=
  forall r, In r (daily_reports db) -> is_date (r_report_date r).

(** Every stored start date is a calendar date. *)
Definition batches_dated (db : Database) : Prop :=
  forall b, In b (batches db) -> is_date (b_start_date b).

(** A date filter of a query, when it is given, is a calendar date. *)
Definition filter_dated (filter : option string) : Prop :=
  forall d, filter = Some d -> d <> EmptyString -> is_date d.

(** The order of [ORDER BY r.report_date DESC, r.created_at DESC]. *)
Definition in_order (x y : Sql.ReportRow) : Prop := Sql.precedes x y = true.

(** Later report date first; on the same date, later creation first. *)
Definition descending (x y : Sql.ReportRow) : Prop :=
  String.ltb (r_report_date (Sql.row_report y)) (r_report_date (Sql.row_report x)) = true
  \/ (r_report_date (Sql.row_report x) = r_report_date (Sql.row_report y)
      /\ r_created_at (Sql.row_report y) <= r_created_at (Sql.row_report x)).

(** The day of the calendar date [a] is not after the day of [b]. *)
Definition day_le (a b : string) : Prop :=
  exists x y, Js.calendar_day a = Some x /\ Js.calendar_day b = Some y /\ x <= y.

(** Later day first; on the same day, later creation first. *)
Definition latest_first (x y : Sql.ReportRow) : Prop :=
  exists dx dy,
    Js.calendar_day (r_report_date (Sql.row_report x)) = Some dx
    /\ Js.calendar_day (r_report_date (Sql.row_report y)) = Some dy
    /\ (dy < dx
        \/ (dy = dx
            /\ r_created_at (Sql.row_report y) <= r_created_at (Sql.row_report x))).

(** [UNIQUE] on username and on email. *)
Definition distinct_accounts (db : Database) : Prop :=
  NoDup (map u_username (users db)) /\ NoDup (map u_email (users db)).

End Inv.

(** ** Listings *)

Module Listing.

Section Sorting.

Context {A : Type}.

(** [before x y]: may [x] stand before [y]? *)
Variable before : A -> A -> bool.

Fixpoint insert_by (x : A) (rows : list A) : list A :=
  match rows with
  | [] => [x]
  | y :: rest => if before x y then x :: rows else y :: insert_by x rest
  end.

(** [ORDER BY]: rows that agree on the column keep the order they had. *)
Definition sort_by (rows : list A) : list A := fold_right insert_by [] rows.

End Sorting.

(** A row of [SELECT b.*, u.full_name as instructor_name,
    (SELECT COUNT( * ) FROM enrollments WHERE batch_id = b.id) as participant_count]. *)
Record BatchRow := mkBatchRow {
  row_batch : Batch;
  instructor_name : option string;
  participant_count : Z
}.

(** [batches b LEFT JOIN users u ON b.instructor_id = u.id]: one row per
    matching user, one row with a [NULL] name when there is none. *)
Definition with_instructor (db : Database) (b : Batch) : list BatchRow :=
  match filter (fun u => b_instructor_id b =? u_id u) (users db) with
  | [] => [ {| row_batch := b; instructor_name := None;
               participant_count := Sql.enrollment_count db (b_id b) |} ]
  | instructors =>
    map (fun u => {| row_batch := b; instructor_name := Some (u_full_name u);
                     participant_count := Sql.enrollment_count db (b_id b) |})
        instructors
  end.

(** [ORDER BY b.start_date DESC] *)
Definition later_start (x y : BatchRow) : bool :=
  negb (String.ltb (b_start_date (row_batch x)) (b_start_date (row_batch y))).

(** [GET /api/batches]; [status] is the query parameter. *)
Definition listBatches (env : Env) (status : option string) (db : Database)
    : Outcome (list BatchRow) :=
  let wanted (b : Batch) :=
    match status with
    | Some s =>
      if Js.truthy_string status && negb (String.eqb s "all")
      then String.eqb (b_status b) s else true
    | None => true
    end in
  match Sql.call env 0
          (sort_by later_start (flat_map (with_instructor db) (filter wanted (batches db))))
  with
  | inl _ => Respond 500 (JsonError "Failed to fetch batches")
  | inr rows => Result rows
  end.

(** [GET /api/my-batches]: [batches b INNER JOIN enrollments e ON
    b.id = e.batch_id LEFT JOIN users u ... WHERE e.user_id = ?]. *)
Definition myBatches (env : Env) (caller : Caller) (db : Database)
    : Outcome (list BatchRow) :=
  match Sql.call env 0
          (sort_by later_start
             (flat_map (fun b =>
                flat_map (fun e =>
                  if (b_id b =? e_batch_id e) && (e_user_id e =? c_id caller)
                  then with_instructor db b else [])
                  (enrollments db))
                (batches db)))
  with
  | inl _ => Respond 500 (JsonError "Failed to fetch batches")
  | inr rows => Result rows
  end.

(** A row of [SELECT u.id, u.username, u.full_name, u.email, e.enrolled_at]. *)
Record Participant := mkParticipant {
  p_id : Z;
  p_username : string;
  p_full_name : string;
  p_email : string;
  p_enrolled_at : Z
}.

(** [ORDER BY u.full_name] *)
Definition name_order (x y : Participant) : bool :=
  String.leb (p_full_name x) (p_full_name y).

(** [GET /api/batches/:batchId/participants]: [users u INNER JOIN
    enrollments e ON u.id = e.user_id WHERE e.batch_id = ?]. *)
Definition participants (env : Env) (batchId : Z) (db : Database)
    : Outcome (list Participant) :=
  match Sql.call env 0
          (sort_by name_order
             (flat_map (fun u =>
                flat_map (fun e =>
                  if (u_id u =? e_user_id e) && (e_batch_id e =? batchId)
                  then [ {| p_id := u_id u; p_username := u_username u;
                            p_full_name := u_full_name u; p_email := u_email u;
                            p_enrolled_at := e_enrolled_at e |} ]
                  else [])
                  (enrollments db))
                (users db)))
  with
  | inl _ => Respond 500 (JsonError "Failed to fetch participants")
  | inr rows => Result rows
  end.

(** The four counts of [GET /api/stats], in the order of the source. *)
Definition stat_queries (db : Database) : list (string * Z) :=
  [ ("totalBatches", Z.of_nat (List.length (batches db)));
    ("activeBatches",
     Z.of_nat (List.length (filter (fun b => String.eqb (b_status b) "active")
                                   (batches db))));
    ("totalEnrollments", Z.of_nat (List.length (enrollments db)));
    ("totalReports", Z.of_nat (List.length (daily_reports db))) ].

(** The callbacks of the counts: the [k]-th one stores its count under
    its key unless the engine reported an error. *)
Fixpoint collect (env : Env) (k : nat) (queries : list (string * Z))
    : list (string * Z) :=
  match queries with
  | [] => []
  | (key, count) :: rest =>
    match Sql.call env k count with
    | inl _ => collect env (S k) rest
    | inr c => (key, c) :: collect env (S k) rest
    end
  end.

(** [GET /api/stats]: the answer is sent when the fourth callback has
    run; its fields are listed here in the order of the queries. *)
Definition stats (env : Env) (db : Database) : Outcome (list (string * Z)) :=
  Result (collect env 0 (stat_queries db)).

End Listing.

(** ** Advice *)

Module Advice.

(** [getPerformanceLevel(avgHours, totalReports)] *)
Definition getPerformanceLevel (avgHours : option Q) (totalReports : Z) : string :=
  if negb (Js.truthy_number avgHours) || negb (Js.truthy_int (Some totalReports)) then
    "No Data"
  else if Js.ge_nullable avgHours 7 && (20 <=? totalReports) then "Excellent"
  else if Js.ge_nullable avgHours 6 && (15 <=? totalReports) then "Very Good"
  else if Js.ge_nullable avgHours 5 && (10 <=? totalReports) then "Good"
  else if Js.ge_nullable avgHours 4 && (5 <=? totalReports) then "Average"
  else "Needs Improvement".

Definition more_hours : string :=
  "Consider increasing daily study time to at least 5-6 hours for better learning outcomes.".
Definition daily_habit : string :=
  "Build a consistent daily reporting habit to track your progress effectively.".
Definition seek_help : string :=
  "Focus on overcoming recurring challenges - consider seeking help from instructors or peers.".
Definition take_rest : string :=
  "Great dedication! Make sure to balance study with adequate rest.".
Definition mentor : string :=
  "Excellent progress! Consider mentoring other students.".
Definition keep_up : string :=
  "Keep up the good work and maintain consistency!".

(** [generateRecommendations(avgHours, totalReports, challenges)];
    [challenges] is the array of rows of the challenge query, absent
    when that query failed. *)
Definition generateRecommendations {A : Type} (avgHours : option Q) (totalReports : Z)
    (challenges : option (list A)) : list string :=
  let recommendations :=
    (if Js.lt_nullable avgHours 5 then [more_hours] else [])
    ++ (if totalReports <? 10 then [daily_habit] else [])
    ++ (match challenges with
        | Some rows => if (0 <? List.length rows)%nat then [seek_help] else []
        | None => []
        end)
    ++ (if Js.ge_nullable avgHours 8 then [take_rest] else [])
    ++ (if (20 <=? totalReports) && Js.ge_nullable avgHours 6 then [mentor] else []) in
  match recommendations with
  | [] => [keep_up]
  | _ => recommendations
  end.

Record Recommendation := mkRecommendation {
  batchId : Z;
  batchName : string;
  reason : string;
  availability : Z;
  startDate : string
}.

(** [SELECT b.name, b.id FROM batches b INNER JOIN enrollments e ON
    b.id = e.batch_id WHERE e.user_id = ?], the ids only. *)
Definition enrolled_ids (db : Database) (userId : Z) : list Z :=
  flat_map (fun b =>
    flat_map (fun e =>
      if (b_id b =? e_batch_id e) && (e_user_id e =? userId) then [b_id b] else [])
      (enrollments db))
    (batches db).

(** [SELECT b.*, (SELECT COUNT( * ) ...) as current_enrollment FROM batches b
    WHERE b.status = 'active' OR b.status = 'upcoming'] *)
Definition open_batches (db : Database) : list (Batch * Z) :=
  map (fun b => (b, Sql.enrollment_count db (b_id b)))
      (filter (fun b => String.eqb (b_status b) "active"
                        || String.eqb (b_status b) "upcoming")
              (batches db)).

(** [generateBatchRecommendations(userId, callback)] *)
Definition generateBatchRecommendations (env : Env) (userId : Z) (db : Database)
    : string + list Recommendation :=
  match Sql.call env 0 (enrolled_ids db userId) with
  | inl err => inl err
  | inr enrolledIds =>
    match Sql.call env 1 (open_batches db) with
    | inl err => inl err
    | inr allBatches =>
      let availableBatches :=
        filter (fun b => negb (existsb (Z.eqb (b_id (fst b))) enrolledIds)) allBatches in
      inr (firstn 3
             (map (fun b =>
                     {| batchId := b_id (fst b);
                        batchName := b_name (fst b);
                        reason := "Based on your learning interests and batch availability";
                        availability := b_max_participants (fst b) - snd b;
                        startDate := b_start_date (fst b) |})
                  (filter (fun b => snd b <? b_max_participants (fst b))
                          availableBatches)))
    end
  end.

(** [GET /api/ai/batch-recommendations] *)
Definition batchRecommendations (env : Env) (caller : Caller) (db : Database)
    : Outcome (list Recommendation) :=
  match generateBatchRecommendations env (c_id caller) db with
  | inl _ => Respond 500 (JsonError "Failed to generate recommendations")
  | inr recommendations => Result recommendations
  end.

(** The levels of [getPerformanceLevel], lowest first. *)
Definition rank (level : string) : nat :=
  if String.eqb level "Excellent" then 5
  else if String.eqb level "Very Good" then 4
  else if String.eqb level "Good" then 3
  else if String.eqb level "Average" then 2
  else if String.eqb level "Needs Improvement" then 1
  else 0.

End Advice.

(** ** Export *)

Module Exports.

(** The double quote character. *)
Definition quote : ascii := ascii_of_nat 34.

(** [text.replace(/<quote>/g, <quote><quote>)] *)
Fixpoint double_quotes (text : string) : string :=
  match text with
  | EmptyString => EmptyString
  | String c rest =>
    if Ascii.eqb c quote then String quote (String quote (double_quotes rest))
    else String c (double_quotes rest)
  end.

(** [escapeCsv(str)] of the report export, for a text or [null]. *)
Definition escapeCsv (str : option string) : string :=
  if negb (Js.truthy_string str) then EmptyString
  else
    match str with
    | Some text => String quote (double_quotes text ++ String quote EmptyString)%string
    | None => EmptyString
    end.

(** Reading a quoted field as a CSV reader does (RFC 4180): after the
    opening quote, two quotes stand for one, and a single quote closes
    the field.  The answer is the field and the text after it. *)
Fixpoint read_quoted (text : string) : option (string * string) :=
  match text with
  | EmptyString => None
  | String c rest =>
    if Ascii.eqb c quote then
      match rest with
      | String c' rest' =>
        if Ascii.eqb c' quote then
          option_map (fun fr => (String quote (fst fr), snd fr)) (read_quoted rest')
        else Some (EmptyString, rest)
      | EmptyString => Some (EmptyString, EmptyString)
      end
    else option_map (fun fr => (String c (fst fr), snd fr)) (read_quoted rest)
  end.

Definition read_field (text : string) : option (string * string) :=
  match text with
  | String c rest => if Ascii.eqb c quote then read_quoted rest else None
  | EmptyString => None
  end.

(** A row of [SELECT id, username, email, full_name, role, created_at FROM users]. *)
Record PublicUser := mkPublicUser {
  pu_id : Z;
  pu_username : string;
  pu_email : string;
  pu_full_name : string;
  pu_role : string;
  pu_created_at : Z
}.

Definition public (u : User) : PublicUser :=
  {| pu_id := u_id u; pu_username := u_username u; pu_email := u_email u;
     pu_full_name := u_full_name u; pu_role := u_role u;
     pu_created_at := u_created_at u |}.

(** A row of [SELECT e.*, u.full_name as student_name, b.name as batch_name]. *)
Record EnrollmentRow := mkEnrollmentRow {
  er_enrollment : Enrollment;
  er_student_name : string;
  er_batch_name : string
}.

(** [enrollments e INNER JOIN users u ON e.user_id = u.id
    INNER JOIN batches b ON e.batch_id = b.id] *)
Definition joined_enrollments (db : Database) : list EnrollmentRow :=
  flat_map (fun e =>
    flat_map (fun u =>
      if e_user_id e =? u_id u then
        flat_map (fun b =>
          if e_batch_id e =? b_id b then
            [ {| er_enrollment := e; er_student_name := u_full_name u;
                 er_batch_name := b_name b |} ]
          else [])
          (batches db)
      else [])
      (users db))
    (enrollments db).

(** A row of [SELECT r.*, u.full_name as student_name, b.name as batch_name]. *)
Record ReportExportRow := mkReportExportRow {
  xr_report : Report;
  xr_student_name : string;
  xr_batch_name : string
}.

(** The join is the one of the report query. *)
Definition exported_reports (db : Database) : list ReportExportRow :=
  map (fun row => {| xr_report := Sql.row_report row;
                     xr_student_name := Sql.row_user_name row;
                     xr_batch_name := Sql.row_batch_name row |})
      (Sql.joined_reports db).

(** The document of [GET /api/admin/export/all]. *)
Record Dump := mkDump {
  d_users : list PublicUser;
  d_batches : list Batch;
  d_enrollments : list EnrollmentRow;
  d_reports : list ReportExportRow;
  exportedAt : Z;
  totalUsers : Z;
  totalBatches : Z;
  totalEnrollments : Z;
  totalReports : Z
}.

(** [GET /api/admin/export/all]: each of the four callbacks stores its
    rows unless the engine reported an error; the last one reads the
    length of each of the four results. *)
Definition exportAll (env : Env) (caller : Caller) (db : Database) : Outcome Dump :=
  if negb (Server.authorizeRole ["admin"] caller) then
    Respond 403 (JsonError "Insufficient permissions")
  else
    match Sql.call env 0 (map public (users db)),
          Sql.call env 1 (batches db),
          Sql.call env 2 (joined_enrollments db),
          Sql.call env 3 (exported_reports db) with
    | inr users, inr batches, inr enrollments, inr reports =>
      Result {| d_users := users; d_batches := batches;
                d_enrollments := enrollments; d_reports := reports;
                exportedAt := now env;
                totalUsers := Z.of_nat (List.length users);
                totalBatches := Z.of_nat (List.length batches);
                totalEnrollments := Z.of_nat (List.length enrollments);
                totalReports := Z.of_nat (List.length reports) |}
    | _, _, _, _ =>
      Uncaught "TypeError: Cannot read properties of undefined (reading 'length')"
    end.

End Exports.

(** ** More examples *)

Module Examples.

(** A registration for dave, whose password hashes to "hash:secret". *)
Definition dave : Server.RegisterBody :=
  {| Server.username := Some "dave"; Server.email := Some "dave@training.com";
     Server.password := Some "secret"; Server.full_name := Some "Dave";
     Server.role := Some "student" |}.

Definition hash (password : string) : string := ("hash:" ++ password)%string.

Definition compare (password hashed : string) : option bool :=
  Some (String.eqb hashed (hash password)).

Definition sign (user : Caller) : string := ("token:" ++ c_username user)%string.

Definition verify (token : string) : option Caller :=
  if String.eqb token "token:alice" then Some Sample.alice else None.

Definition registered : Database :=
  fst (Server.register (calm 45) (Some (hash "secret")) dave Sample.db).

(** A batch submitted by carol with zero seats. *)
Definition workshop : Server.BatchBody :=
  {| Server.name := Some "Git Workshop"; Server.duration := Some "1 week";
     Server.start_date := Some "2026-03-02"; Server.status := Some "upcoming";
     Server.max_participants := Some 0 |}.

Definition with_workshop : Database :=
  fst (Server.createBatch (calm 50) Sample.carol workshop Sample.db).

(** A report query without filters and without cap. *)
Definition everything : Server.ReportQuery :=
  {| Server.q_batch_id := None; Server.q_user_id := None;
     Server.q_start_date := None; Server.q_end_date := None;
     Server.q_limit := Some (-1) |}.

(** A report query for January 2026, without cap. *)
Definition january : Server.ReportQuery :=
  {| Server.q_batch_id := None; Server.q_user_id := None;
     Server.q_start_date := Some "2026-01-01"; Server.q_end_date := Some "2026-01-31";
     Server.q_limit := Some (-1) |}.


Definition web_batch : Batch :=
  {| b_id := 1; b_name := "Web Development Fundamentals"; b_instructor_id := 1;
     b_duration := "8 weeks"; b_start_date := "2026-01-15"; b_status := "active";
     b_max_participants := 2; b_created_at := 0 |}.

End Examples.

(** * Properties *)

(** ** Lookups *)

Section Lookups.

Variable db : Database.

Lemma find_none_iff {A : Type} (f : A -> bool) (l : list A) :
  find f l = None <-> forall x, In x l -> f x = false.
Proof.
  split.
  - intros H x Hx. exact (find_none f l H x Hx).
  - induction l as [|a l IH]; intros H; simpl; [reflexivity|].
    rewrite (H a (or_introl eq_refl)). apply IH.
    intros x Hx. apply H. right. exact Hx.
Qed.

Lemma batch_by_id_none (batchId : Z) :
  Sql.batch_by_id db batchId = None <-> ~ Spec.batch_exists db batchId.
Proof.
  unfold Sql.batch_by_id, Spec.batch_exists. rewrite find_none_iff. split.
  - intros H (b & Hb & Hid). specialize (H b Hb). lia.
  - intros H b Hb. destruct (Z.eqb_spec (b_id b) batchId) as [E|E]; [|reflexivity].
    exfalso. apply H. exists b. split; assumption.
Qed.

Lemma batch_by_id_some (batchId : Z) (batch : Batch) :
  Sql.batch_by_id db batchId = Some batch ->
  In batch (batches db) /\ b_id batch = batchId.
Proof.
  unfold Sql.batch_by_id. intros H. apply find_some in H.
  destruct H as [Hin Hid]. split; [exact Hin | lia].
Qed.

Lemma enrollment_of_none (userId batchId : Z) :
  Sql.enrollment_of db userId batchId = None <-> ~ Spec.enrolled db userId batchId.
Proof.
  unfold Sql.enrollment_of, Spec.enrolled. rewrite find_none_iff. split.
  - intros H (e & He & Hu & Hb). specialize (H e He). lia.
  - intros H e He.
    destruct (Z.eqb_spec (e_user_id e) userId) as [E1|E1]; [|reflexivity].
    destruct (Z.eqb_spec (e_batch_id e) batchId) as [E2|E2]; [|reflexivity].
    exfalso. apply H. exists e. repeat split; assumption.
Qed.

Lemma enrollment_of_some (userId batchId : Z) :
  Spec.enrolled db userId batchId ->
  exists e, Sql.enrollment_of db userId batchId = Some e.
Proof.
  intros H. destruct (Sql.enrollment_of db userId batchId) as [e|] eqn:E.
  - exists e. reflexivity.
  - apply enrollment_of_none in E. contradiction.
Qed.

End Lookups.

Lemma unique_enrollment_message_includes :
  Js.includes "UNIQUE" Sql.unique_enrollment_message = true.
Proof. reflexivity. Qed.

Lemma count_after_insert (rows : list Enrollment) (row : Enrollment) (batchId : Z) :
  e_batch_id row = batchId ->
  Z.of_nat (List.length (filter (fun e => e_batch_id e =? batchId) (rows ++ [row])))
  = Z.of_nat (List.length (filter (fun e => e_batch_id e =? batchId) rows)) + 1.
Proof.
  intros H. rewrite filter_app, length_app. simpl.
  rewrite H, Z.eqb_refl. simpl. lia.
Qed.

(** ** Enrollment *)

Lemma enroll_full (t : Z) (caller : Caller) (batchId : Z) (db : Database) (batch : Batch) :
  Sql.batch_by_id db batchId = Some batch ->
  b_max_participants batch <= Sql.enrollment_count db batchId ->
  Server.enroll (calm t) caller batchId db
  = (db, Respond 400 (JsonError "Batch is full")).
Proof.
  intros Hb Hfull. unfold Server.enroll, Sql.call. simpl. rewrite Hb.
  destruct (Z.geb_spec (Sql.enrollment_count db batchId) (b_max_participants batch));
    [reflexivity | lia].
Qed.

Lemma enroll_duplicate (t : Z) (caller : Caller) (batchId : Z) (db : Database)
    (batch : Batch) :
  Sql.batch_by_id db batchId = Some batch ->
  Sql.enrollment_count db batchId < b_max_participants batch ->
  Spec.enrolled db (c_id caller) batchId ->
  Server.enroll (calm t) caller batchId db
  = (db, Respond 400 (JsonError "Already enrolled")).
Proof.
  intros Hb Hroom Hdup. unfold Server.enroll, Sql.call. simpl. rewrite Hb.
  destruct (Z.geb_spec (Sql.enrollment_count db batchId) (b_max_participants batch));
    [lia|].
  unfold Sql.insert_enrollment. simpl.
  destruct (enrollment_of_some db _ _ Hdup) as [e He]. rewrite He.
  rewrite unique_enrollment_message_includes. reflexivity.
Qed.

Lemma enroll_success (t : Z) (caller : Caller) (batchId : Z) (db : Database)
    (batch : Batch) :
  Sql.batch_by_id db batchId = Some batch ->
  Sql.enrollment_count db batchId < b_max_participants batch ->
  ~ Spec.enrolled db (c_id caller) batchId ->
  snd (Server.enroll (calm t) caller batchId db)
  = Respond 200 (JsonMessage "Enrolled successfully")
  /\ Spec.enrolls db (fst (Server.enroll (calm t) caller batchId db)) (c_id caller) batchId
  /\ Sql.enrollment_count (fst (Server.enroll (calm t) caller batchId db)) batchId
     = Sql.enrollment_count db batchId + 1.
Proof.
  intros Hb Hroom Hnew. unfold Server.enroll, Sql.call. simpl. rewrite Hb.
  destruct (Z.geb_spec (Sql.enrollment_count db batchId) (b_max_participants batch));
    [lia|].
  unfold Sql.insert_enrollment. simpl.
  apply enrollment_of_none in Hnew. rewrite Hnew. simpl.
  split; [reflexivity|]. split.
  - eexists. simpl. repeat split; reflexivity.
  - unfold Sql.enrollment_count. simpl. apply count_after_insert. reflexivity.
Qed.

(** C1.  With a storage engine that answers every call, an enroll
    request is decided by three checks in this order: no batch with the
    given id: 404 "Batch not found"; else as many enrollments as
    max_participants, or more: 400 "Batch is full"; else the caller
    already enrolled in the batch: 400 "Already enrolled"; else exactly
    one enrollment row is inserted.  With count = max_participants the
    request fails as full; with count = max_participants - 1 a caller
    not yet enrolled is enrolled and the count becomes max_participants. *)
Theorem enroll_checks_in_order (t : Z) (caller : Caller) (batchId : Z) (db : Database) :
  let count := Sql.enrollment_count db batchId in
  let after := Server.enroll (calm t) caller batchId db in
  (~ Spec.batch_exists db batchId ->
   after = (db, Respond 404 (JsonError "Batch not found")))
  /\ (Spec.batch_exists db batchId ->
      exists batch,
        Sql.batch_by_id db batchId = Some batch
        /\ In batch (batches db) /\ b_id batch = batchId
        /\ (b_max_participants batch <= count ->
            after = (db, Respond 400 (JsonError "Batch is full")))
        /\ (count < b_max_participants batch ->
            Spec.enrolled db (c_id caller) batchId ->
            after = (db, Respond 400 (JsonError "Already enrolled")))
        /\ (count < b_max_participants batch ->
            ~ Spec.enrolled db (c_id caller) batchId ->
            snd after = Respond 200 (JsonMessage "Enrolled successfully")
            /\ Spec.enrolls db (fst after) (c_id caller) batchId)
        /\ (count = b_max_participants batch ->
            after = (db, Respond 400 (JsonError "Batch is full")))
        /\ (count = b_max_participants batch - 1 ->
            ~ Spec.enrolled db (c_id caller) batchId ->
            snd after = Respond 200 (JsonMessage "Enrolled successfully")
            /\ Sql.enrollment_count (fst after) batchId = b_max_participants batch)).
Proof.
  intros count after. split.
  - intros Hnone. apply batch_by_id_none in Hnone.
    unfold after, Server.enroll, Sql.call. simpl. rewrite Hnone. reflexivity.
  - intros Hex. destruct (Sql.batch_by_id db batchId) as [batch|] eqn:Hb.
    2:{ apply batch_by_id_none in Hb. contradiction. }
    exists batch. destruct (batch_by_id_some db batchId batch Hb) as [Hin Hid].
    split; [reflexivity|]. split; [exact Hin|]. split; [exact Hid|].
    split; [|split; [|split; [|split]]].
    + intros H. apply (enroll_full t caller batchId db batch Hb H).
    + intros H1 H2. apply (enroll_duplicate t caller batchId db batch Hb H1 H2).
    + intros H1 H2.
      destruct (enroll_success t caller batchId db batch Hb H1 H2) as (R & E & _).
      split; assumption.
    + intros H. apply (enroll_full t caller batchId db batch Hb). fold count. lia.
    + intros H1 H2.
      assert (Hroom : Sql.enrollment_count db batchId < b_max_participants batch)
        by (fold count; lia).
      destruct (enroll_success t caller batchId db batch Hb Hroom H2) as (R & _ & C).
      split; [exact R|]. unfold after. rewrite C. fold count. lia.
Qed.

(** ** Report submission *)

Ltac refused :=
  left; split; [reflexivity|]; eexists; eexists; split; [reflexivity|]; auto.

(** A submission either leaves the store alone and answers with an
    error, or passes the three checks (required fields, enrollment,
    storage) and answers 200 with the store after the upsert. *)
Lemma submit_outcome (env : Env) (caller : Caller) (body : Server.ReportBody)
    (db : Database) :
  let after := Server.submitReport env caller body db in
  (fst after = db
   /\ exists status message,
        snd after = Respond status (JsonError message)
        /\ (status = 400 \/ status = 403 \/ status = 500))
  \/ (exists batch date tasks hours e,
        Spec.required_fields body batch date tasks hours
        /\ Sql.enrollment_of db (c_id caller) batch = Some e
        /\ Sql.upsert_report env 1 db (c_id caller) batch date tasks
             (Server.challenges body) hours (Server.notes body) = inr (fst after)
        /\ snd after
           = Respond 200
               (JsonCreated "Report submitted successfully"
                  (last_insert_rowid (fst after)))).
Proof.
  unfold Server.submitReport, Spec.required_fields.
  destruct (Server.batch_id body) as [batch|]; simpl; [|refused].
  destruct (Z.eqb_spec batch 0) as [|Hb]; simpl; [refused|].
  destruct (Server.report_date body) as [date|]; simpl; [|refused].
  destruct (String.eqb_spec date "") as [|Hd]; simpl; [refused|].
  destruct (Server.tasks_completed body) as [tasks|]; simpl; [|refused].
  destruct (String.eqb_spec tasks "") as [|Ht]; simpl; [refused|].
  destruct (Server.hours_worked body) as [hours|]; simpl; [|refused].
  destruct (Qeq_bool hours 0) eqn:Hh; simpl; [refused|].
  apply Qeq_bool_neq in Hh.
  unfold Sql.call. destruct (fault env 0); [refused|].
  destruct (Sql.enrollment_of db (c_id caller) batch) as [e|] eqn:He; [|refused].
  destruct (Sql.upsert_report env 1 db (c_id caller) batch date tasks
              (Server.challenges body) hours (Server.notes body)) as [msg|db'] eqn:Hu;
    [refused|].
  right. exists batch, date, tasks, hours, e. simpl. tauto.
Qed.

Lemma same_key_true (userId batchId : Z) (date : string) (r : Report) :
  Sql.same_key userId batchId date r = true <->
  r_user_id r = userId /\ r_batch_id r = batchId /\ r_report_date r = date.
Proof.
  unfold Sql.same_key. rewrite !andb_true_iff, !Z.eqb_eq, String.eqb_eq. tauto.
Qed.

Lemma filter_map_stable {A : Type} (f : A -> bool) (g : A -> A) (l : list A) :
  (forall x, f (g x) = f x) -> filter f (map g l) = map g (filter f l).
Proof.
  intros H. induction l as [|a l IH]; simpl; [reflexivity|].
  rewrite H. destruct (f a); simpl; rewrite IH; reflexivity.
Qed.

Lemma existsb_false_filter {A : Type} (f : A -> bool) (l : list A) :
  existsb f l = false -> filter f l = [].
Proof.
  induction l as [|a l IH]; simpl; [reflexivity|].
  intros H. apply orb_false_iff in H. destruct H as [Ha Hl].
  rewrite Ha. apply IH. exact Hl.
Qed.

Lemma existsb_true_filter {A : Type} (f : A -> bool) (l : list A) :
  existsb f l = true -> filter f l <> [].
Proof.
  intros H E. apply existsb_exists in H. destruct H as (x & Hx & Hf).
  assert (Hin : In x (filter f l)) by (apply filter_In; split; assumption).
  rewrite E in Hin. exact Hin.
Qed.

Section Upsert.

Variables (env : Env) (k : nat) (db db' : Database) (userId batchId : Z).
Variables (date tasks : string) (challenges : option string) (hours : Q).
Variable notes : option string.

Hypothesis upserted :
  Sql.upsert_report env k db userId batchId date tasks challenges hours notes = inr db'.

Local Abbreviation touch :=
  (Sql.on_conflict env userId batchId date tasks challenges hours notes).

Lemma touch_key (u b : Z) (d : string) (r : Report) :
  Sql.same_key u b d (touch r) = Sql.same_key u b d r.
Proof.
  unfold Sql.on_conflict. destruct (Sql.same_key userId batchId date r); reflexivity.
Qed.

Lemma touch_origin (r : Report) :
  r_id (touch r) = r_id r /\ r_created_at (touch r) = r_created_at r.
Proof.
  unfold Sql.on_conflict.
  destruct (Sql.same_key userId batchId date r); split; reflexivity.
Qed.

Lemma upsert_other_tables :
  users db' = users db /\ batches db' = batches db /\ enrollments db' = enrollments db.
Proof.
  unfold Sql.upsert_report in upserted. destruct (fault env k); [discriminate|].
  destruct (existsb _ _); inversion upserted; simpl; repeat split; reflexivity.
Qed.

(** The two branches of the upsert. *)
Lemma upsert_reports :
  (existsb (Sql.same_key userId batchId date) (daily_reports db) = true
   /\ daily_reports db' = map touch (daily_reports db)
   /\ last_insert_rowid db' = last_insert_rowid db)
  \/ (existsb (Sql.same_key userId batchId date) (daily_reports db) = false
      /\ daily_reports db'
         = daily_reports db ++
           [ {| r_id := Sql.next_id (map r_id (daily_reports db));
                r_user_id := userId; r_batch_id := batchId; r_report_date := date;
                r_tasks_completed := tasks; r_challenges := challenges;
                r_hours_worked := hours; r_notes := notes;
                r_created_at := now env; r_updated_at := now env |} ]).
Proof.
  unfold Sql.upsert_report in upserted. destruct (fault env k); [discriminate|].
  destruct (existsb _ _) eqn:E; inversion upserted; simpl.
  - left. repeat split; reflexivity.
  - right. split; reflexivity.
Qed.

Lemma upsert_keeps_one_per_day :
  Spec.one_report_per_day db -> Spec.one_report_per_day db'.
Proof.
  intros Hinv u b d. unfold Spec.reports_of.
  destruct upsert_reports as [(_ & -> & _) | (Hnew & ->)].
  - rewrite filter_map_stable by apply touch_key. rewrite length_map. apply Hinv.
  - rewrite filter_app, length_app. simpl.
    destruct (Sql.same_key u b d _) eqn:K; simpl.
    + apply same_key_true in K. simpl in K. destruct K as (-> & -> & ->).
      rewrite (existsb_false_filter _ _ Hnew). simpl. lia.
    + specialize (Hinv u b d). unfold Spec.reports_of in Hinv. lia.
Qed.

(** After the upsert the triple has exactly one row, and the row
    carries the submitted values and the time of the upsert. *)
Lemma upsert_row :
  Spec.one_report_per_day db ->
  exists row,
    Spec.reports_of db' userId batchId date = [row]
    /\ r_tasks_completed row = tasks /\ r_challenges row = challenges
    /\ r_hours_worked row = hours /\ r_notes row = notes
    /\ r_updated_at row = now env.
Proof.
  intros Hinv. unfold Spec.reports_of.
  destruct upsert_reports as [(Hold & -> & _) | (Hnew & ->)].
  - rewrite filter_map_stable by apply touch_key.
    specialize (Hinv userId batchId date). unfold Spec.reports_of in Hinv.
    apply existsb_true_filter in Hold.
    destruct (filter (Sql.same_key userId batchId date) (daily_reports db))
      as [|old [|other rest]] eqn:F; [contradiction| |simpl in Hinv; lia].
    assert (K : Sql.same_key userId batchId date old = true).
    { assert (Hin : In old (filter (Sql.same_key userId batchId date) (daily_reports db)))
        by (rewrite F; left; reflexivity).
      apply filter_In in Hin. apply Hin. }
    exists (touch old). simpl. unfold Sql.on_conflict. rewrite K. simpl.
    repeat split; reflexivity.
  - rewrite filter_app, (existsb_false_filter _ _ Hnew). simpl.
    unfold Sql.same_key at 1. simpl. rewrite !Z.eqb_refl, String.eqb_refl. simpl.
    eexists. split; [reflexivity|]. simpl. repeat split; reflexivity.
Qed.

(** A row that was there before the upsert is still the only row of its
    triple, under the same id and with the same creation time. *)
Lemma upsert_keeps_origin (u b : Z) (d : string) (old : Report) :
  Spec.reports_of db u b d = [old] ->
  exists row,
    Spec.reports_of db' u b d = [row]
    /\ r_id row = r_id old /\ r_created_at row = r_created_at old.
Proof.
  unfold Spec.reports_of. intros Hold.
  destruct upsert_reports as [(_ & -> & _) | (Hnew & ->)].
  - rewrite filter_map_stable by apply touch_key. rewrite Hold. simpl.
    exists (touch old). split; [reflexivity|]. apply touch_origin.
  - rewrite filter_app, Hold. simpl.
    destruct (Sql.same_key u b d _) eqn:K; simpl.
    + apply same_key_true in K. simpl in K. destruct K as (-> & -> & ->).
      rewrite (existsb_false_filter _ _ Hnew) in Hold. discriminate.
    + exists old. repeat split; reflexivity.
Qed.

(** Upserting a triple that has a row adds no row. *)
Lemma upsert_adds_no_row (old : Report) :
  Spec.reports_of db userId batchId date = [old] ->
  List.length (daily_reports db') = List.length (daily_reports db).
Proof.
  unfold Spec.reports_of. intros Hold.
  destruct upsert_reports as [(_ & -> & _) | (Hnew & _)].
  - apply length_map.
  - rewrite (existsb_false_filter _ _ Hnew) in Hold. discriminate.
Qed.

End Upsert.

(** ** The report table under every request *)

Ltac branches :=
  repeat match goal with
         | |- context [match ?x with _ => _ end] =>
           lazymatch x with
           | context [match _ with _ => _ end] => fail
           | _ => destruct x; simpl
           end
         end;
  try reflexivity.

Lemma register_keeps_reports (env : Env) (hashed : option string)
    (body : Server.RegisterBody) (db : Database) :
  daily_reports (fst (Server.register env hashed body db)) = daily_reports db.
Proof. unfold Server.register, Sql.insert_user. branches. Qed.

Lemma createBatch_keeps_reports (env : Env) (caller : Caller)
    (body : Server.BatchBody) (db : Database) :
  daily_reports (fst (Server.createBatch env caller body db)) = daily_reports db.
Proof. unfold Server.createBatch, Sql.insert_batch. branches. Qed.

Lemma enroll_keeps_reports (env : Env) (caller : Caller) (batchId : Z) (db : Database) :
  daily_reports (fst (Server.enroll env caller batchId db)) = daily_reports db.
Proof. unfold Server.enroll, Sql.call, Sql.insert_enrollment. branches. Qed.

(** Every request either leaves the report table as it is or is a
    report submission that reached the upsert. *)
Lemma handle_reports (env : Env) (request : Server.Request) (db : Database) :
  daily_reports (fst (Server.handle env request db)) = daily_reports db
  \/ exists userId batchId date tasks challenges hours notes,
       Sql.upsert_report env 1 db userId batchId date tasks challenges hours notes
       = inr (fst (Server.handle env request db)).
Proof.
  destruct request as [hashed body | caller body | caller batchId | caller body]; simpl.
  - left. apply register_keeps_reports.
  - left. apply createBatch_keeps_reports.
  - left. apply enroll_keeps_reports.
  - destruct (submit_outcome env caller body db)
      as [(Hsame & _) | (batch & date & tasks & hours & e & _ & _ & Hu & _)].
    + left. rewrite Hsame. reflexivity.
    + right. exists (c_id caller), batch, date, tasks, (Server.challenges body), hours,
        (Server.notes body). exact Hu.
Qed.

Lemma handle_keeps_one_per_day (env : Env) (request : Server.Request) (db : Database) :
  Spec.one_report_per_day db ->
  Spec.one_report_per_day (fst (Server.handle env request db)).
Proof.
  intros Hinv.
  destruct (handle_reports env request db)
    as [Hsame | (u & b & d & t & c & h & n & Hu)].
  - intros u b d. unfold Spec.reports_of. rewrite Hsame. apply Hinv.
  - exact (upsert_keeps_one_per_day _ _ _ _ _ _ _ _ _ _ _ Hu Hinv).
Qed.

Lemma handle_keeps_origin (env : Env) (request : Server.Request) (db : Database)
    (u b : Z) (d : string) (old : Report) :
  Spec.reports_of db u b d = [old] ->
  exists row,
    Spec.reports_of (fst (Server.handle env request db)) u b d = [row]
    /\ r_id row = r_id old /\ r_created_at row = r_created_at old.
Proof.
  intros Hold.
  destruct (handle_reports env request db)
    as [Hsame | (u' & b' & d' & t & c & h & n & Hu)].
  - exists old. unfold Spec.reports_of in *. rewrite Hsame. auto.
  - exact (upsert_keeps_origin _ _ _ _ _ _ _ _ _ _ _ Hu u b d old Hold).
Qed.

Lemma reachable_one_per_day (db0 db : Database) :
  Spec.one_report_per_day db0 -> Server.reachable db0 db ->
  Spec.one_report_per_day db.
Proof.
  intros H0 Hreach. induction Hreach as [|db env request _ IH]; [exact H0|].
  apply handle_keeps_one_per_day. exact IH.
Qed.

Lemma reachable_keeps_origin (db0 db : Database) (u b : Z) (d : string) (old : Report) :
  Spec.reports_of db0 u b d = [old] -> Server.reachable db0 db ->
  exists row,
    Spec.reports_of db u b d = [row]
    /\ r_id row = r_id old /\ r_created_at row = r_created_at old.
Proof.
  intros H0 Hreach. induction Hreach as [|db env request _ IH].
  - exists old. auto.
  - destruct IH as (mid & Hmid & Hid & Hcreated).
    destruct (handle_keeps_origin env request db u b d mid Hmid)
      as (row & Hrow & Hid' & Hcreated').
    exists row. split; [exact Hrow|]. split; congruence.
Qed.

Lemma empty_table_one_per_day (db : Database) :
  daily_reports db = [] -> Spec.one_report_per_day db.
Proof.
  intros H u b d. unfold Spec.reports_of. rewrite H. simpl. lia.
Qed.

(** A submission answered with 200 passed the three checks. *)
Lemma submit_accepted (env : Env) (caller : Caller) (body : Server.ReportBody)
    (db db' : Database) (json : Json) :
  Server.submitReport env caller body db = (db', Respond 200 json) ->
  exists batch date tasks hours,
    Spec.required_fields body batch date tasks hours
    /\ Spec.enrolled db (c_id caller) batch
    /\ Sql.upsert_report env 1 db (c_id caller) batch date tasks
         (Server.challenges body) hours (Server.notes body) = inr db'.
Proof.
  intros H.
  destruct (submit_outcome env caller body db)
    as [(_ & status & message & Hsnd & Hstatus)
       | (batch & date & tasks & hours & e & Hreq & He & Hu & _)];
    rewrite H in *; simpl in *.
  - inversion Hsnd. lia.
  - exists batch, date, tasks, hours. split; [exact Hreq|]. split; [|exact Hu].
    destruct (Sql.enrollment_of db (c_id caller) batch) eqn:E; [|discriminate].
    apply find_some in E. destruct E as [Hin Hk].
    exists e0. apply andb_true_iff in Hk. rewrite !Z.eqb_eq in Hk. tauto.
Qed.

(** C2.  No sequence of requests ever leaves two report rows for one
    (user, batch, date) triple.  When a user submits a report and later,
    after any number of other requests, submits again for the same batch
    and date, the triple has exactly one row: it carries the tasks,
    challenges, hours and notes of the second submission, its updated_at
    is the time of the second submission, its created_at and id are those
    of the row the first submission left, and the table has no more rows
    than before the second submission. *)
Theorem resubmission_updates_in_place :
  (forall db0 db,
      daily_reports db0 = [] -> Server.reachable db0 db -> Spec.one_report_per_day db)
  /\ (forall db0 db,
      Spec.one_report_per_day db0 -> Server.reachable db0 db ->
      Spec.one_report_per_day db)
  /\ (forall env1 env2 caller first second db db1 before db2 json1 json2 batch date,
      Spec.one_report_per_day db ->
      Server.batch_id first = Some batch -> Server.report_date first = Some date ->
      Server.batch_id second = Some batch -> Server.report_date second = Some date ->
      Server.submitReport env1 caller first db = (db1, Respond 200 json1) ->
      Server.reachable db1 before ->
      Server.submitReport env2 caller second before = (db2, Respond 200 json2) ->
      Spec.updated_in_place db1 before db2 (c_id caller) batch date second (now env2)
      /\ Spec.one_report_per_day db2).
Proof.
  split; [|split].
  - intros db0 db H0. apply reachable_one_per_day. apply empty_table_one_per_day, H0.
  - apply reachable_one_per_day.
  - intros env1 env2 caller first second db db1 before db2 json1 json2 batch date
      Hinv Hb1 Hd1 Hb2 Hd2 Hfirst Hreach Hsecond.
    apply submit_accepted in Hfirst.
    destruct Hfirst as (b1 & d1 & t1 & h1 & Hreq1 & _ & Hu1).
    destruct Hreq1 as (Eb1 & _ & Ed1 & _).
    rewrite Hb1 in Eb1. rewrite Hd1 in Ed1.
    injection Eb1 as <-. injection Ed1 as <-.
    destruct (upsert_row _ _ _ _ _ _ _ _ _ _ _ Hu1 Hinv) as (original & Horiginal & _).
    pose proof (upsert_keeps_one_per_day _ _ _ _ _ _ _ _ _ _ _ Hu1 Hinv) as Hinv1.
    pose proof (reachable_one_per_day _ _ Hinv1 Hreach) as Hinv'.
    destruct (reachable_keeps_origin _ _ _ _ _ _ Horiginal Hreach)
      as (mid & Hmid & Hmid_id & Hmid_created).
    apply submit_accepted in Hsecond.
    destruct Hsecond as (b2 & d2 & t2 & h2 & Hreq2 & _ & Hu2).
    destruct Hreq2 as (Eb2 & _ & Ed2 & _ & Et2 & _ & Eh2 & _).
    rewrite Hb2 in Eb2. rewrite Hd2 in Ed2.
    injection Eb2 as <-. injection Ed2 as <-.
    destruct (upsert_row _ _ _ _ _ _ _ _ _ _ _ Hu2 Hinv')
      as (row & Hrow & Htasks & Hchallenges & Hhours & Hnotes & Hupdated).
    destruct (upsert_keeps_origin _ _ _ _ _ _ _ _ _ _ _ Hu2 _ _ _ _ Hmid)
      as (row' & Hrow' & Hid & Hcreated).
    rewrite Hrow in Hrow'. injection Hrow' as <-.
    split.
    + exists original, row. repeat split; try assumption; try congruence.
      exact (upsert_adds_no_row _ _ _ _ _ _ _ _ _ _ _ Hu2 mid Hmid).
    + exact (upsert_keeps_one_per_day _ _ _ _ _ _ _ _ _ _ _ Hu2 Hinv').
Qed.

(** ** Where the rows of the report table come from *)

(** A row found after an upsert was there before, or is the row of the
    upserted triple and carries the submitted hours. *)
Lemma upsert_rows (env : Env) (k : nat) (db db' : Database) (userId batchId : Z)
    (date tasks : string) (challenges : option string) (hours : Q)
    (notes : option string) (row : Report) :
  Sql.upsert_report env k db userId batchId date tasks challenges hours notes = inr db' ->
  In row (daily_reports db') ->
  In row (daily_reports db)
  \/ (r_user_id row = userId /\ r_batch_id row = batchId /\ r_report_date row = date
      /\ r_hours_worked row = hours).
Proof.
  intros Hu Hin.
  destruct (upsert_reports _ _ _ _ _ _ _ _ _ _ _ Hu) as [(_ & E & _) | (_ & E)];
    rewrite E in Hin.
  - apply in_map_iff in Hin. destruct Hin as (old & <- & Hold).
    unfold Sql.on_conflict.
    destruct (Sql.same_key userId batchId date old) eqn:K.
    + right. apply same_key_true in K. simpl. tauto.
    + left. exact Hold.
  - apply in_app_or in Hin. destruct Hin as [Hin | [<- | []]].
    + left. exact Hin.
    + right. simpl. tauto.
Qed.

Lemma handle_rows (env : Env) (request : Server.Request) (db : Database) (row : Report) :
  In row (daily_reports (fst (Server.handle env request db))) ->
  In row (daily_reports db)
  \/ (Spec.enrolled db (r_user_id row) (r_batch_id row) /\ ~ r_hours_worked row == 0).
Proof.
  destruct request as [hashed body | caller body | caller batchId | caller body]; simpl.
  - rewrite register_keeps_reports. auto.
  - rewrite createBatch_keeps_reports. auto.
  - rewrite enroll_keeps_reports. auto.
  - destruct (submit_outcome env caller body db)
      as [(Hsame & _) | (batch & date & tasks & hours & e & Hreq & He & Hu & _)].
    + rewrite Hsame. auto.
    + intros Hin. destruct (upsert_rows _ _ _ _ _ _ _ _ _ _ _ _ Hu Hin)
        as [Hold | (-> & -> & _ & ->)]; [left; exact Hold|].
      right. split.
      * apply find_some in He. destruct He as [Hin' Hk].
        exists e. apply andb_true_iff in Hk. rewrite !Z.eqb_eq in Hk. tauto.
      * apply Hreq.
Qed.

(** Enrollment rows are never removed. *)
Lemma handle_keeps_enrolled (env : Env) (request : Server.Request) (db : Database)
    (u b : Z) :
  Spec.enrolled db u b -> Spec.enrolled (fst (Server.handle env request db)) u b.
Proof.
  assert (grow : forall db', (exists extra, enrollments db' = enrollments db ++ extra) ->
                             Spec.enrolled db u b -> Spec.enrolled db' u b).
  { intros db' (extra & E) (e & Hin & Hk). exists e. rewrite E.
    split; [apply in_or_app; left; exact Hin | exact Hk]. }
  apply grow.
  destruct request as [hashed body | caller body | caller batchId | caller body]; simpl.
  - unfold Server.register, Sql.insert_user. branches;
      exists []; rewrite app_nil_r; reflexivity.
  - unfold Server.createBatch, Sql.insert_batch. branches;
      exists []; rewrite app_nil_r; reflexivity.
  - unfold Server.enroll, Sql.call, Sql.insert_enrollment. branches;
      first [exists []; rewrite app_nil_r; reflexivity | eexists; reflexivity].
  - destruct (submit_outcome env caller body db)
      as [(Hsame & _) | (batch & date & tasks & hours & e & _ & _ & Hu & _)].
    + rewrite Hsame. exists []. rewrite app_nil_r. reflexivity.
    + destruct (upsert_other_tables _ _ _ _ _ _ _ _ _ _ _ Hu) as (_ & _ & E).
      rewrite E. exists []. rewrite app_nil_r. reflexivity.
Qed.

Lemma reachable_reports_enrolled (db0 db : Database) :
  Spec.reports_enrolled db0 -> Server.reachable db0 db -> Spec.reports_enrolled db.
Proof.
  intros H0 Hreach. induction Hreach as [|db env request _ IH]; [exact H0|].
  intros row Hin. apply handle_keeps_enrolled.
  destruct (handle_rows env request db row Hin) as [Hold | [Hnew _]].
  - apply IH. exact Hold.
  - exact Hnew.
Qed.


(** ** Witnesses for enrollment and resubmission *)

Lemma enroll_checks_in_order_witness :
  snd (Server.enroll (calm 25) Sample.bob 1 Sample.db)
  = Respond 200 (JsonMessage "Enrolled successfully")
  /\ Sql.enrollment_count (fst (Server.enroll (calm 25) Sample.bob 1 Sample.db)) 1 = 2.
Proof.
  destruct (enroll_checks_in_order 25 Sample.bob 1 Sample.db) as [_ H].
  destruct H as (batch & Hbatch & _ & _ & _ & _ & _ & _ & Hlast).
  - eexists. split; [left; reflexivity | reflexivity].
  - injection Hbatch as <-. apply Hlast.
    + reflexivity.
    + intros (e & [<- | []] & Hu & _). discriminate Hu.
Defined.

Lemma resubmission_updates_in_place_witness :
  Spec.updated_in_place Sample.after_first Sample.in_between Sample.after_second
    2 1 "2026-01-05" (Sample.report (Some "tables") (Some (13 # 2))) 30
  /\ Spec.one_report_per_day Sample.after_second.
Proof.
  destruct resubmission_updates_in_place as (_ & _ & H).
  apply (H (calm 20) (calm 30) Sample.alice
           (Sample.report (Some "forms") (Some (4 # 1)))
           (Sample.report (Some "tables") (Some (13 # 2)))
           Sample.db Sample.after_first Sample.in_between Sample.after_second
           (JsonCreated "Report submitted successfully" 1)
           (JsonCreated "Report submitted successfully" 2)).
  - intros u b d. simpl. lia.
  - reflexivity.
  - reflexivity.
  - reflexivity.
  - reflexivity.
  - reflexivity.
  - apply (Server.reachable_step Sample.after_first Sample.after_first (calm 25)
             (Server.Enroll Sample.bob 1)).
    apply Server.reachable_start.
  - reflexivity.
Defined.

(** ** The checks of a report submission *)

Lemma required_fields_pass (body : Server.ReportBody) (batch : Z) (date tasks : string)
    (hours : Q) :
  Spec.required_fields body batch date tasks hours ->
  negb (Js.truthy_int (Server.batch_id body))
  || negb (Js.truthy_string (Server.report_date body))
  || negb (Js.truthy_string (Server.tasks_completed body))
  || negb (Js.truthy_number (Server.hours_worked body)) = false.
Proof.
  intros (-> & Hb & -> & Hd & -> & Ht & -> & Hh). simpl.
  apply Z.eqb_neq in Hb. apply String.eqb_neq in Hd. apply String.eqb_neq in Ht.
  rewrite Hb, Hd, Ht. simpl.
  destruct (Qeq_bool hours 0) eqn:E; [|reflexivity].
  apply Qeq_bool_iff in E. contradiction.
Qed.

(** The answer to a submission whose required fields are present. *)
Lemma submit_with_fields (env : Env) (caller : Caller) (body : Server.ReportBody)
    (db : Database) (batch : Z) (date tasks : string) (hours : Q) :
  Spec.required_fields body batch date tasks hours ->
  Server.submitReport env caller body db
  = match Sql.call env 0 (Sql.enrollment_of db (c_id caller) batch) with
    | inl _ | inr None => (db, Respond 403 (JsonError "Not enrolled in this batch"))
    | inr (Some _) =>
      match Sql.upsert_report env 1 db (c_id caller) batch date tasks
              (Server.challenges body) hours (Server.notes body) with
      | inl _ => (db, Respond 500 (JsonError "Failed to submit report"))
      | inr db' =>
        (db', Respond 200
                (JsonCreated "Report submitted successfully" (last_insert_rowid db')))
      end
    end.
Proof.
  intros Hreq. unfold Server.submitReport.
  rewrite (required_fields_pass _ _ _ _ _ Hreq).
  destruct Hreq as (-> & _ & -> & _ & -> & _ & -> & _). reflexivity.
Qed.

Lemma submit_missing_field (env : Env) (caller : Caller) (body : Server.ReportBody)
    (db : Database) :
  Js.truthy_int (Server.batch_id body) = false
  \/ Js.truthy_string (Server.report_date body) = false
  \/ Js.truthy_string (Server.tasks_completed body) = false
  \/ Js.truthy_number (Server.hours_worked body) = false ->
  Server.submitReport env caller body db
  = (db, Respond 400 (JsonError "Required fields missing")).
Proof.
  intros H. unfold Server.submitReport.
  destruct (_ || _ || _ || _) eqn:E; [reflexivity|].
  rewrite !orb_false_iff, !negb_false_iff in E.
  destruct E as (((E1 & E2) & E3) & E4).
  destruct H as [H | [H | [H | H]]]; congruence.
Qed.

(** C3, as the code has it.  A submission for a batch in which the caller
    has no enrollment never touches the store and is always refused: with
    403 "Not enrolled in this batch" when its required fields are
    present, with 400 "Required fields missing" when one of them is
    missing, 0 or empty (the fields are checked first, so the answer is
    400 exactly when a field is missing).  In every store the server can
    reach, every report row belongs to a (user, batch) pair that has an
    enrollment. *)
Theorem unenrolled_submission_refused :
  (forall env caller body db batch,
      Server.batch_id body = Some batch ->
      ~ Spec.enrolled db (c_id caller) batch ->
      let after := Server.submitReport env caller body db in
      fst after = db
      /\ (snd after = Respond 403 (JsonError "Not enrolled in this batch")
          \/ snd after = Respond 400 (JsonError "Required fields missing"))
      /\ (forall date tasks hours,
             Spec.required_fields body batch date tasks hours ->
             snd after = Respond 403 (JsonError "Not enrolled in this batch"))
      /\ (snd after = Respond 400 (JsonError "Required fields missing")
          <-> Js.truthy_int (Server.batch_id body) = false
              \/ Js.truthy_string (Server.report_date body) = false
              \/ Js.truthy_string (Server.tasks_completed body) = false
              \/ Js.truthy_number (Server.hours_worked body) = false))
  /\ (forall db0 db,
      Spec.reports_enrolled db0 -> Server.reachable db0 db -> Spec.reports_enrolled db).
Proof.
  split; [|exact reachable_reports_enrolled].
  intros env caller body db batch Hbatch Hnot after.
  assert (Horder : snd after = Respond 400 (JsonError "Required fields missing")
                   <-> Js.truthy_int (Server.batch_id body) = false
                       \/ Js.truthy_string (Server.report_date body) = false
                       \/ Js.truthy_string (Server.tasks_completed body) = false
                       \/ Js.truthy_number (Server.hours_worked body) = false).
  { split.
    - intros Hanswer.
      destruct (Js.truthy_int (Server.batch_id body)) eqn:E1; [|auto].
      destruct (Js.truthy_string (Server.report_date body)) eqn:E2; [|auto].
      destruct (Js.truthy_string (Server.tasks_completed body)) eqn:E3; [|auto].
      destruct (Js.truthy_number (Server.hours_worked body)) eqn:E4; [|auto].
      exfalso. unfold after, Server.submitReport in Hanswer.
      rewrite E1, E2, E3, E4 in Hanswer. simpl in Hanswer.
      destruct (Server.batch_id body); [|discriminate].
      destruct (Server.report_date body); [|discriminate].
      destruct (Server.tasks_completed body); [|discriminate].
      destruct (Server.hours_worked body); [|discriminate].
      destruct (Sql.call env 0 _) as [msg | [e|]]; try discriminate.
      destruct (Sql.upsert_report _ _ _ _ _ _ _ _ _ _); discriminate.
    - intros Hmissing. unfold after.
      rewrite (submit_missing_field env caller body db Hmissing). reflexivity. }
  apply enrollment_of_none in Hnot.
  assert (Hwith : forall date tasks hours,
             Spec.required_fields body batch date tasks hours ->
             after = (db, Respond 403 (JsonError "Not enrolled in this batch"))).
  { intros date tasks hours Hreq. unfold after.
    rewrite (submit_with_fields _ _ _ _ _ _ _ _ Hreq). unfold Sql.call.
    rewrite Hnot. destruct (fault env 0); reflexivity. }
  destruct (submit_outcome env caller body db)
    as [(Hsame & _) | (b & date & tasks & hours & e & Hreq & He & _)].
  - split; [exact Hsame|]. split.
    + destruct (negb (Js.truthy_int (Server.batch_id body))
                || negb (Js.truthy_string (Server.report_date body))
                || negb (Js.truthy_string (Server.tasks_completed body))
                || negb (Js.truthy_number (Server.hours_worked body))) eqn:E.
      * right. unfold after, Server.submitReport. rewrite E. reflexivity.
      * left. unfold after, Server.submitReport. rewrite E.
        rewrite !orb_false_iff, !negb_false_iff in E.
        destruct E as (((E1 & E2) & E3) & E4). rewrite Hbatch in *.
        destruct (Server.report_date body); [|discriminate].
        destruct (Server.tasks_completed body); [|discriminate].
        destruct (Server.hours_worked body); [|discriminate].
        unfold Sql.call. rewrite Hnot. destruct (fault env 0); reflexivity.
    + split; [|exact Horder].
      intros date tasks hours Hreq. fold after. rewrite (Hwith _ _ _ Hreq). reflexivity.
  - pose proof Hreq as (Eb & _). rewrite Hbatch in Eb. injection Eb as <-.
    rewrite Hnot in He. discriminate.
Qed.

Lemma unenrolled_submission_refused_witness :
  fst (Server.submitReport (calm 20) Sample.bob
         (Sample.report (Some "forms") (Some (4 # 1))) Sample.db) = Sample.db
  /\ snd (Server.submitReport (calm 20) Sample.bob
            (Sample.report (Some "forms") (Some (4 # 1))) Sample.db)
     = Respond 403 (JsonError "Not enrolled in this batch")
  /\ snd (Server.submitReport (calm 20) Sample.bob
            (Sample.report (Some EmptyString) (Some (4 # 1))) Sample.db)
     = Respond 400 (JsonError "Required fields missing").
Proof.
  destruct unenrolled_submission_refused as [H _].
  assert (Hbob : ~ Spec.enrolled Sample.db (c_id Sample.bob) 1).
  { intros (e & [<- | []] & Hu & _). discriminate Hu. }
  destruct (H (calm 20) Sample.bob (Sample.report (Some "forms") (Some (4 # 1)))
              Sample.db 1 eq_refl Hbob) as (Hdb & _ & Hfields & _).
  destruct (H (calm 20) Sample.bob (Sample.report (Some EmptyString) (Some (4 # 1)))
              Sample.db 1 eq_refl Hbob) as (_ & _ & _ & Horder).
  split; [exact Hdb|]. split.
  - apply (Hfields "2026-01-05" "forms" (4 # 1)).
    repeat split; try reflexivity; discriminate.
  - apply Horder. right. right. left. reflexivity.
Defined.

(** C3 as stated fails: bob has no enrollment in batch 1, and his
    submission without hours is refused as a validation error (400), not
    as NotEnrolled (403). *)
Lemma unenrolled_submission_validation_first :
  ~ Spec.enrolled Sample.db (c_id Sample.bob) 1
  /\ Server.submitReport (calm 20) Sample.bob (Sample.report (Some "forms") None) Sample.db
     = (Sample.db, Respond 400 (JsonError "Required fields missing"))
  /\ snd (Server.submitReport (calm 20) Sample.bob (Sample.report (Some "forms") None)
            Sample.db)
     <> Respond 403 (JsonError "Not enrolled in this batch").
Proof.
  split; [|split].
  - intros (e & [<- | []] & Hu & _). discriminate Hu.
  - reflexivity.
  - discriminate.
Qed.

(** C4, as the code has it.  A submission whose tasks or hours field is
    absent is refused with 400 "Required fields missing".  Nothing
    checks the sign of the hours: when the required fields are present
    (none of them 0 or empty) and the caller is enrolled, the submission
    is accepted and the row of its triple carries the hours as
    submitted, negative or not. *)
Theorem hours_required_sign_unchecked :
  (forall env caller body db,
      Server.tasks_completed body = None \/ Server.hours_worked body = None ->
      Server.submitReport env caller body db
      = (db, Respond 400 (JsonError "Required fields missing")))
  /\ (forall t caller body db batch date tasks hours,
      Spec.required_fields body batch date tasks hours ->
      Spec.enrolled db (c_id caller) batch ->
      Spec.one_report_per_day db ->
      let after := Server.submitReport (calm t) caller body db in
      snd after
      = Respond 200
          (JsonCreated "Report submitted successfully" (last_insert_rowid (fst after)))
      /\ exists row,
           Spec.reports_of (fst after) (c_id caller) batch date = [row]
           /\ r_hours_worked row = hours).
Proof.
  split.
  - intros env caller body db H. apply submit_missing_field.
    destruct H as [H | H]; rewrite H; simpl; auto.
  - intros t caller body db batch date tasks hours Hreq Henrolled Hinv after.
    unfold after. rewrite (submit_with_fields _ _ _ _ _ _ _ _ Hreq).
    destruct (enrollment_of_some db _ _ Henrolled) as [e He].
    unfold Sql.call. simpl. rewrite He.
    destruct (Sql.upsert_report (calm t) 1 db (c_id caller) batch date tasks
                (Server.challenges body) hours (Server.notes body))
      as [msg | db'] eqn:Hu.
    + unfold Sql.upsert_report in Hu. simpl in Hu.
      destruct (existsb _ _); discriminate.
    + simpl. split; [reflexivity|].
      destruct (upsert_row _ _ _ _ _ _ _ _ _ _ _ Hu Hinv)
        as (row & Hrow & _ & _ & Hhours & _).
      exists row. split; assumption.
Qed.

Lemma hours_required_sign_unchecked_witness :
  Server.submitReport (calm 20) Sample.alice (Sample.report (Some "forms") None) Sample.db
  = (Sample.db, Respond 400 (JsonError "Required fields missing"))
  /\ exists row,
       Spec.reports_of
         (fst (Server.submitReport (calm 20) Sample.alice
                 (Sample.report (Some "forms") (Some (- 3 # 1))) Sample.db))
         2 1 "2026-01-05" = [row]
       /\ r_hours_worked row = - 3 # 1.
Proof.
  destruct hours_required_sign_unchecked as [Habsent Hpresent]. split.
  - apply Habsent. right. reflexivity.
  - apply (Hpresent 20 Sample.alice (Sample.report (Some "forms") (Some (- 3 # 1)))
             Sample.db 1 "2026-01-05" "forms" (- 3 # 1)).
    + repeat split; try reflexivity; discriminate.
    + eexists. split; [left; reflexivity|]. split; reflexivity.
    + intros u b d. simpl. lia.
Defined.

(** C4 as stated fails: alice is enrolled in batch 1 and her report of
    -3 hours is accepted and stored. *)
Lemma negative_hours_accepted :
  let after :=
    Server.submitReport (calm 20) Sample.alice
      (Sample.report (Some "forms") (Some (- 3 # 1))) Sample.db in
  snd after = Respond 200 (JsonCreated "Report submitted successfully" 1)
  /\ exists row,
       daily_reports (fst after) = [row]
       /\ r_user_id row = 2 /\ r_batch_id row = 1
       /\ (r_hours_worked row < 0)%Q.
Proof.
  simpl. split; [reflexivity|].
  eexists. split; [reflexivity|]. simpl. repeat split; reflexivity.
Qed.






(** ** Querying reports *)

Lemma in_insert_sorted (x y : Sql.ReportRow) (rows : list Sql.ReportRow) :
  In y (Sql.insert_sorted x rows) -> y = x \/ In y rows.
Proof.
  induction rows as [|z rows IH]; simpl.
  - intros [<- | []]. left. reflexivity.
  - destruct (Sql.precedes x z); simpl.
    + intros [<- | H]; [left; reflexivity | right; exact H].
    + intros [<- | H]; [right; left; reflexivity|].
      destruct (IH H) as [-> | H']; [left; reflexivity | right; right; exact H'].
Qed.

Lemma in_order_by (y : Sql.ReportRow) (rows : list Sql.ReportRow) :
  In y (Sql.order_by_date_desc rows) -> In y rows.
Proof.
  unfold Sql.order_by_date_desc. induction rows as [|x rows IH]; simpl; [auto|].
  intros H. destruct (in_insert_sorted _ _ _ H) as [-> | H'].
  - left. reflexivity.
  - right. apply IH. exact H'.
Qed.

Lemma in_limit_rows (n : Z) (y : Sql.ReportRow) (rows : list Sql.ReportRow) :
  In y (Sql.limit_rows n rows) -> In y rows.
Proof.
  unfold Sql.limit_rows. destruct (n <? 0); [auto|].
  intros H. rewrite <- (firstn_skipn (Z.to_nat n) rows).
  apply in_or_app. left. exact H.
Qed.

(** A selected row meets every condition of the query. *)
Lemma select_reports_sound (db : Database) (conditions : list (Report -> bool))
    (limit : Z) (row : Sql.ReportRow) :
  In row (Sql.select_reports db conditions limit) ->
  forall c, In c conditions -> c (Sql.row_report row) = true.
Proof.
  unfold Sql.select_reports. intros H c Hc.
  apply in_limit_rows, in_order_by, filter_In in H. destruct H as [_ H].
  rewrite forallb_forall in H. apply H. exact Hc.
Qed.

(** For a student the user filter of the request adds no condition. *)
Lemma student_conditions (caller : Caller) (q1 q2 : Server.ReportQuery) :
  c_role caller = "student" ->
  Server.q_batch_id q1 = Server.q_batch_id q2 ->
  Server.q_start_date q1 = Server.q_start_date q2 ->
  Server.q_end_date q1 = Server.q_end_date q2 ->
  Server.report_conditions caller q1 = Server.report_conditions caller q2.
Proof.
  intros Hrole Hb Hs He. unfold Server.report_conditions.
  rewrite Hrole, Hb, Hs, He. simpl.
  destruct (Server.q_user_id q1), (Server.q_user_id q2); reflexivity.
Qed.

(** C5.  For a caller whose role is student, every report returned by a
    report query has the caller's id as user_id, whatever user_id filter
    the request carries; and two requests that differ only in their
    user_id filter get the same answer. *)
Theorem student_sees_own_reports (env : Env) (caller : Caller) (db : Database) :
  c_role caller = "student" ->
  (forall query rows row,
      Server.queryReports env caller query db = Result rows ->
      In row rows -> r_user_id (Sql.row_report row) = c_id caller)
  /\ (forall q1 q2,
      Server.q_batch_id q1 = Server.q_batch_id q2 ->
      Server.q_start_date q1 = Server.q_start_date q2 ->
      Server.q_end_date q1 = Server.q_end_date q2 ->
      Server.q_limit q1 = Server.q_limit q2 ->
      Server.queryReports env caller q1 db = Server.queryReports env caller q2 db).
Proof.
  intros Hrole. split.
  - intros query rows row Hq Hin. unfold Server.queryReports, Sql.call in Hq.
    destruct (fault env 0); [discriminate|]. injection Hq as <-.
    apply Z.eqb_eq.
    apply (select_reports_sound _ _ _ _ Hin (fun r => r_user_id r =? c_id caller)).
    unfold Server.report_conditions. rewrite Hrole. left. reflexivity.
  - intros q1 q2 Hb Hs He Hl. unfold Server.queryReports.
    rewrite (student_conditions caller q1 q2 Hrole Hb Hs He), Hl. reflexivity.
Qed.

Lemma student_sees_own_reports_witness :
  (exists rows,
      Server.queryReports (calm 40) Sample.alice (Sample.reports_of_user (Some 3))
        Sample.both_reported = Result rows
      /\ rows <> []
      /\ Forall (fun row => r_user_id (Sql.row_report row) = 2) rows)
  /\ Server.queryReports (calm 40) Sample.alice (Sample.reports_of_user (Some 3))
       Sample.both_reported
     = Server.queryReports (calm 40) Sample.alice (Sample.reports_of_user None)
         Sample.both_reported.
Proof.
  destruct (student_sees_own_reports (calm 40) Sample.alice Sample.both_reported eq_refl)
    as [Hown Hsame].
  split.
  - eexists. split; [reflexivity|]. split; [discriminate|].
    apply Forall_forall. intros row Hin.
    apply (Hown (Sample.reports_of_user (Some 3)) _ row eq_refl Hin).
  - apply Hsame; reflexivity.
Defined.

(** ** Storage failures *)




(** The enrollment count query: its callback reads [result.count]
    without looking at [err], so a failure there is thrown out of the
    callback and no answer is sent. *)
Lemma enroll_count_failure_uncaught :
  Server.enroll (Sample.failing 1) Sample.bob 1 Sample.db
  = (Sample.db,
     Uncaught "TypeError: Cannot read properties of undefined (reading 'count')").
Proof. reflexivity. Qed.

(** ** Completion prediction *)

Lemma ge_nullable_spec (avg : option Q) (bound : Q) :
  Js.ge_nullable avg bound = true <-> (bound <= Spec.number_of avg)%Q.
Proof. destruct avg; simpl; apply Qle_bool_iff. Qed.

Ltac thresholds :=
  repeat match goal with
         | |- context [Z.leb ?a ?b] => destruct (Z.leb_spec a b); simpl
         | |- context [Z.ltb ?a ?b] => destruct (Z.ltb_spec a b); simpl
         | |- context [Js.ge_nullable ?a ?b] =>
           let E := fresh "E" in
           destruct (Js.ge_nullable a b) eqn:E; simpl;
           [apply ge_nullable_spec in E
           |apply not_true_iff_false in E; rewrite ge_nullable_spec in E]
         end.

(** C7.  The completion probability is one of 95, 80, 60, 40, 20 and is
    chosen by thresholds on the report count and the average hours:
    95 from 15 reports with an average of 6 hours, else 80 from 10
    reports with 5 hours, else 60 from 5 reports with 4 hours, else 40
    with at least one report, else 20.  It is the value the handler
    answers with.  On the reference table: 16 reports and 6.5 hours give
    95; 12 and 5.2 give 80; 7 and 4.1 give 60; 2 and 3 give 40; no
    report gives 20. *)
Theorem completion_probability_table :
  (forall data, In (Insights.completion_probability data) [95; 80; 60; 40; 20])
  /\ (forall data,
      exists answer,
        Insights.completionPrediction (inr data) = Result answer
        /\ Insights.completionProbability answer = Insights.completion_probability data
        /\ Insights.reportsSubmitted answer = Insights.reports_count data)
  /\ (forall n avg,
      let p := Insights.completion_probability
                 {| Insights.reports_count := n; Insights.avg_hours := avg |} in
      let a := Spec.number_of avg in
      (15 <= n -> (6 <= a)%Q -> p = 95)
      /\ (10 <= n -> (5 <= a)%Q -> ~ (15 <= n /\ (6 <= a)%Q) -> p = 80)
      /\ (5 <= n -> (4 <= a)%Q -> ~ (10 <= n /\ (5 <= a)%Q) -> p = 60)
      /\ (0 < n -> ~ (5 <= n /\ (4 <= a)%Q) -> p = 40)
      /\ (n <= 0 -> p = 20))
  /\ Insights.completion_probability
       {| Insights.reports_count := 16; Insights.avg_hours := Some (13 # 2) |} = 95
  /\ Insights.completion_probability
       {| Insights.reports_count := 12; Insights.avg_hours := Some (26 # 5) |} = 80
  /\ Insights.completion_probability
       {| Insights.reports_count := 7; Insights.avg_hours := Some (41 # 10) |} = 60
  /\ Insights.completion_probability
       {| Insights.reports_count := 2; Insights.avg_hours := Some (3 # 1) |} = 40
  /\ (forall avg,
      Insights.completion_probability
        {| Insights.reports_count := 0; Insights.avg_hours := avg |} = 20).
Proof.
  repeat match goal with |- _ /\ _ => split end; try reflexivity.
  - intros data. unfold Insights.completion_probability.
    destruct (_ && _); [simpl; tauto|].
    destruct (_ && _); [simpl; tauto|].
    destruct (_ && _); [simpl; tauto|].
    destruct (_ <? _); simpl; tauto.
  - intros data. eexists. split; [reflexivity|]. split; reflexivity.
  - intros n avg p a. unfold p, a, Insights.completion_probability. simpl.
    thresholds; repeat split; intros; try reflexivity; try lia; try tauto;
      first [ exfalso; lra
            | exfalso;
              match goal with
              | H : ~ (_ /\ _) |- _ => apply H; split; [lia | lra]
              end ].
Qed.

Lemma completion_probability_table_witness :
  Insights.completion_probability
    {| Insights.reports_count := 11; Insights.avg_hours := Some (11 # 2) |} = 80
  /\ Insights.completion_probability
       {| Insights.reports_count := 3; Insights.avg_hours := None |} = 40.
Proof.
  destruct completion_probability_table as (_ & _ & H & _).
  split.
  - destruct (H 11 (Some (11 # 2))) as (_ & H80 & _). apply H80.
    + lia.
    + simpl. lra.
    + intros [Hn _]. lia.
  - destruct (H 3 None) as (_ & _ & _ & H40 & _). apply H40.
    + lia.
    + intros [Hn _]. lia.
Defined.

(** ** Class insights *)

(** C8.  In the class insights of a batch the engagement level of a
    student is "High" from 15 reports, "Medium" from 10 to 14, "Low"
    below 10, and needsAttention is set exactly when the student has
    fewer than 5 reports.  So 15 reports give "High", 14 "Medium", 9
    "Low" without needsAttention, 4 "Low" with needsAttention. *)
Theorem engagement_tiers (caller : Caller) (batchId : Z)
    (rows : list Insights.StudentRow) (answer : Insights.ClassInsights)
    (student : Insights.StudentInsight) :
  Insights.classInsights caller batchId (inr rows) = Result answer ->
  In student (Insights.students answer) ->
  let n := Insights.totalReports student in
  (exists row, In row rows /\ student = Insights.student_insight row
               /\ n = Insights.total_reports row)
  /\ (15 <= n -> Insights.engagementLevel student = "High")
  /\ (10 <= n < 15 -> Insights.engagementLevel student = "Medium")
  /\ (n < 10 -> Insights.engagementLevel student = "Low")
  /\ (Insights.needsAttention student = true <-> n < 5)
  /\ (n = 15 -> Insights.engagementLevel student = "High")
  /\ (n = 14 -> Insights.engagementLevel student = "Medium")
  /\ (n = 9 -> Insights.engagementLevel student = "Low"
               /\ Insights.needsAttention student = false)
  /\ (n = 4 -> Insights.engagementLevel student = "Low"
               /\ Insights.needsAttention student = true).
Proof.
  intros Hanswer Hin n. unfold Insights.classInsights in Hanswer.
  destruct (negb _); [discriminate|]. injection Hanswer as <-. simpl in Hin.
  apply in_map_iff in Hin. destruct Hin as (row & <- & Hrow).
  split; [exists row; split; [exact Hrow | split; reflexivity]|].
  subst n. simpl.
  destruct (Z.leb_spec 15 (Insights.total_reports row));
    destruct (Z.leb_spec 10 (Insights.total_reports row));
    destruct (Z.ltb_spec (Insights.total_reports row) 5);
    repeat split; intros; try reflexivity; try lia; try discriminate.
Qed.

Lemma engagement_tiers_witness :
  Insights.engagementLevel
    (Insights.student_insight
       {| Insights.s_id := 2; Insights.s_full_name := "alice";
          Insights.total_reports := 9; Insights.s_avg_hours := Some (5 # 1);
          Insights.last_report := Some "2026-01-20" |}) = "Low"
  /\ Insights.needsAttention
       (Insights.student_insight
          {| Insights.s_id := 2; Insights.s_full_name := "alice";
             Insights.total_reports := 9; Insights.s_avg_hours := Some (5 # 1);
             Insights.last_report := Some "2026-01-20" |}) = false.
Proof.
  destruct (engagement_tiers Sample.carol 1
              [ {| Insights.s_id := 2; Insights.s_full_name := "alice";
                   Insights.total_reports := 9; Insights.s_avg_hours := Some (5 # 1);
                   Insights.last_report := Some "2026-01-20" |} ]
              _ _ eq_refl (or_introl eq_refl))
    as (_ & _ & _ & _ & _ & _ & _ & H9 & _).
  apply H9. reflexivity.
Defined.

(** ** Consistency *)

Lemma Qfloor_unique (y : Q) (n : Z) :
  (inject_Z n <= y)%Q -> (y < inject_Z n + 1)%Q -> Qfloor y = n.
Proof.
  intros Hlow Hhigh.
  pose proof (Qfloor_le y) as Hle. pose proof (Qlt_floor y) as Hlt.
  pose proof (Qle_lt_trans _ _ _ Hlow Hlt) as H1.
  pose proof (Qle_lt_trans _ _ _ Hle Hhigh) as H2.
  change 1%Q with (inject_Z 1) in H2. rewrite <- inject_Z_plus in H2.
  rewrite <- Zlt_Qlt in H1, H2. lia.
Qed.

Lemma round_half_up_nearest (x : Q) (n : Z) :
  (inject_Z n - (1 # 2) < x)%Q -> (x < inject_Z n + (1 # 2))%Q ->
  Js.round_half_up x = n /\ Insights.halfway x = false.
Proof.
  intros Hlow Hhigh.
  assert (Hfloor : Qfloor (x + (1 # 2)) = n).
  { apply Qfloor_unique; remember (inject_Z n) as q; lra. }
  split; [exact Hfloor|].
  unfold Insights.halfway. rewrite Hfloor.
  destruct (Qeq_bool (x + (1 # 2)) (inject_Z n)) eqn:E; [|reflexivity].
  apply Qeq_bool_iff in E. remember (inject_Z n) as q. lra.
Qed.

Lemma consistency_nonnegative (total days : Z) :
  0 <= total -> 0 < days -> (0 <= Spec.consistency total days)%Q.
Proof.
  intros Ht Hd. unfold Spec.consistency. apply Q.min_glb; [|lra].
  assert (H0 : (inject_Z 0 <= inject_Z total)%Q) by (rewrite <- Zle_Qle; exact Ht).
  assert (H1 : (inject_Z 0 < inject_Z days)%Q) by (rewrite <- Zlt_Qlt; exact Hd).
  change (inject_Z 0) with 0%Q in H0, H1.
  apply Qmult_le_0_compat; [|lra].
  apply Qle_shift_div_l; [exact H1|].
  rewrite Qmult_0_l. exact H0.
Qed.

Lemma calendar_day_truthy (text : string) (day : Z) :
  Js.calendar_day text = Some day -> Js.truthy_string (Some text) = true.
Proof. destruct text; [discriminate | reflexivity]. Qed.

(** The day difference of the source is the inclusive span in days. *)
Lemma days_difference (f l : Z) :
  (l * Js.ms_per_day - f * Js.ms_per_day) / Js.ms_per_day + 1 = l - f + 1.
Proof.
  rewrite <- Z.mul_sub_distr_r, Z.div_mul; [reflexivity|].
  unfold Js.ms_per_day. lia.
Qed.

(** C9, as the code has it.  For a user whose first and last report
    dates are calendar dates, the consistency is
    min(total_reports / days_span * 100, 100), with days_span the
    inclusive number of days from the first to the last date, rounded to
    the nearest integer and printed as decimal text: whenever an integer
    [n] is nearer than one half to that value, the answer is the text of
    [n].  For a user without report it is the number 0.  For the first
    report on 2026-01-01, the last on 2026-01-10 and 5 reports the span is
    10 days, the value 50 and the answer "50". *)
Theorem consistency_rounded :
  (forall total first last f l n,
      0 <= total ->
      Js.calendar_day first = Some f -> Js.calendar_day last = Some l -> f <= l ->
      (inject_Z n - (1 # 2) < Spec.consistency total (l - f + 1))%Q ->
      (Spec.consistency total (l - f + 1) < inject_Z n + (1 # 2))%Q ->
      Spec.days_span first last = Some (l - f + 1)
      /\ Insights.calculateConsistency total (Some first) (Some last)
         = Some (Js.Text (Js.digits n)))
  /\ (forall total, Insights.calculateConsistency total None None = Some (Js.Number 0))
  /\ Spec.days_span "2026-01-01" "2026-01-10" = Some 10
  /\ Spec.consistency 5 10 == 50
  /\ Insights.calculateConsistency 5 (Some "2026-01-01") (Some "2026-01-10")
     = Some (Js.Text "50").
Proof.
  split; [|repeat split].
  intros total first last f l n Htotal Hf Hl Hle Hlow Hhigh. split.
  - unfold Spec.days_span. rewrite Hf, Hl. reflexivity.
  - unfold Insights.calculateConsistency.
    rewrite (calendar_day_truthy _ _ Hf), (calendar_day_truthy _ _ Hl).
    cbn [negb orb]. unfold Js.Date_parse. rewrite Hf, Hl. cbn [option_map].
    cbv zeta. rewrite days_difference.
    destruct (Z.eqb_spec (l - f + 1) 0) as [E|_]; [lia|].
    change (Qmin (inject_Z total / inject_Z (l - f + 1) * 100) 100)
      with (Spec.consistency total (l - f + 1)).
    destruct (round_half_up_nearest _ n Hlow Hhigh) as [Hround Hhalf].
    rewrite Hhalf. unfold Js.toFixed.
    assert (Hpos : (0 <= Spec.consistency total (l - f + 1))%Q)
      by (apply consistency_nonnegative; lia).
    apply Qle_bool_iff in Hpos. rewrite Hpos.
    unfold Js.unsigned_fixed.
    assert (Hsame : Js.round_half_up
                      (Spec.consistency total (l - f + 1) * inject_Z (10 ^ Z.of_nat 0))
                    = n).
    { rewrite <- Hround. unfold Js.round_half_up. apply Qfloor_comp.
      change (inject_Z (10 ^ Z.of_nat 0)) with 1%Q. ring. }
    rewrite Hsame. reflexivity.
Qed.

Lemma consistency_rounded_witness :
  Spec.days_span "2026-01-01" "2026-01-03" = Some 3
  /\ Insights.calculateConsistency 2 (Some "2026-01-01") (Some "2026-01-03")
     = Some (Js.Text "67").
Proof.
  destruct consistency_rounded as [H _].
  apply (H 2 "2026-01-01" "2026-01-03" 20454 20456 67).
  - lia.
  - reflexivity.
  - reflexivity.
  - lia.
  - reflexivity.
  - reflexivity.
Defined.

(** C9 as stated fails: 2 reports from 2026-01-01 to 2026-01-03 span 3
    days; min(2 / 3 * 100, 100) is 200/3, and the answer is the text
    "67", which is not that number. *)
Lemma consistency_not_the_quotient :
  Spec.days_span "2026-01-01" "2026-01-03" = Some 3
  /\ Insights.calculateConsistency 2 (Some "2026-01-01") (Some "2026-01-03")
     = Some (Js.Text "67")
  /\ Spec.denotes (Js.Text "67") 67
  /\ ~ Spec.denotes (Js.Text "67") (Spec.consistency 2 3).
Proof.
  split; [reflexivity|]. split; [reflexivity|]. split.
  - exists 67. split; reflexivity.
  - intros (n & _ & Hn).
    assert (E : Spec.consistency 2 3 == 200 # 3) by reflexivity.
    rewrite E in Hn. unfold Qeq in Hn. simpl in Hn. lia.
Qed.

(** * Further properties *)

(** ** What a request does to the batch and enrollment tables *)

Lemma find_none_filter {A : Type} (f : A -> bool) (l : list A) :
  find f l = None -> filter f l = [].
Proof.
  intros H. induction l as [|a l IH]; simpl in *; [reflexivity|].
  destruct (f a); [discriminate|]. apply IH. exact H.
Qed.

Lemma next_id_above (ids : list Z) (id : Z) : In id ids -> id < Sql.next_id ids.
Proof.
  unfold Sql.next_id. induction ids as [|a ids IH]; cbn [fold_right In]; [intros []|].
  intros [<- | H]; [lia|]. specialize (IH H). lia.
Qed.

Lemma next_id_fresh (ids : list Z) : ~ In (Sql.next_id ids) ids.
Proof. intros H. apply next_id_above in H. lia. Qed.

(** The three things an enroll request can do: nothing, or append the
    caller's row after the three checks passed. *)
Lemma enroll_effect (env : Env) (caller : Caller) (batchId : Z) (db : Database) :
  let after := Server.enroll env caller batchId db in
  (fst after = db /\ snd after <> Respond 200 (JsonMessage "Enrolled successfully"))
  \/ (exists batch,
        Sql.batch_by_id db batchId = Some batch
        /\ Sql.enrollment_count db batchId < b_max_participants batch
        /\ Sql.enrollment_of db (c_id caller) batchId = None
        /\ Spec.enrolls db (fst after) (c_id caller) batchId
        /\ snd after = Respond 200 (JsonMessage "Enrolled successfully")).
Proof.
  unfold Server.enroll, Sql.call.
  destruct (fault env 0); [left; split; [reflexivity | discriminate]|].
  destruct (Sql.batch_by_id db batchId) as [batch|] eqn:Hb;
    [|left; split; [reflexivity | discriminate]].
  destruct (fault env 1); [left; split; [reflexivity | discriminate]|].
  destruct (Z.geb_spec (Sql.enrollment_count db batchId) (b_max_participants batch));
    [left; split; [reflexivity | discriminate]|].
  unfold Sql.insert_enrollment.
  destruct (fault env 2) as [message|].
  { destruct (Js.includes "UNIQUE" message); left; split; try reflexivity; discriminate. }
  destruct (Sql.enrollment_of db (c_id caller) batchId) eqn:He.
  { rewrite unique_enrollment_message_includes.
    left; split; [reflexivity | discriminate]. }
  right. exists batch. simpl. repeat split; try reflexivity; try lia.
  eexists. simpl. repeat split; reflexivity.
Qed.

Lemma createBatch_effect (env : Env) (caller : Caller) (body : Server.BatchBody)
    (db : Database) :
  let after := Server.createBatch env caller body db in
  fst after = db
  \/ (exists new,
        batches (fst after) = batches db ++ [new]
        /\ b_id new = Sql.next_id (map b_id (batches db))
        /\ users (fst after) = users db
        /\ enrollments (fst after) = enrollments db
        /\ daily_reports (fst after) = daily_reports db).
Proof.
  unfold Server.createBatch, Sql.insert_batch.
  branches; first [left; reflexivity | right; eexists; repeat split; reflexivity].
Qed.

Lemma register_keeps_seats (env : Env) (hashed : option string)
    (body : Server.RegisterBody) (db : Database) :
  batches (fst (Server.register env hashed body db)) = batches db
  /\ enrollments (fst (Server.register env hashed body db)) = enrollments db.
Proof. unfold Server.register, Sql.insert_user. branches; split; reflexivity. Qed.

Lemma submit_keeps_seats (env : Env) (caller : Caller) (body : Server.ReportBody)
    (db : Database) :
  batches (fst (Server.submitReport env caller body db)) = batches db
  /\ enrollments (fst (Server.submitReport env caller body db)) = enrollments db.
Proof.
  destruct (submit_outcome env caller body db)
    as [(Hsame & _) | (batch & date & tasks & hours & e & _ & _ & Hu & _)].
  - rewrite Hsame. split; reflexivity.
  - destruct (upsert_other_tables _ _ _ _ _ _ _ _ _ _ _ Hu) as (_ & Hb & He).
    split; assumption.
Qed.

(** Every request leaves the two tables alone, or appends a batch under
    a fresh id, or appends an enrollment that passed the checks. *)
Lemma handle_seats (env : Env) (request : Server.Request) (db : Database) :
  let db' := fst (Server.handle env request db) in
  (batches db' = batches db /\ enrollments db' = enrollments db)
  \/ (exists new,
        batches db' = batches db ++ [new]
        /\ b_id new = Sql.next_id (map b_id (batches db))
        /\ enrollments db' = enrollments db)
  \/ (exists batch row,
        batches db' = batches db
        /\ enrollments db' = enrollments db ++ [row]
        /\ Sql.batch_by_id db (e_batch_id row) = Some batch
        /\ Sql.enrollment_count db (e_batch_id row) < b_max_participants batch
        /\ Sql.enrollment_of db (e_user_id row) (e_batch_id row) = None).
Proof.
  destruct request as [hashed body | caller body | caller batchId | caller body]; simpl.
  - left. apply register_keeps_seats.
  - destruct (createBatch_effect env caller body db)
      as [Hsame | (new & Hb & Hid & _ & He & _)].
    + left. rewrite Hsame. split; reflexivity.
    + right. left. exists new. repeat split; assumption.
  - destruct (enroll_effect env caller batchId db)
      as [(Hsame & _) | (batch & Hb & Hroom & Hnew & Henrolls & _)].
    + left. rewrite Hsame. split; reflexivity.
    + right. right. destruct Henrolls as (row & He & Hu & Hbid & _ & Hbs & _).
      exists batch, row. rewrite Hu, Hbid. repeat split; assumption.
  - left. apply submit_keeps_seats.
Qed.

(** ** One enrollment per user and batch *)

Lemma handle_keeps_one_enrollment (env : Env) (request : Server.Request) (db : Database) :
  Inv.one_enrollment_per_pair db ->
  Inv.one_enrollment_per_pair (fst (Server.handle env request db)).
Proof.
  intros Hinv u b. unfold Inv.enrollments_of.
  destruct (handle_seats env request db)
    as [(_ & He) | [(new & _ & _ & He) | (batch & row & _ & He & _ & _ & Hnone)]];
    rewrite He; try apply Hinv.
  rewrite filter_app, length_app. simpl.
  destruct ((e_user_id row =? u) && (e_batch_id row =? b)) eqn:K; simpl.
  - apply andb_true_iff in K. rewrite !Z.eqb_eq in K. destruct K as [<- <-].
    unfold Sql.enrollment_of in Hnone. rewrite (find_none_filter _ _ Hnone). simpl. lia.
  - specialize (Hinv u b). unfold Inv.enrollments_of in Hinv. lia.
Qed.

(** X1.  Whatever requests are served, and whatever the storage engine
    does, a (user, batch) pair never has two enrollment rows. *)
Theorem one_enrollment_per_pair_kept (db0 db : Database) :
  Inv.one_enrollment_per_pair db0 -> Server.reachable db0 db ->
  Inv.one_enrollment_per_pair db.
Proof.
  intros H0 Hreach. induction Hreach as [|db env request _ IH]; [exact H0|].
  apply handle_keeps_one_enrollment. exact IH.
Qed.

Lemma one_enrollment_per_pair_kept_witness :
  Inv.one_enrollment_per_pair Sample.in_between.
Proof.
  apply (one_enrollment_per_pair_kept Sample.db Sample.in_between).
  - intros u b. unfold Inv.enrollments_of.
    apply (Nat.le_trans _ _ _ (filter_length_le _ _)). simpl. lia.
  - apply (Server.reachable_step Sample.db Sample.after_first (calm 25)
             (Server.Enroll Sample.bob 1)).
    apply (Server.reachable_step Sample.db Sample.db (calm 20)
             (Server.SubmitReport Sample.alice
                (Sample.report (Some "forms") (Some (4 # 1))))).
    apply Server.reachable_start.
Defined.

(** ** The last seat *)

Lemma nodup_snoc {A : Type} (l : list A) (x : A) :
  NoDup l -> ~ In x l -> NoDup (l ++ [x]).
Proof.
  induction l as [|a l IH]; simpl; intros Hl Hx.
  - constructor; [intros [] | constructor].
  - inversion Hl as [|? ? Ha Hl']; subst. constructor.
    + intros H. apply in_app_or in H. destruct H as [H | [<- | []]]; [contradiction|].
      apply Hx. left. reflexivity.
    + apply IH; [exact Hl'|]. intros H. apply Hx. right. exact H.
Qed.

Lemma nodup_map_injective {A B : Type} (f : A -> B) (l : list A) (x y : A) :
  NoDup (map f l) -> In x l -> In y l -> f x = f y -> x = y.
Proof.
  induction l as [|a l IH]; simpl; [intros _ []|].
  intros Hl Hx Hy E. inversion Hl as [|? ? Ha Hl']; subst.
  destruct Hx as [<- | Hx], Hy as [<- | Hy]; try reflexivity.
  - exfalso. apply Ha. rewrite E. apply in_map. exact Hy.
  - exfalso. apply Ha. rewrite <- E. apply in_map. exact Hx.
  - apply IH; assumption.
Qed.

Lemma sample_batch_ids : Inv.distinct_batch_ids Sample.db.
Proof.
  unfold Inv.distinct_batch_ids. simpl. constructor; [intros [] | constructor].
Qed.

Lemma advance_lookup (t : Z) (caller : Caller) (batchId : Z) (db : Database)
    (batch : Batch) :
  Sql.batch_by_id db batchId = Some batch ->
  Callbacks.advance (calm t) (Callbacks.AtLookup caller batchId) db
  = (db, Callbacks.AtCount caller batchId batch).
Proof. intros H. simpl. unfold Sql.call. simpl. rewrite H. reflexivity. Qed.

Lemma advance_count (t : Z) (caller : Caller) (batchId : Z) (db : Database)
    (batch : Batch) :
  Sql.enrollment_count db batchId < b_max_participants batch ->
  Callbacks.advance (calm t) (Callbacks.AtCount caller batchId batch) db
  = (db, Callbacks.AtInsert caller batchId).
Proof.
  intros H. simpl. unfold Sql.call. simpl.
  destruct (Z.geb_spec (Sql.enrollment_count db batchId) (b_max_participants batch));
    [lia | reflexivity].
Qed.

Lemma advance_insert (t : Z) (caller : Caller) (batchId : Z) (db : Database) :
  ~ Spec.enrolled db (c_id caller) batchId ->
  exists db',
    Callbacks.advance (calm t) (Callbacks.AtInsert caller batchId) db
    = (db', Callbacks.Answered (Respond 200 (JsonMessage "Enrolled successfully")))
    /\ Spec.enrolls db db' (c_id caller) batchId
    /\ Sql.enrollment_count db' batchId = Sql.enrollment_count db batchId + 1.
Proof.
  intros Hnew. apply enrollment_of_none in Hnew.
  simpl. unfold Sql.insert_enrollment. simpl. rewrite Hnew.
  eexists. split; [reflexivity|]. split.
  - eexists. simpl. repeat split; reflexivity.
  - unfold Sql.enrollment_count. simpl. apply count_after_insert. reflexivity.
Qed.

Lemma enrolls_other (db db' : Database) (userId other batchId : Z) :
  Spec.enrolls db db' userId batchId -> userId <> other ->
  ~ Spec.enrolled db other batchId -> ~ Spec.enrolled db' other batchId.
Proof.
  intros (row & He & Hu & _) Hneq Hnot (e & Hin & Heu & Heb).
  rewrite He in Hin. apply in_app_or in Hin. destruct Hin as [Hin | [<- | []]].
  - apply Hnot. exists e. repeat split; assumption.
  - congruence.
Qed.

(** A request that is not interrupted is the handler as one step. *)
Lemma run_first_alone (env : Env) (caller : Caller) (batchId : Z) (other : Callbacks.Pending)
    (db : Database) :
  Callbacks.run env [false; false; false] (Callbacks.AtLookup caller batchId) other db
  = (fst (Server.enroll env caller batchId db),
     Callbacks.Answered (snd (Server.enroll env caller batchId db)), other).
Proof.
  unfold Server.enroll. simpl.
  destruct (Sql.call env 0 (Sql.batch_by_id db batchId)) as [msg | [batch|]];
    try reflexivity.
  simpl. destruct (Sql.call env 1 (Sql.enrollment_count db batchId)) as [msg | count];
    [reflexivity|].
  destruct (count >=? b_max_participants batch); [reflexivity|]. simpl.
  destruct (Sql.insert_enrollment env 2 db (c_id caller) batchId) as [msg | db'];
    [destruct (Js.includes "UNIQUE" msg)|]; reflexivity.
Qed.

Lemma run_second_alone (env : Env) (caller : Caller) (batchId : Z) (other : Callbacks.Pending)
    (db : Database) :
  Callbacks.run env [true; true; true] other (Callbacks.AtLookup caller batchId) db
  = (fst (Server.enroll env caller batchId db), other,
     Callbacks.Answered (snd (Server.enroll env caller batchId db))).
Proof.
  unfold Server.enroll. simpl.
  destruct (Sql.call env 0 (Sql.batch_by_id db batchId)) as [msg | [batch|]];
    try reflexivity.
  simpl. destruct (Sql.call env 1 (Sql.enrollment_count db batchId)) as [msg | count];
    [reflexivity|].
  destruct (count >=? b_max_participants batch); [reflexivity|]. simpl.
  destruct (Sql.insert_enrollment env 2 db (c_id caller) batchId) as [msg | db'];
    [destruct (Js.includes "UNIQUE" msg)|]; reflexivity.
Qed.

Lemma run_app (env : Env) (head tail : list bool) (first second : Callbacks.Pending)
    (db : Database) :
  Callbacks.run env (head ++ tail) first second db
  = let '(db', first', second') := Callbacks.run env head first second db in
    Callbacks.run env tail first' second' db'.
Proof.
  revert first second db. induction head as [|who head IH]; intros first second db.
  - reflexivity.
  - simpl. destruct who.
    + destruct (Callbacks.advance env second db) as [db' second']. apply IH.
    + destruct (Callbacks.advance env first db) as [db' first']. apply IH.
Qed.

(** X2.  The capacity check of enroll and its insert are separate
    storage calls, and nothing makes them one step.  Two users who are
    not enrolled ask for the last seat of a batch, and the storage
    engine answers every call.  When the first request runs from
    beginning to end before the second starts, it is answered
    "Enrolled successfully", the second is refused with 400 "Batch is
    full", and the batch is exactly full.  When both count queries run
    before either insert, in any order of the calls that has this
    property, both requests are answered "Enrolled successfully" and the
    batch holds one enrollment more than it has seats.  A request that
    runs without interruption is the handler as one step. *)
Theorem last_seat_race (t : Z) (first second : Caller) (batchId : Z) (db : Database)
    (batch : Batch) :
  Sql.batch_by_id db batchId = Some batch ->
  Sql.enrollment_count db batchId + 1 = b_max_participants batch ->
  c_id first <> c_id second ->
  ~ Spec.enrolled db (c_id first) batchId ->
  ~ Spec.enrolled db (c_id second) batchId ->
  (exists db',
      Callbacks.run (calm t) Callbacks.one_after_the_other
        (Callbacks.AtLookup first batchId) (Callbacks.AtLookup second batchId) db
      = (db',
         Callbacks.Answered (Respond 200 (JsonMessage "Enrolled successfully")),
         Callbacks.Answered (Respond 400 (JsonError "Batch is full")))
      /\ Sql.enrollment_count db' batchId = b_max_participants batch)
  /\ (forall schedule,
      Callbacks.counted_first schedule = true ->
      exists db',
        Callbacks.run (calm t) schedule
          (Callbacks.AtLookup first batchId) (Callbacks.AtLookup second batchId) db
        = (db',
           Callbacks.Answered (Respond 200 (JsonMessage "Enrolled successfully")),
           Callbacks.Answered (Respond 200 (JsonMessage "Enrolled successfully")))
        /\ Sql.enrollment_count db' batchId = b_max_participants batch + 1)
  /\ (forall env caller id other store,
      Callbacks.run env [false; false; false] (Callbacks.AtLookup caller id) other store
      = (fst (Server.enroll env caller id store),
         Callbacks.Answered (snd (Server.enroll env caller id store)), other)).
Proof.
  intros Hb Hlast Hneq Hfirst Hsecond.
  split; [|split; [|intros; apply run_first_alone]].
  - unfold Callbacks.one_after_the_other.
    change [false; false; false; true; true; true]
      with ([false; false; false] ++ [true; true; true]).
    rewrite run_app, run_first_alone, run_second_alone.
    destruct (enroll_success t first batchId db batch Hb ltac:(lia) Hfirst)
      as (Hok & Henrolls & Hcount).
    set (db1 := fst (Server.enroll (calm t) first batchId db)) in *.
    assert (Hb1 : Sql.batch_by_id db1 batchId = Some batch).
    { destruct Henrolls as (row & _ & _ & _ & _ & Hbs & _).
      unfold Sql.batch_by_id in *. rewrite Hbs. exact Hb. }
    exists db1. rewrite Hok.
    rewrite (enroll_full t second batchId db1 batch Hb1) by lia.
    split; [reflexivity | lia].
  - intros schedule Hschedule.
    assert (Hhead : forall head tail,
               In head [[false; false; true; true]; [false; true; false; true];
                        [false; true; true; false]; [true; false; false; true];
                        [true; false; true; false]; [true; true; false; false]] ->
               Callbacks.run (calm t) (head ++ tail)
                 (Callbacks.AtLookup first batchId) (Callbacks.AtLookup second batchId) db
               = Callbacks.run (calm t) tail
                   (Callbacks.AtInsert first batchId) (Callbacks.AtInsert second batchId)
                   db).
    { intros head tail Hin. rewrite run_app.
      assert (Hroom : Sql.enrollment_count db batchId < b_max_participants batch) by lia.
      simpl in Hin.
      repeat (destruct Hin as [<- | Hin];
              [cbn [Callbacks.run];
               repeat first
                 [ rewrite (advance_lookup t _ batchId db batch Hb)
                 | rewrite (advance_count t _ batchId db batch Hroom) ];
               reflexivity|]).
      destruct Hin. }
    destruct (advance_insert t first batchId db Hfirst) as (dbf & Hf & Hfe & Hfc).
    destruct (advance_insert t second batchId db Hsecond) as (dbs & Hs & Hse & Hsc).
    assert (Hsecond' : ~ Spec.enrolled dbf (c_id second) batchId)
      by (apply (enrolls_other db dbf (c_id first)); assumption).
    assert (Hfirst' : ~ Spec.enrolled dbs (c_id first) batchId)
      by (apply (enrolls_other db dbs (c_id second)); [assumption | congruence | assumption]).
    destruct (advance_insert t second batchId dbf Hsecond') as (dbfs & Hfs & _ & Hfsc).
    destruct (advance_insert t first batchId dbs Hfirst') as (dbsf & Hsf & _ & Hsfc).
    assert (Hfirst_then : exists db',
               Callbacks.run (calm t) [false; true]
                 (Callbacks.AtInsert first batchId) (Callbacks.AtInsert second batchId) db
               = (db',
                  Callbacks.Answered (Respond 200 (JsonMessage "Enrolled successfully")),
                  Callbacks.Answered (Respond 200 (JsonMessage "Enrolled successfully")))
               /\ Sql.enrollment_count db' batchId = b_max_participants batch + 1).
    { exists dbfs. cbn [Callbacks.run]. rewrite Hf, Hfs. split; [reflexivity | lia]. }
    assert (Hsecond_then : exists db',
               Callbacks.run (calm t) [true; false]
                 (Callbacks.AtInsert first batchId) (Callbacks.AtInsert second batchId) db
               = (db',
                  Callbacks.Answered (Respond 200 (JsonMessage "Enrolled successfully")),
                  Callbacks.Answered (Respond 200 (JsonMessage "Enrolled successfully")))
               /\ Sql.enrollment_count db' batchId = b_max_participants batch + 1).
    { exists dbsf. cbn [Callbacks.run]. rewrite Hs, Hsf. split; [reflexivity | lia]. }
    destruct schedule as [|s1 [|s2 [|s3 [|s4 [|s5 [|s6 [|s7 rest]]]]]]];
      try discriminate Hschedule.
    destruct s1, s2, s3, s4, s5, s6; try discriminate Hschedule;
      match goal with
      | |- context [Callbacks.run _ [?a; ?b; ?c; ?d; ?e; ?f]] =>
        change [a; b; c; d; e; f] with ([a; b; c; d] ++ [e; f]);
        rewrite Hhead by (simpl; tauto);
        first [exact Hfirst_then | exact Hsecond_then]
      end.
Qed.

Lemma last_seat_race_witness :
  (exists db',
      Callbacks.run (calm 25) Callbacks.one_after_the_other
        (Callbacks.AtLookup Sample.bob 1) (Callbacks.AtLookup Sample.carol 1) Sample.db
      = (db',
         Callbacks.Answered (Respond 200 (JsonMessage "Enrolled successfully")),
         Callbacks.Answered (Respond 400 (JsonError "Batch is full")))
      /\ Sql.enrollment_count db' 1 = 2)
  /\ (exists db',
        Callbacks.run (calm 25) [false; true; false; true; false; true]
          (Callbacks.AtLookup Sample.bob 1) (Callbacks.AtLookup Sample.carol 1) Sample.db
        = (db',
           Callbacks.Answered (Respond 200 (JsonMessage "Enrolled successfully")),
           Callbacks.Answered (Respond 200 (JsonMessage "Enrolled successfully")))
        /\ Sql.enrollment_count db' 1 = 3).
Proof.
  destruct (last_seat_race 25 Sample.bob Sample.carol 1 Sample.db
              {| b_id := 1; b_name := "Web Development Fundamentals";
                 b_instructor_id := 1; b_duration := "8 weeks";
                 b_start_date := "2026-01-15"; b_status := "active";
                 b_max_participants := 2; b_created_at := 0 |})
    as (Hserial & Hrace & _).
  - reflexivity.
  - reflexivity.
  - discriminate.
  - intros (e & [<- | []] & Hu & _). discriminate Hu.
  - intros (e & [<- | []] & Hu & _). discriminate Hu.
  - split; [exact Hserial|]. apply Hrace. reflexivity.
Defined.

(** ** Enrolling twice *)

(** X3.  When an enroll request has succeeded, the same request made
    again is refused with status 400 and changes nothing; the message
    is "Batch is full" when the first request took the last seat (the
    capacity is checked first) and "Already enrolled" otherwise. *)
Theorem enroll_again_refused (t t' : Z) (caller : Caller) (batchId : Z)
    (db db' : Database) (json : Json) :
  Server.enroll (calm t) caller batchId db = (db', Respond 200 json) ->
  exists batch,
    Sql.batch_by_id db' batchId = Some batch
    /\ Spec.enrolled db' (c_id caller) batchId
    /\ Server.enroll (calm t') caller batchId db'
       = (db', Respond 400
                 (JsonError
                    (if Sql.enrollment_count db' batchId =? b_max_participants batch
                     then "Batch is full" else "Already enrolled"))).
Proof.
  intros Hfirst.
  destruct (enroll_effect (calm t) caller batchId db)
    as [(_ & Hfail) | (batch & Hb & Hroom & Hnew & Henrolls & Hok)];
    rewrite Hfirst in *; simpl in *.
  - destruct (enroll_effect (calm t) caller batchId db)
      as [(_ & Hfail') | (batch & _ & _ & _ & _ & Hok)];
      rewrite Hfirst in *; simpl in *; [|contradiction].
    exfalso. clear Hfail'. revert Hfirst. unfold Server.enroll, Sql.call. simpl.
    destruct (Sql.batch_by_id db batchId); [|discriminate].
    destruct (_ >=? _); [discriminate|].
    unfold Sql.insert_enrollment. simpl.
    destruct (Sql.enrollment_of db (c_id caller) batchId); simpl; [discriminate|].
    intros H. inversion H. subst. contradiction.
  - assert (Hb' : Sql.batch_by_id db' batchId = Some batch).
    { destruct Henrolls as (row & _ & _ & _ & _ & Hbs & _).
      unfold Sql.batch_by_id in *. rewrite Hbs. exact Hb. }
    assert (Hin : Spec.enrolled db' (c_id caller) batchId).
    { destruct Henrolls as (row & He & Hu & Hbid & _).
      exists row. rewrite He. split; [apply in_or_app; right; left; reflexivity|].
      split; assumption. }
    assert (Hcount : Sql.enrollment_count db' batchId
                     = Sql.enrollment_count db batchId + 1).
    { destruct Henrolls as (row & He & _ & Hbid & _).
      unfold Sql.enrollment_count. rewrite He. apply count_after_insert. exact Hbid. }
    exists batch. split; [exact Hb'|]. split; [exact Hin|].
    destruct (Z.eqb_spec (Sql.enrollment_count db' batchId) (b_max_participants batch)).
    + apply (enroll_full t' caller batchId db' batch Hb'). lia.
    + apply (enroll_duplicate t' caller batchId db' batch Hb'); [lia | exact Hin].
Qed.

Lemma enroll_again_refused_witness :
  Server.enroll (calm 26) Sample.bob 1 Sample.in_between
  = (Sample.in_between, Respond 400 (JsonError "Batch is full")).
Proof.
  destruct (enroll_again_refused 25 26 Sample.bob 1 Sample.after_first
              Sample.in_between (JsonMessage "Enrolled successfully") eq_refl)
    as (batch & Hb & _ & H).
  injection Hb as <-. exact H.
Defined.

(** ** Accounts *)

Lemma unique_user_message_includes (column : string) :
  Js.includes "UNIQUE" (Sql.unique_user_message column) = true.
Proof. reflexivity. Qed.

Lemma check_role_message_excludes :
  Js.includes "UNIQUE" Sql.check_role_message = false.
Proof. reflexivity. Qed.

(** What an accepted registration found and did. *)
Lemma register_created (env : Env) (hashed : option string)
    (body : Server.RegisterBody) (db db' : Database) (json : Json) :
  Server.register env hashed body db = (db', Respond 201 json) ->
  exists u e p f r h,
    Server.username body = Some u /\ Server.email body = Some e
    /\ Server.password body = Some p /\ Server.full_name body = Some f
    /\ Server.role body = Some r /\ (r = "student" \/ r = "teacher")
    /\ u <> "" /\ p <> ""
    /\ hashed = Some h
    /\ existsb (fun x => String.eqb (u_username x) u) (users db) = false
    /\ existsb (fun x => String.eqb (u_email x) e) (users db) = false
    /\ users db'
       = users db ++
         [ {| u_id := Sql.next_id (map u_id (users db)); u_username := u;
              u_email := e; u_password := h; u_full_name := f; u_role := r;
              u_created_at := now env |} ]
    /\ batches db' = batches db /\ enrollments db' = enrollments db
    /\ daily_reports db' = daily_reports db
    /\ json = JsonCreated "User registered successfully"
                (Sql.next_id (map u_id (users db))).
Proof.
  unfold Server.register.
  destruct (Server.username body) as [u|]; simpl; [|discriminate].
  destruct (String.eqb_spec u "") as [|Hu0]; simpl; [discriminate|].
  destruct (Server.email body) as [e|]; simpl; [|discriminate].
  destruct (String.eqb e ""); simpl; [discriminate|].
  destruct (Server.password body) as [p|]; simpl; [|discriminate].
  destruct (String.eqb_spec p "") as [|Hp0]; simpl; [discriminate|].
  destruct (Server.full_name body) as [f|]; simpl; [|discriminate].
  destruct (String.eqb f ""); simpl; [discriminate|].
  destruct (Server.role body) as [r|]; simpl; [|discriminate].
  destruct (String.eqb r ""); simpl; [discriminate|].
  destruct (String.eqb_spec r "student") as [Hs|Hs]; simpl.
  - subst r. destruct hashed as [h|]; [|discriminate].
    unfold Sql.insert_user. destruct (fault env 0) as [m|].
    { destruct (Js.includes "UNIQUE" m); discriminate. }
    simpl.
    destruct (existsb _ (users db)) eqn:Hu; [discriminate|].
    destruct (existsb _ (users db)) eqn:He in |- *; [discriminate|].
    intros H. inversion H. subst. simpl.
    exists u, e, p, f, "student", h. repeat split; auto.
  - destruct (String.eqb_spec r "teacher") as [Ht|Ht]; simpl; [|discriminate].
    subst r. destruct hashed as [h|]; [|discriminate].
    unfold Sql.insert_user. destruct (fault env 0) as [m|].
    { destruct (Js.includes "UNIQUE" m); discriminate. }
    simpl.
    destruct (existsb _ (users db)) eqn:Hu; [discriminate|].
    destruct (existsb _ (users db)) eqn:He in |- *; [discriminate|].
    intros H. inversion H. subst. simpl.
    exists u, e, p, f, "teacher", h. repeat split; auto.
Qed.

Lemma existsb_false_find {A : Type} (f : A -> bool) (l : list A) :
  existsb f l = false -> find f l = None.
Proof.
  induction l as [|a l IH]; simpl; [reflexivity|].
  intros H. apply orb_false_iff in H. destruct H as [-> H]. apply IH. exact H.
Qed.

Lemma find_app_none {A : Type} (f : A -> bool) (l l' : list A) :
  find f l = None -> find f (l ++ l') = find f l'.
Proof.
  induction l as [|a l IH]; simpl; [reflexivity|].
  destruct (f a); [discriminate | exact IH].
Qed.

(** X4.  A user who has just been registered can log in: with the
    registered username and a password the hash library accepts against
    the stored hash, login answers with a session for the new account
    (the id that register returned, the registered username, email and
    role, and a token signed for that id, username and role); with a
    password the library does not accept it answers 401 "Invalid
    credentials". *)
Theorem register_then_login (env : Env) (t : Z) (hashed : option string)
    (body : Server.RegisterBody) (db db' : Database) (json : Json)
    (compare : string -> string -> option bool) (sign : Caller -> string)
    (password : string) :
  Server.register env hashed body db = (db', Respond 201 json) ->
  password <> "" ->
  ((forall h, hashed = Some h -> compare password h = Some true) ->
   exists session,
      Auth.login (calm t) compare sign
        {| Auth.login_username := Server.username body;
           Auth.login_password := Some password |} db'
      = Result session
      /\ json = JsonCreated "User registered successfully" (Auth.session_id session)
      /\ Some (Auth.session_username session) = Server.username body
      /\ Some (Auth.session_email session) = Server.email body
      /\ Some (Auth.session_role session) = Server.role body
      /\ Auth.token session
         = sign {| c_id := Auth.session_id session;
                   c_username := Auth.session_username session;
                   c_role := Auth.session_role session |})
  /\ ((forall h, hashed = Some h -> compare password h = Some false) ->
      Auth.login (calm t) compare sign
        {| Auth.login_username := Server.username body;
           Auth.login_password := Some password |} db'
      = Respond 401 (JsonError "Invalid credentials")).
Proof.
  intros Hreg Hpw.
  destruct (register_created _ _ _ _ _ _ Hreg)
    as (u & e & p & f & r & h & Hu & He & _ & Hf & Hr & _ & Hu0 & _ & Hh & Hfree & _
        & Husers & _ & _ & _ & Hjson).
  assert (Hfind : Auth.user_by_username db' u
                  = Some {| u_id := Sql.next_id (map u_id (users db)); u_username := u;
                            u_email := e; u_password := h; u_full_name := f;
                            u_role := r; u_created_at := now env |}).
  { unfold Auth.user_by_username. rewrite Husers.
    rewrite (find_app_none _ _ _ (existsb_false_find _ _ Hfree)). simpl.
    rewrite String.eqb_refl. reflexivity. }
  assert (Hlogin :
            Auth.login (calm t) compare sign
              {| Auth.login_username := Server.username body;
                 Auth.login_password := Some password |} db'
            = match compare password h with
              | None => Uncaught "bcrypt.compare rejected"
              | Some valid =>
                if negb valid then Respond 401 (JsonError "Invalid credentials")
                else
                  Result
                    {| Auth.token :=
                         sign {| c_id := Sql.next_id (map u_id (users db));
                                 c_username := u; c_role := r |};
                       Auth.session_id := Sql.next_id (map u_id (users db));
                       Auth.session_username := u;
                       Auth.session_email := e;
                       Auth.session_full_name := f;
                       Auth.session_role := r |}
              end).
  { unfold Auth.login. simpl. rewrite Hu. simpl.
    apply String.eqb_neq in Hu0, Hpw. rewrite Hu0, Hpw. simpl.
    unfold Sql.call. simpl. rewrite Hfind. reflexivity. }
  split.
  - intros Hok. eexists. rewrite Hlogin, (Hok h Hh). simpl.
    split; [reflexivity|]. simpl. rewrite Hu, He, Hr. repeat split; auto.
  - intros Hbad. rewrite Hlogin, (Hbad h Hh). reflexivity.
Qed.

Lemma register_then_login_witness :
  exists session,
    Auth.login (calm 50) Examples.compare Examples.sign
      {| Auth.login_username := Some "dave"; Auth.login_password := Some "secret" |}
      Examples.registered
    = Result session
    /\ JsonCreated "User registered successfully" 5
       = JsonCreated "User registered successfully" (Auth.session_id session)
    /\ Some (Auth.session_username session) = Some "dave"
    /\ Some (Auth.session_email session) = Some "dave@training.com"
    /\ Some (Auth.session_role session) = Some "student"
    /\ Auth.token session
       = Examples.sign {| c_id := Auth.session_id session;
                          c_username := Auth.session_username session;
                          c_role := Auth.session_role session |}.
Proof.
  destruct (register_then_login (calm 45) 50 (Some (Examples.hash "secret"))
              Examples.dave Sample.db Examples.registered
              (JsonCreated "User registered successfully" 5)
              Examples.compare Examples.sign "secret" eq_refl) as [H _].
  - discriminate.
  - apply H. intros h Hh. injection Hh as <-. reflexivity.
Defined.

Lemma register_effect (env : Env) (hashed : option string)
    (body : Server.RegisterBody) (db : Database) :
  fst (Server.register env hashed body db) = db
  \/ exists json,
       Server.register env hashed body db
       = (fst (Server.register env hashed body db), Respond 201 json).
Proof.
  unfold Server.register, Sql.insert_user.
  branches; first [left; reflexivity | right; eexists; reflexivity].
Qed.

Lemma existsb_false_not_in (key : User -> string) (name : string) (l : list User) :
  existsb (fun x => String.eqb (key x) name) l = false -> ~ In name (map key l).
Proof.
  intros H Hin. apply in_map_iff in Hin. destruct Hin as (x & <- & Hx).
  assert (E : existsb (fun y => String.eqb (key y) (key x)) l = true).
  { apply existsb_exists. exists x. split; [exact Hx | apply String.eqb_refl]. }
  congruence.
Qed.

(** Every request leaves the user table alone or appends an account
    whose username and email were free. *)
Lemma handle_users (env : Env) (request : Server.Request) (db : Database) :
  users (fst (Server.handle env request db)) = users db
  \/ exists new,
       users (fst (Server.handle env request db)) = users db ++ [new]
       /\ ~ In (u_username new) (map u_username (users db))
       /\ ~ In (u_email new) (map u_email (users db)).
Proof.
  destruct request as [hashed body | caller body | caller batchId | caller body]; simpl.
  - destruct (register_effect env hashed body db) as [-> | (json & Hreg)];
      [left; reflexivity|].
    destruct (register_created _ _ _ _ _ _ Hreg)
      as (u & e & p & f & r & h & _ & _ & _ & _ & _ & _ & _ & _ & _ & Hfu & Hfe
          & Husers & _).
    right. eexists. split; [exact Husers|]. simpl. split.
    + apply (existsb_false_not_in u_username). exact Hfu.
    + apply (existsb_false_not_in u_email). exact Hfe.
  - destruct (createBatch_effect env caller body db) as [-> | (new & _ & _ & Hu & _)];
      left; [reflexivity | exact Hu].
  - destruct (enroll_effect env caller batchId db)
      as [(-> & _) | (batch & _ & _ & _ & (row & _ & _ & _ & Hu & _) & _)];
      left; [reflexivity | exact Hu].
  - destruct (submit_outcome env caller body db)
      as [(-> & _) | (batch & date & tasks & hours & e & _ & _ & Hu & _)];
      left; [reflexivity|].
    apply (upsert_other_tables _ _ _ _ _ _ _ _ _ _ _ Hu).
Qed.

(** X5.  Usernames and emails stay pairwise distinct under every
    request.  A registration whose fields are all present, with role
    student or teacher, is refused with 400 "Username or email already
    exists", and changes nothing, when its username or its email is
    that of an existing account. *)
Theorem accounts_stay_distinct :
  (forall db0 db,
      Inv.distinct_accounts db0 -> Server.reachable db0 db -> Inv.distinct_accounts db)
  /\ (forall t h u e p f r db,
      u <> "" -> e <> "" -> p <> "" -> f <> "" ->
      r = "student" \/ r = "teacher" ->
      (exists x, In x (users db) /\ (u_username x = u \/ u_email x = e)) ->
      Server.register (calm t) (Some h)
        {| Server.username := Some u; Server.email := Some e;
           Server.password := Some p; Server.full_name := Some f;
           Server.role := Some r |} db
      = (db, Respond 400 (JsonError "Username or email already exists"))).
Proof.
  split.
  - intros db0 db H0 Hreach. induction Hreach as [|db env request _ IH]; [exact H0|].
    destruct IH as [Hnames Hmails]. unfold Inv.distinct_accounts.
    destruct (handle_users env request db) as [-> | (new & -> & Hn & Hm)].
    + split; assumption.
    + rewrite !map_app. simpl. split; apply nodup_snoc; assumption.
  - intros t h u e p f r db Hu He Hp Hf Hr (x & Hx & Htaken).
    unfold Server.register. simpl.
    apply String.eqb_neq in Hu, He, Hp, Hf. rewrite Hu, He, Hp, Hf. simpl.
    assert (Hrole : String.eqb r "" = false /\
                    (String.eqb r "student" || (String.eqb r "teacher" || false)) = true
                    /\ (String.eqb r "student" || String.eqb r "teacher"
                        || String.eqb r "admin") = true)
      by (destruct Hr as [-> | ->]; repeat split; reflexivity).
    destruct Hrole as (Hr0 & Hr1 & Hr2). rewrite Hr0, Hr1. simpl.
    unfold Sql.insert_user. simpl. rewrite Hr2. simpl.
    destruct (existsb (fun y => String.eqb (u_username y) u) (users db)) eqn:Eu.
    + reflexivity.
    + destruct (existsb (fun y => String.eqb (u_email y) e) (users db)) eqn:Ee.
      * reflexivity.
      * exfalso. destruct Htaken as [H | H].
        -- apply (existsb_false_not_in u_username u (users db) Eu).
           rewrite <- H. apply in_map. exact Hx.
        -- apply (existsb_false_not_in u_email e (users db) Ee).
           rewrite <- H. apply in_map. exact Hx.
Qed.

Lemma accounts_stay_distinct_witness :
  Inv.distinct_accounts Examples.registered
  /\ Server.register (calm 46) (Some "other")
       {| Server.username := Some "dave"; Server.email := Some "d@training.com";
          Server.password := Some "pw"; Server.full_name := Some "David";
          Server.role := Some "teacher" |} Examples.registered
     = (Examples.registered, Respond 400 (JsonError "Username or email already exists")).
Proof.
  destruct accounts_stay_distinct as [Hkept Hrefused]. split.
  - apply (Hkept Sample.db).
    + split; simpl; repeat constructor; simpl; intuition discriminate.
    + apply (Server.reachable_step Sample.db Sample.db (calm 45)
               (Server.Register (Some (Examples.hash "secret")) Examples.dave)).
      apply Server.reachable_start.
  - apply Hrefused; try discriminate.
    + right. reflexivity.
    + eexists. split; [right; right; right; right; left; reflexivity|].
      left. reflexivity.
Defined.

(** ** Creating a batch *)

(** X6.  A batch that create-batch answers 201 for is found afterwards
    under the id of the answer, an id no batch had before; it has the
    submitted name, duration and status, the submitted start date when
    that is a calendar date [YYYY-MM-DD], the caller (a teacher or
    admin) as instructor, and as many seats as submitted, except that an
    absent or zero max_participants gives 100 seats.  A negative number
    of seats is stored as it is, and every enroll request for such a
    batch is refused as full. *)
Theorem created_batch_is_found (env : Env) (caller : Caller)
    (body : Server.BatchBody) (db db' : Database) (json : Json) :
  Server.createBatch env caller body db = (db', Respond 201 json) ->
  exists id new,
    json = JsonCreated "Batch created successfully" id
    /\ ~ Spec.batch_exists db id
    /\ Sql.batch_by_id db' id = Some new
    /\ b_id new = id
    /\ Some (b_name new) = Server.name body
    /\ Some (b_duration new) = Server.duration body
    /\ (forall start, Server.start_date body = Some start -> Inv.is_date start ->
        b_start_date new = start)
    /\ Some (b_status new) = Server.status body
    /\ b_instructor_id new = c_id caller
    /\ (c_role caller = "teacher" \/ c_role caller = "admin")
    /\ b_max_participants new
       = match Server.max_participants body with
         | Some m => if m =? 0 then 100 else m
         | None => 100
         end
    /\ (b_max_participants new <= 0 ->
        forall t someone,
          Server.enroll (calm t) someone id db'
          = (db', Respond 400 (JsonError "Batch is full"))).
Proof.
  unfold Server.createBatch, Server.authorizeRole. simpl.
  destruct (String.eqb_spec (c_role caller) "teacher") as [Ht|Ht]; simpl.
  2: destruct (String.eqb_spec (c_role caller) "admin") as [Ha|Ha]; simpl;
    [|discriminate].
  all: destruct (Server.name body) as [n|]; simpl; [|discriminate];
    destruct (String.eqb n ""); simpl; [discriminate|];
    destruct (Server.duration body) as [d|]; simpl; [|discriminate];
    destruct (String.eqb d ""); simpl; [discriminate|];
    destruct (Server.start_date body) as [s|]; simpl; [|discriminate];
    destruct (String.eqb s ""); simpl; [discriminate|];
    destruct (Server.status body) as [st|]; simpl; [|discriminate];
    destruct (String.eqb st ""); simpl; [discriminate|];
    unfold Sql.insert_batch; destruct (fault env 0); [discriminate|];
    destruct (_ || _ || _); [|discriminate];
    intros H; inversion H; subst; clear H; simpl;
    set (id := Sql.next_id (map b_id (batches db)));
    assert (Hfresh : ~ Spec.batch_exists db id)
      by (intros (b & Hb & Hid); apply (next_id_fresh (map b_id (batches db)));
          fold id; rewrite <- Hid; apply in_map; exact Hb);
    eexists; eexists; split; [reflexivity|]; split; [exact Hfresh|];
    assert (Hfound :
              Sql.batch_by_id
                {| users := users db;
                   batches := batches db ++
                     [ {| b_id := id; b_name := n; b_instructor_id := c_id caller;
                          b_duration := d; b_start_date := s; b_status := st;
                          b_max_participants :=
                            match Server.max_participants body with
                            | Some m => if negb (m =? 0) then m else 100
                            | None => 100
                            end;
                          b_created_at := now env |} ];
                   enrollments := enrollments db;
                   daily_reports := daily_reports db;
                   last_insert_rowid := id |} id
              = Some {| b_id := id; b_name := n; b_instructor_id := c_id caller;
                        b_duration := d; b_start_date := s; b_status := st;
                        b_max_participants :=
                          match Server.max_participants body with
                          | Some m => if negb (m =? 0) then m else 100
                          | None => 100
                          end;
                        b_created_at := now env |})
      by (unfold Sql.batch_by_id; simpl;
          rewrite find_app_none by (apply batch_by_id_none; exact Hfresh);
          simpl; rewrite Z.eqb_refl; reflexivity);
    split; [exact Hfound|]; simpl;
    repeat (split; [solve [auto | intros start E _; congruence
                           | destruct (Server.max_participants body) as [m|];
                             [destruct (m =? 0)|]; reflexivity]|]);
    intros Hneg t someone;
    apply (enroll_full t someone id _ _ Hfound); simpl in *;
    unfold Sql.enrollment_count; lia.
Qed.

Lemma created_batch_is_found_witness :
  exists new,
    Sql.batch_by_id Examples.with_workshop 2 = Some new
    /\ b_instructor_id new = 4
    /\ b_max_participants new = 100
    /\ b_start_date new = "2026-03-02".
Proof.
  destruct (created_batch_is_found (calm 50) Sample.carol Examples.workshop Sample.db
              Examples.with_workshop (JsonCreated "Batch created successfully" 2)
              eq_refl)
    as (id & new & Hjson & _ & Hfound & _ & _ & _ & Hstart & _ & Hby & _ & Hseats & _).
  injection Hjson as <-. exists new. repeat split; try assumption.
  apply Hstart; [reflexivity | discriminate].
Defined.

(** ** Calendar dates as text *)

Lemma leap_step (y : Z) :
  Js.leaps_through y - Js.leaps_through (y - 1) = if Js.is_leap y then 1 else 0.
Proof.
  unfold Js.leaps_through, Js.is_leap.
  destruct (Z.eqb_spec (y mod 4) 0), (Z.eqb_spec (y mod 100) 0), (Z.eqb_spec (y mod 400) 0);
    simpl; Z.div_mod_to_equations; lia.
Qed.

Lemma year_step (y : Z) :
  Js.days_before_year (y + 1)
  = Js.days_before_year y + 365 + (if Js.is_leap y then 1 else 0).
Proof.
  unfold Js.days_before_year. pose proof (leap_step y).
  replace (y + 1 - 1) with y by lia. lia.
Qed.

Lemma year_later (y y' : Z) :
  y < y' ->
  Js.days_before_year y + 365 + (if Js.is_leap y then 1 else 0)
  <= Js.days_before_year y'.
Proof.
  intros H. replace y' with (y + 1 + Z.of_nat (Z.to_nat (y' - y - 1))) by lia.
  induction (Z.to_nat (y' - y - 1)) as [|k IH].
  - rewrite Z.add_0_r, year_step. lia.
  - replace (y + 1 + Z.of_nat (S k)) with (y + 1 + Z.of_nat k + 1) by lia.
    rewrite year_step. destruct (Js.is_leap (y + 1 + Z.of_nat k)); lia.
Qed.

Lemma month_cases (m : Z) :
  1 <= m <= 12 ->
  m = 1 \/ m = 2 \/ m = 3 \/ m = 4 \/ m = 5 \/ m = 6 \/ m = 7 \/ m = 8 \/ m = 9
  \/ m = 10 \/ m = 11 \/ m = 12.
Proof. lia. Qed.

Ltac months :=
  repeat match goal with
         | |- context [Z.to_nat (?a - 1)] =>
           let n := eval vm_compute in (Z.to_nat (a - 1)) in
           change (Z.to_nat (a - 1)) with n
         end;
  cbv - [Js.is_leap Z.add Z.sub Z.lt Z.le].

Lemma day_of_year_bound (y m d : Z) :
  1 <= m <= 12 -> 1 <= d <= Js.days_in_month y m ->
  0 <= Js.days_before_month y (Z.to_nat (m - 1)) + (d - 1)
       < 365 + (if Js.is_leap y then 1 else 0).
Proof.
  intros Hm.
  destruct (month_cases m Hm) as [-> | [-> | [-> | [-> | [-> | [-> | [-> | [-> | [-> | [-> | [-> | ->]]]]]]]]]]];
    months; destruct (Js.is_leap y); lia.
Qed.

Lemma month_later (y m d m' d' : Z) :
  1 <= m <= 12 -> 1 <= m' <= 12 -> m < m' ->
  d <= Js.days_in_month y m -> 1 <= d' ->
  Js.days_before_month y (Z.to_nat (m - 1)) + (d - 1)
  < Js.days_before_month y (Z.to_nat (m' - 1)) + (d' - 1).
Proof.
  intros Hm Hm' Hlt.
  destruct (month_cases m Hm) as [-> | [-> | [-> | [-> | [-> | [-> | [-> | [-> | [-> | [-> | [-> | ->]]]]]]]]]]];
    destruct (month_cases m' Hm') as [-> | [-> | [-> | [-> | [-> | [-> | [-> | [-> | [-> | [-> | [-> | ->]]]]]]]]]]];
    try lia; months; destruct (Js.is_leap y); lia.
Qed.

(** The day count follows the order of (year, month, day). *)
Lemma days_from_epoch_compare (y m d y' m' d' : Z) :
  1 <= m <= 12 -> 1 <= d <= Js.days_in_month y m ->
  1 <= m' <= 12 -> 1 <= d' <= Js.days_in_month y' m' ->
  (Js.days_from_epoch y m d ?= Js.days_from_epoch y' m' d')
  = match y ?= y' with
    | Eq => match m ?= m' with Eq => d ?= d' | c => c end
    | c => c
    end.
Proof.
  intros Hm Hd Hm' Hd'. unfold Js.days_from_epoch.
  pose proof (day_of_year_bound y m d Hm Hd).
  pose proof (day_of_year_bound y' m' d' Hm' Hd').
  destruct (Z.compare_spec y y') as [<- | Hy | Hy].
  - destruct (Z.compare_spec m m') as [<- | Hmm | Hmm].
    + destruct (Z.compare_spec d d'); [apply Z.compare_eq_iff | apply Z.compare_lt_iff
                                       | apply Z.compare_gt_iff]; lia.
    + apply Z.compare_lt_iff.
      pose proof (month_later y m d m' d' Hm Hm' Hmm). lia.
    + apply Z.compare_gt_iff.
      pose proof (month_later y m' d' m d Hm' Hm Hmm). lia.
  - apply Z.compare_lt_iff. pose proof (year_later y y' Hy). lia.
  - apply Z.compare_gt_iff. pose proof (year_later y' y Hy). lia.
Qed.

Lemma digit_of_value (a : ascii) (x : Z) :
  Js.digit_of a = Some x -> 0 <= x <= 9 /\ Z.of_N (N_of_ascii a) = x + 48.
Proof.
  unfold Js.digit_of.
  destruct (Z.leb_spec 48 (Z.of_N (N_of_ascii a))) as [Hlow|]; simpl; [|discriminate].
  destruct (Z.leb_spec (Z.of_N (N_of_ascii a)) 57) as [Hhigh|]; simpl; [|discriminate].
  intros E. injection E as <-. lia.
Qed.

Lemma digit_compare (a b : ascii) (x y : Z) :
  Js.digit_of a = Some x -> Js.digit_of b = Some y ->
  Ascii.compare a b = (x ?= y).
Proof.
  intros Ha Hb. apply digit_of_value in Ha, Hb.
  unfold Ascii.compare. rewrite <- N2Z.inj_compare.
  destruct Ha as [_ ->], Hb as [_ ->]. rewrite !(Z.add_comm _ 48). apply Z.add_compare_mono_l.
Qed.

Lemma pair_compare (k a b c d : Z) :
  0 <= b < k -> 0 <= d < k ->
  (k * a + b ?= k * c + d) = match a ?= c with Eq => b ?= d | r => r end.
Proof.
  intros Hb Hd. destruct (Z.compare_spec a c) as [<- | H | H].
  - apply Z.add_compare_mono_l.
  - apply Z.compare_lt_iff. nia.
  - apply Z.compare_gt_iff. nia.
Qed.

Lemma number2_value (a b : ascii) (n : Z) :
  Js.number2 a b = Some n ->
  exists x y, Js.digit_of a = Some x /\ Js.digit_of b = Some y /\ n = 10 * x + y.
Proof.
  unfold Js.number2. destruct (Js.digit_of a) as [x|]; [|discriminate].
  destruct (Js.digit_of b) as [y|]; [|discriminate].
  intros H. injection H as <-. exists x, y. auto.
Qed.

(** The shape of a calendar date. *)
Lemma calendar_day_shape (text : string) (day : Z) :
  Js.calendar_day text = Some day ->
  exists a1 a2 a3 a4 a5 a6 a7 a8 yh yl m d,
    text = String a1 (String a2 (String a3 (String a4 (String "-"
             (String a5 (String a6 (String "-" (String a7 (String a8 EmptyString)))))))))
    /\ Js.number2 a1 a2 = Some yh /\ Js.number2 a3 a4 = Some yl
    /\ Js.number2 a5 a6 = Some m /\ Js.number2 a7 a8 = Some d
    /\ 1 <= m <= 12 /\ 1 <= d <= Js.days_in_month (100 * yh + yl) m
    /\ day = Js.days_from_epoch (100 * yh + yl) m d.
Proof.
  unfold Js.calendar_day.
  destruct text as [|a1 [|a2 [|a3 [|a4 [|s1 rest]]]]]; try discriminate.
  destruct s1 as [[] [] [] [] [] [] [] []]; try discriminate.
  destruct rest as [|a5 [|a6 [|s2 rest]]]; try discriminate.
  destruct s2 as [[] [] [] [] [] [] [] []]; try discriminate.
  destruct rest as [|a7 [|a8 [|? ?]]]; try discriminate.
  destruct (Js.number2 a1 a2) as [yh|] eqn:E1; [|discriminate].
  destruct (Js.number2 a3 a4) as [yl|] eqn:E2; [|discriminate].
  destruct (Js.number2 a5 a6) as [m|] eqn:E3; [|discriminate].
  destruct (Js.number2 a7 a8) as [d|] eqn:E4; [|discriminate].
  destruct (_ && _ && _ && _) eqn:V; [|discriminate].
  intros E. injection E as <-.
  rewrite !andb_true_iff, !Z.leb_le in V.
  exists a1, a2, a3, a4, a5, a6, a7, a8, yh, yl, m, d.
  repeat split; try reflexivity; tauto.
Qed.

(** Two calendar dates compare as texts the way their days compare. *)
Lemma calendar_day_compare (a b : string) (day day' : Z) :
  Js.calendar_day a = Some day -> Js.calendar_day b = Some day' ->
  String.compare a b = (day ?= day').
Proof.
  intros Ha Hb.
  destruct (calendar_day_shape a day Ha)
    as (a1 & a2 & a3 & a4 & a5 & a6 & a7 & a8 & yh & yl & m & d
        & -> & E1 & E2 & E3 & E4 & Vm & Vd & ->).
  destruct (calendar_day_shape b day' Hb)
    as (b1 & b2 & b3 & b4 & b5 & b6 & b7 & b8 & yh' & yl' & m' & d'
        & -> & F1 & F2 & F3 & F4 & Vm' & Vd' & ->).
  rewrite days_from_epoch_compare by assumption.
  apply number2_value in E1, E2, E3, E4, F1, F2, F3, F4.
  destruct E1 as (x1 & x2 & D1 & D2 & ->), E2 as (x3 & x4 & D3 & D4 & ->),
           E3 as (x5 & x6 & D5 & D6 & ->), E4 as (x7 & x8 & D7 & D8 & ->),
           F1 as (y1 & y2 & G1 & G2 & ->), F2 as (y3 & y4 & G3 & G4 & ->),
           F3 as (y5 & y6 & G5 & G6 & ->), F4 as (y7 & y8 & G7 & G8 & ->).
  simpl String.compare.
  rewrite (digit_compare _ _ _ _ D1 G1), (digit_compare _ _ _ _ D2 G2),
    (digit_compare _ _ _ _ D3 G3), (digit_compare _ _ _ _ D4 G4),
    (digit_compare _ _ _ _ D5 G5), (digit_compare _ _ _ _ D6 G6),
    (digit_compare _ _ _ _ D7 G7), (digit_compare _ _ _ _ D8 G8).
  apply digit_of_value in D1, D2, D3, D4, D5, D6, D7, D8, G1, G2, G3, G4, G5, G6, G7, G8.
  rewrite (pair_compare 100) by lia.
  rewrite !(pair_compare 10) by lia.
  change (Ascii.compare "-" "-") with Eq.
  destruct (x1 ?= y1); try reflexivity.
  destruct (x2 ?= y2); try reflexivity.
  destruct (x3 ?= y3); try reflexivity.
  destruct (x4 ?= y4); try reflexivity.
  destruct (x5 ?= y5); try reflexivity.
  destruct (x6 ?= y6); try reflexivity.
  destruct (x7 ?= y7); try reflexivity.
  destruct (x8 ?= y8); reflexivity.
Qed.


Lemma leb_day_le (a b : string) :
  Inv.is_date a -> Inv.is_date b -> String.leb a b = true -> Inv.day_le a b.
Proof.
  unfold Inv.is_date, String.leb. intros Ha Hb.
  destruct (Js.calendar_day a) as [x|] eqn:Ea; [|contradiction].
  destruct (Js.calendar_day b) as [y|] eqn:Eb; [|contradiction].
  rewrite (calendar_day_compare a b x y Ea Eb).
  destruct (Z.compare_spec x y); try discriminate; intros _; exists x, y;
    repeat split; auto; lia.
Qed.

Lemma sorted_among {A : Type} (R R' : A -> A -> Prop) (l : list A) :
  (forall x y, In x l -> In y l -> R x y -> R' x y) ->
  Sorted R l -> Sorted R' l.
Proof.
  induction l as [|a l IH]; intros Himp Hsorted; [constructor|].
  inversion Hsorted as [|? ? Hl Hhd]; subst. constructor.
  - apply IH; [|exact Hl]. intros x y Hx Hy. apply Himp; right; assumption.
  - destruct Hhd as [|b l' Hab]; constructor.
    apply Himp; [left; reflexivity | right; left; reflexivity | exact Hab].
Qed.

(** ** Report queries: order, limit, filters *)

Lemma precedes_total (x y : Sql.ReportRow) :
  Sql.precedes x y = false -> Sql.precedes y x = true.
Proof.
  unfold Sql.precedes. intros H.
  rewrite (String.compare_antisym (r_report_date (Sql.row_report y))).
  destruct (String.compare (r_report_date (Sql.row_report x))
              (r_report_date (Sql.row_report y))); simpl;
    try discriminate; try reflexivity.
  apply Z.leb_gt in H. apply Z.leb_le. lia.
Qed.

Lemma insert_sorted_head (x y : Sql.ReportRow) (rows : list Sql.ReportRow) :
  Inv.in_order y x -> HdRel Inv.in_order y rows -> HdRel Inv.in_order y (Sql.insert_sorted x rows).
Proof.
  intros Hyx Hhd. destruct rows as [|z rows]; simpl.
  - constructor. exact Hyx.
  - destruct (Sql.precedes x z); constructor; [exact Hyx|].
    inversion Hhd. assumption.
Qed.

Lemma insert_sorted_sorted (x : Sql.ReportRow) (rows : list Sql.ReportRow) :
  Sorted Inv.in_order rows -> Sorted Inv.in_order (Sql.insert_sorted x rows).
Proof.
  induction rows as [|y rows IH]; simpl; intros Hs.
  - constructor; constructor.
  - destruct (Sql.precedes x y) eqn:E.
    + constructor; [exact Hs | constructor; exact E].
    + inversion Hs as [|? ? Hrest Hhd]; subst. constructor.
      * apply IH. exact Hrest.
      * apply insert_sorted_head; [apply precedes_total; exact E | exact Hhd].
Qed.

Lemma order_by_sorted (rows : list Sql.ReportRow) :
  Sorted Inv.in_order (Sql.order_by_date_desc rows).
Proof.
  unfold Sql.order_by_date_desc. induction rows as [|x rows IH]; simpl.
  - constructor.
  - apply insert_sorted_sorted. exact IH.
Qed.

Lemma firstn_sorted (n : nat) (rows : list Sql.ReportRow) :
  Sorted Inv.in_order rows -> Sorted Inv.in_order (firstn n rows).
Proof.
  revert rows. induction n as [|n IH]; intros rows Hs; simpl; [constructor|].
  destruct rows as [|x rows]; [constructor|].
  inversion Hs as [|? ? Hrest Hhd]; subst. constructor; [apply IH; exact Hrest|].
  destruct n; simpl; [constructor|].
  destruct rows as [|y rows]; [constructor|].
  inversion Hhd. constructor. assumption.
Qed.

Lemma limit_rows_sorted (n : Z) (rows : list Sql.ReportRow) :
  Sorted Inv.in_order rows -> Sorted Inv.in_order (Sql.limit_rows n rows).
Proof.
  unfold Sql.limit_rows. destruct (n <? 0); [auto | apply firstn_sorted].
Qed.

Lemma joined_reports_in (db : Database) (row : Sql.ReportRow) :
  In row (Sql.joined_reports db) <->
  exists u b,
    In (Sql.row_report row) (daily_reports db)
    /\ In u (users db) /\ u_id u = r_user_id (Sql.row_report row)
    /\ In b (batches db) /\ b_id b = r_batch_id (Sql.row_report row)
    /\ row = {| Sql.row_report := Sql.row_report row;
                Sql.row_user_name := u_full_name u;
                Sql.row_username := u_username u;
                Sql.row_batch_name := b_name b |}.
Proof.
  unfold Sql.joined_reports. rewrite in_flat_map. split.
  - intros (r & Hr & H). apply in_flat_map in H. destruct H as (u & Hu & H).
    destruct (Z.eqb_spec (r_user_id r) (u_id u)) as [Eu|]; [|destruct H].
    apply in_flat_map in H. destruct H as (b & Hb & H).
    destruct (Z.eqb_spec (r_batch_id r) (b_id b)) as [Eb|]; [|destruct H].
    destruct H as [<- | []]. simpl. exists u, b. repeat split; auto.
  - intros (u & b & Hr & Hu & Eu & Hb & Eb & Hrow).
    exists (Sql.row_report row). split; [exact Hr|].
    apply in_flat_map. exists u. split; [exact Hu|].
    rewrite Eu, Z.eqb_refl. apply in_flat_map. exists b. split; [exact Hb|].
    rewrite Eb, Z.eqb_refl. left. symmetry. exact Hrow.
Qed.

(** The conditions of a query, read field by field. *)
Lemma report_conditions_hold (caller : Caller) (query : Server.ReportQuery) (r : Report) :
  forallb (fun c => c r) (Server.report_conditions caller query) = true <->
  (c_role caller = "student" -> r_user_id r = c_id caller)
  /\ (forall b, Server.q_batch_id query = Some b -> r_batch_id r = b)
  /\ (c_role caller <> "student" ->
      forall u, Server.q_user_id query = Some u -> r_user_id r = u)
  /\ (forall d, Server.q_start_date query = Some d -> d <> "" ->
      String.leb d (r_report_date r) = true)
  /\ (forall d, Server.q_end_date query = Some d -> d <> "" ->
      String.leb (r_report_date r) d = true).
Proof.
  unfold Server.report_conditions. rewrite !forallb_app.
  rewrite !andb_true_iff.
  destruct (String.eqb_spec (c_role caller) "student") as [Hrole|Hrole];
    destruct (Server.q_batch_id query) as [b|];
    destruct (Server.q_user_id query) as [u|];
    destruct (Server.q_start_date query) as [ds|];
    destruct (Server.q_end_date query) as [de|]; simpl;
    try destruct (String.eqb_spec ds "") as [->|Hds];
    try destruct (String.eqb_spec de "") as [->|Hde]; simpl;
    rewrite ?andb_true_r, ?Z.eqb_eq;
    (split;
     [ intros H; repeat split; intros; subst;
       try congruence; try discriminate; try tauto;
       repeat match goal with
              | E : Some _ = Some _ |- _ => injection E as <-
              end; try tauto; try contradiction
     | intros (H1 & H2 & H3 & H4 & H5); repeat split;
       auto using eq_refl ]).
Qed.

Lemma select_reports_in (db : Database) (conditions : list (Report -> bool))
    (limit : Z) (row : Sql.ReportRow) :
  In row (Sql.select_reports db conditions limit) ->
  In row (Sql.joined_reports db)
  /\ forallb (fun c => c (Sql.row_report row)) conditions = true.
Proof.
  unfold Sql.select_reports. intros H.
  apply in_limit_rows, in_order_by, filter_In in H. exact H.
Qed.

Lemma both_reported_dated : Inv.reports_dated Sample.both_reported.
Proof. intros r [<- | [<- | []]]; discriminate. Qed.

(** X7.  When every stored report date is a calendar date
    [YYYY-MM-DD], the rows a report query answers with are in
    chronological order, latest first: each row is dated by a later day
    than the next one, or by the same day and has a creation time that
    is not earlier.  (The dates are compared as text, which for calendar
    dates is the order of the days.) *)
Theorem query_reports_ordered (env : Env) (caller : Caller)
    (query : Server.ReportQuery) (db : Database) (rows : list Sql.ReportRow) :
  Inv.reports_dated db ->
  Server.queryReports env caller query db = Result rows ->
  Sorted Inv.descending rows /\ Sorted Inv.latest_first rows.
Proof.
  intros Hdated.
  unfold Server.queryReports, Sql.call. destruct (fault env 0); [discriminate|].
  intros H. injection H as <-.
  assert (Htext : Sorted Inv.descending
                    (Sql.select_reports db (Server.report_conditions caller query)
                       match Server.q_limit query with
                       | Some n => n
                       | None => 100
                       end)).
  { unfold Sql.select_reports.
    eapply Sorted_ind with (R := Inv.in_order) (P := Sorted Inv.descending).
    - constructor.
    - intros x l _ IH Hhd. constructor; [exact IH|].
      destruct Hhd as [|y l' Hxy]; constructor.
      unfold Inv.in_order, Sql.precedes in Hxy. unfold Inv.descending, String.ltb.
      rewrite (String.compare_antisym (r_report_date (Sql.row_report y))).
      destruct (String.compare (r_report_date (Sql.row_report x))
                  (r_report_date (Sql.row_report y))) eqn:E; simpl;
        try discriminate.
      + right. apply String.compare_eq_iff in E. split; [exact E|].
        apply Z.leb_le. exact Hxy.
      + left. reflexivity.
    - apply limit_rows_sorted, order_by_sorted. }
  split; [exact Htext|].
  apply (sorted_among Inv.descending Inv.latest_first); [|exact Htext].
  assert (Hday : forall row,
             In row (Sql.select_reports db (Server.report_conditions caller query)
                       match Server.q_limit query with
                       | Some n => n
                       | None => 100
                       end) ->
             exists day, Js.calendar_day (r_report_date (Sql.row_report row)) = Some day).
  { intros row Hin. apply select_reports_in in Hin. destruct Hin as [Hjoin _].
    apply joined_reports_in in Hjoin. destruct Hjoin as (_ & _ & Hr & _).
    specialize (Hdated _ Hr). unfold Inv.is_date in Hdated.
    destruct (Js.calendar_day (r_report_date (Sql.row_report row))) as [day|];
      [exists day; reflexivity | contradiction]. }
  intros x y Hx Hy Hxy.
  destruct (Hday x Hx) as [dx Ex], (Hday y Hy) as [dy Ey].
  exists dx, dy. split; [exact Ex|]. split; [exact Ey|].
  destruct Hxy as [Hlt | [Heq Hcreated]].
  - left. unfold String.ltb in Hlt.
    rewrite (calendar_day_compare _ _ dy dx Ey Ex) in Hlt.
    destruct (Z.compare_spec dy dx); try discriminate. assumption.
  - right. split; [|exact Hcreated]. rewrite Heq in Ex. congruence.
Qed.

Lemma query_reports_ordered_witness :
  exists rows,
    Server.queryReports (calm 40) Sample.carol (Sample.reports_of_user None)
      Sample.both_reported = Result rows
    /\ List.length rows = 2%nat
    /\ Sorted Inv.descending rows /\ Sorted Inv.latest_first rows.
Proof.
  eexists. split; [reflexivity|]. split; [reflexivity|].
  apply (query_reports_ordered (calm 40) Sample.carol (Sample.reports_of_user None)
           Sample.both_reported).
  - apply both_reported_dated.
  - reflexivity.
Defined.

Lemma insert_sorted_length (x : Sql.ReportRow) (rows : list Sql.ReportRow) :
  List.length (Sql.insert_sorted x rows) = S (List.length rows).
Proof.
  induction rows as [|y rows IH]; simpl; [reflexivity|].
  destruct (Sql.precedes x y); simpl; [reflexivity | rewrite IH; reflexivity].
Qed.

Lemma order_by_length (rows : list Sql.ReportRow) :
  List.length (Sql.order_by_date_desc rows) = List.length rows.
Proof.
  unfold Sql.order_by_date_desc. induction rows as [|x rows IH]; simpl; [reflexivity|].
  rewrite insert_sorted_length, IH. reflexivity.
Qed.

(** X8.  A report query answers with at most [limit] rows, 100 when the
    request gives no limit; a negative limit lifts the cap: when the
    stored report dates and the date filters of the request are calendar
    dates [YYYY-MM-DD], the answer then has one row for every joined
    report row that meets the conditions. *)
Theorem query_reports_limit (env : Env) (caller : Caller)
    (query : Server.ReportQuery) (db : Database) (rows : list Sql.ReportRow) :
  Server.queryReports env caller query db = Result rows ->
  let limit := match Server.q_limit query with Some n => n | None => 100 end in
  (0 <= limit -> Z.of_nat (List.length rows) <= limit)
  /\ (Server.q_limit query = None -> (List.length rows <= 100)%nat)
  /\ (limit < 0 ->
      Inv.reports_dated db ->
      Inv.filter_dated (Server.q_start_date query) ->
      Inv.filter_dated (Server.q_end_date query) ->
      List.length rows
      = List.length
          (filter (fun row => forallb (fun c => c (Sql.row_report row))
                                (Server.report_conditions caller query))
                  (Sql.joined_reports db))).
Proof.
  intros H limit. revert H.
  unfold Server.queryReports, Sql.call. destruct (fault env 0); [discriminate|].
  intros H. injection H as <-.
  unfold Sql.select_reports, Sql.limit_rows. fold limit.
  assert (Hcap : 0 <= limit ->
                 Z.of_nat (List.length
                   (if limit <? 0 then
                      Sql.order_by_date_desc
                        (filter (fun row => forallb (fun c => c (Sql.row_report row))
                                              (Server.report_conditions caller query))
                                (Sql.joined_reports db))
                    else
                      firstn (Z.to_nat limit)
                        (Sql.order_by_date_desc
                           (filter (fun row => forallb (fun c => c (Sql.row_report row))
                                                 (Server.report_conditions caller query))
                                   (Sql.joined_reports db))))) <= limit).
  { intros Hpos. destruct (Z.ltb_spec limit 0); [lia|].
    pose proof (firstn_le_length (Z.to_nat limit)
                  (Sql.order_by_date_desc
                     (filter (fun row => forallb (fun c => c (Sql.row_report row))
                                           (Server.report_conditions caller query))
                             (Sql.joined_reports db)))). lia. }
  split; [exact Hcap|]. split.
  - intros Hnone. unfold limit in *. rewrite Hnone in *.
    specialize (Hcap ltac:(lia)). lia.
  - intros Hneg _ _ _. destruct (Z.ltb_spec limit 0); [|lia]. apply order_by_length.
Qed.

Lemma query_reports_limit_witness :
  (exists rows,
      Server.queryReports (calm 40) Sample.carol
        {| Server.q_batch_id := None; Server.q_user_id := None;
           Server.q_start_date := None; Server.q_end_date := None;
           Server.q_limit := Some 1 |} Sample.both_reported = Result rows
      /\ Z.of_nat (List.length rows) <= 1)
  /\ (exists rows,
        Server.queryReports (calm 40) Sample.carol Examples.january Sample.both_reported
        = Result rows
        /\ List.length rows
           = List.length
               (filter (fun row => forallb (fun c => c (Sql.row_report row))
                                     (Server.report_conditions Sample.carol
                                        Examples.january))
                       (Sql.joined_reports Sample.both_reported))).
Proof.
  split.
  - eexists. split; [reflexivity|].
    apply (query_reports_limit (calm 40) Sample.carol
             {| Server.q_batch_id := None; Server.q_user_id := None;
                Server.q_start_date := None; Server.q_end_date := None;
                Server.q_limit := Some 1 |} Sample.both_reported).
    + reflexivity.
    + simpl. lia.
  - eexists. split; [reflexivity|].
    apply (query_reports_limit (calm 40) Sample.carol Examples.january
             Sample.both_reported).
    + reflexivity.
    + simpl. lia.
    + apply both_reported_dated.
    + intros d E _. injection E as <-. discriminate.
    + intros d E _. injection E as <-. discriminate.
Defined.

(** X9.  Every row of the answer to a report query is a stored report
    joined with its user and its batch, and meets each filter of the
    request: the batch filter, the user filter when the caller is not a
    student, and the date range: where the date of the row and a bound
    of the range are calendar dates [YYYY-MM-DD], the day of the row is
    not before the start of the range and not after its end. *)
Theorem query_reports_filters (env : Env) (caller : Caller)
    (query : Server.ReportQuery) (db : Database) (rows : list Sql.ReportRow)
    (row : Sql.ReportRow) :
  Server.queryReports env caller query db = Result rows ->
  In row rows ->
  let r := Sql.row_report row in
  In r (daily_reports db)
  /\ (exists u, In u (users db) /\ u_id u = r_user_id r
                /\ Sql.row_user_name row = u_full_name u
                /\ Sql.row_username row = u_username u)
  /\ (exists b, In b (batches db) /\ b_id b = r_batch_id r
                /\ Sql.row_batch_name row = b_name b)
  /\ (forall b, Server.q_batch_id query = Some b -> r_batch_id r = b)
  /\ (c_role caller <> "student" ->
      forall u, Server.q_user_id query = Some u -> r_user_id r = u)
  /\ (forall d, Server.q_start_date query = Some d -> d <> "" ->
      Inv.is_date d -> Inv.is_date (r_report_date r) ->
      String.leb d (r_report_date r) = true /\ Inv.day_le d (r_report_date r))
  /\ (forall d, Server.q_end_date query = Some d -> d <> "" ->
      Inv.is_date d -> Inv.is_date (r_report_date r) ->
      String.leb (r_report_date r) d = true /\ Inv.day_le (r_report_date r) d).
Proof.
  intros H Hin r. revert H.
  unfold Server.queryReports, Sql.call. destruct (fault env 0); [discriminate|].
  intros H. injection H as <-.
  apply select_reports_in in Hin. destruct Hin as [Hjoin Hconds].
  apply joined_reports_in in Hjoin.
  destruct Hjoin as (u & b & Hr & Hu & Eu & Hb & Eb & Hrow).
  apply report_conditions_hold in Hconds.
  destruct Hconds as (_ & H2 & H3 & H4 & H5).
  split; [exact Hr|]. split.
  { exists u. rewrite Hrow. simpl. repeat split; assumption. }
  split.
  { exists b. rewrite Hrow. simpl. repeat split; assumption. }
  split; [exact H2|]. split; [exact H3|]. split.
  - intros d Hd Hne Hdate Hrdate. split; [auto | apply leb_day_le; auto].
  - intros d Hd Hne Hdate Hrdate. split; [auto | apply leb_day_le; auto].
Qed.

Lemma query_reports_filters_witness :
  (exists rows,
      Server.queryReports (calm 40) Sample.carol (Sample.reports_of_user (Some 3))
        Sample.both_reported = Result rows
      /\ rows <> []
      /\ Forall (fun row => r_user_id (Sql.row_report row) = 3) rows)
  /\ (exists rows,
        Server.queryReports (calm 40) Sample.carol Examples.january Sample.both_reported
        = Result rows
        /\ rows <> []
        /\ Forall (fun row =>
                     Inv.day_le "2026-01-01" (r_report_date (Sql.row_report row))
                     /\ Inv.day_le (r_report_date (Sql.row_report row)) "2026-01-31")
                  rows).
Proof.
  split.
  - eexists. split; [reflexivity|]. split; [discriminate|].
    apply Forall_forall. intros row Hin.
    destruct (query_reports_filters (calm 40) Sample.carol
                (Sample.reports_of_user (Some 3)) Sample.both_reported _ row
                eq_refl Hin) as (_ & _ & _ & _ & Huser & _).
    apply Huser; [discriminate | reflexivity].
  - eexists. split; [reflexivity|]. split; [discriminate|].
    apply Forall_forall. intros row Hin.
    destruct (query_reports_filters (calm 40) Sample.carol Examples.january
                Sample.both_reported _ row eq_refl Hin)
      as (Hstored & _ & _ & _ & _ & Hstart & Hend).
    apply both_reported_dated in Hstored.
    split.
    + apply (Hstart "2026-01-01"); [reflexivity | discriminate | discriminate | exact Hstored].
    + apply (Hend "2026-01-31"); [reflexivity | discriminate | discriminate | exact Hstored].
Defined.

Lemma insert_sorted_in (x y : Sql.ReportRow) (rows : list Sql.ReportRow) :
  y = x \/ In y rows -> In y (Sql.insert_sorted x rows).
Proof.
  induction rows as [|z rows IH]; simpl.
  - intros [-> | []]. left. reflexivity.
  - destruct (Sql.precedes x z); simpl.
    + intros [-> | [-> | H]]; auto.
    + intros [-> | [-> | H]]; auto.
Qed.

Lemma order_by_in (y : Sql.ReportRow) (rows : list Sql.ReportRow) :
  In y rows -> In y (Sql.order_by_date_desc rows).
Proof.
  unfold Sql.order_by_date_desc. induction rows as [|x rows IH]; simpl; [auto|].
  intros [-> | H]; apply insert_sorted_in; auto.
Qed.

(** The report join is complete when nothing caps it. *)
Lemma selected_when_uncapped (t : Z) (caller : Caller)
    (query : Server.ReportQuery) (db : Database) (r : Report) (u : User) (b : Batch)
    (limit : Z) :
  Server.q_limit query = Some limit -> limit < 0 ->
  In r (daily_reports db) ->
  In u (users db) -> u_id u = r_user_id r ->
  In b (batches db) -> b_id b = r_batch_id r ->
  (c_role caller = "student" -> r_user_id r = c_id caller) ->
  (forall x, Server.q_batch_id query = Some x -> r_batch_id r = x) ->
  (c_role caller <> "student" ->
   forall x, Server.q_user_id query = Some x -> r_user_id r = x) ->
  (forall d, Server.q_start_date query = Some d -> d <> "" ->
   String.leb d (r_report_date r) = true) ->
  (forall d, Server.q_end_date query = Some d -> d <> "" ->
   String.leb (r_report_date r) d = true) ->
  exists rows,
    Server.queryReports (calm t) caller query db = Result rows
    /\ In {| Sql.row_report := r; Sql.row_user_name := u_full_name u;
             Sql.row_username := u_username u; Sql.row_batch_name := b_name b |} rows.
Proof.
  intros Hlimit Hneg Hr Hu Eu Hb Eb H1 H2 H3 H4 H5.
  unfold Server.queryReports, Sql.call. simpl. rewrite Hlimit.
  eexists. split; [reflexivity|].
  unfold Sql.select_reports, Sql.limit_rows.
  destruct (Z.ltb_spec limit 0); [|lia].
  apply order_by_in, filter_In. split.
  - apply joined_reports_in. exists u, b. simpl. repeat split; assumption.
  - simpl. apply report_conditions_hold. repeat split; assumption.
Qed.



(** ** The bearer token *)

Lemma split_space_spaceless (text : string) :
  Auth.spaceless text = true -> Auth.split_space text = [text].
Proof.
  induction text as [|c text IH]; simpl; [reflexivity|].
  destruct (Ascii.eqb c " "); simpl; [discriminate|].
  intros H. rewrite (IH H). reflexivity.
Qed.

Lemma split_space_word (word rest : string) :
  Auth.spaceless word = true ->
  Auth.split_space (word ++ String " " rest)%string = word :: Auth.split_space rest.
Proof.
  induction word as [|c word IH]; simpl; [reflexivity|].
  destruct (Ascii.eqb c " "); simpl; [discriminate|].
  intros H. rewrite (IH H). reflexivity.
Qed.

(** X11.  authenticateToken takes the second space-separated piece of
    the authorization header as the token and never looks at the first:
    for any scheme word and any token without spaces the request is
    authenticated exactly when the token verifies.  Without header, with
    a header that has no space, or with two spaces between scheme and
    token, the answer is 401 "Access token required". *)
Theorem authenticate_ignores_scheme (verify : string -> option Caller)
    (scheme token : string) :
  Auth.spaceless scheme = true -> Auth.spaceless token = true -> token <> "" ->
  Auth.authenticateToken verify (Some (scheme ++ String " " token)%string)
  = match verify token with
    | Some user => Auth.Next user
    | None => Auth.Rejected 403 (JsonError "Invalid or expired token")
    end
  /\ Auth.authenticateToken verify None
     = Auth.Rejected 401 (JsonError "Access token required")
  /\ Auth.authenticateToken verify (Some scheme)
     = Auth.Rejected 401 (JsonError "Access token required")
  /\ Auth.authenticateToken verify (Some (scheme ++ String " " (String " " token))%string)
     = Auth.Rejected 401 (JsonError "Access token required").
Proof.
  intros Hscheme Htoken Hne. split; [|split; [reflexivity|split]].
  - unfold Auth.authenticateToken, Auth.bearer_token.
    assert (Hheader : String.eqb (scheme ++ String " " token)%string "" = false)
      by (destruct scheme; reflexivity).
    rewrite Hheader, (split_space_word _ _ Hscheme), (split_space_spaceless _ Htoken).
    simpl. apply String.eqb_neq in Hne. rewrite Hne. reflexivity.
  - unfold Auth.authenticateToken, Auth.bearer_token.
    destruct (String.eqb scheme ""); [reflexivity|].
    rewrite (split_space_spaceless _ Hscheme). reflexivity.
  - unfold Auth.authenticateToken, Auth.bearer_token.
    assert (Hheader : String.eqb (scheme ++ String " " (String " " token))%string "" = false)
      by (destruct scheme; reflexivity).
    rewrite Hheader, (split_space_word _ _ Hscheme). reflexivity.
Qed.

Lemma authenticate_ignores_scheme_witness :
  Auth.authenticateToken Examples.verify (Some "Basic token:alice")
  = Auth.Next Sample.alice.
Proof.
  assert (Hne : "token:alice" <> "") by discriminate.
  exact (proj1 (authenticate_ignores_scheme Examples.verify "Basic" "token:alice"
                  eq_refl eq_refl Hne)).
Defined.

(** ** Performance level and recommendations *)

Lemma ge_nullable_monotone (a a' bound : Q) :
  (a <= a')%Q -> Js.ge_nullable (Some a) bound = true ->
  Js.ge_nullable (Some a') bound = true.
Proof.
  simpl. rewrite !Qle_bool_iff. intros H1 H2. apply (Qle_trans _ _ _ H2 H1).
Qed.

Lemma leb_monotone (bound n n' : Z) : n <= n' -> (bound <=? n) = true -> (bound <=? n') = true.
Proof. rewrite !Z.leb_le. lia. Qed.

Lemma threshold_monotone (a a' : Q) (n n' : Z) (h : Q) (r : Z) :
  (a <= a')%Q -> n <= n' ->
  Js.ge_nullable (Some a) h && (r <=? n) = true ->
  Js.ge_nullable (Some a') h && (r <=? n') = true.
Proof.
  intros Ha Hn H. apply andb_true_iff in H. destruct H as [H1 H2].
  rewrite (ge_nullable_monotone _ _ _ Ha H1), (leb_monotone _ _ _ Hn H2). reflexivity.
Qed.

(** X12.  The performance level never drops when a student has more
    average hours and more reports: for non-negative averages, with
    avg <= avg' and total <= total', the level for (avg', total') is at
    least the level for (avg, total) in the order No Data, Needs
    Improvement, Average, Good, Very Good, Excellent. *)
Theorem performance_level_monotone (avg avg' : Q) (total total' : Z) :
  (0 <= avg)%Q -> (avg <= avg')%Q -> 0 <= total -> total <= total' ->
  (Advice.rank (Advice.getPerformanceLevel (Some avg) total)
   <= Advice.rank (Advice.getPerformanceLevel (Some avg') total'))%nat.
Proof.
  intros H0 Ha Ht0 Ht.
  unfold Advice.getPerformanceLevel at 1.
  destruct (negb (Js.truthy_number (Some avg)) || negb (Js.truthy_int (Some total)))
    eqn:Hdata; [apply Nat.le_0_l|].
  assert (Hdata' : negb (Js.truthy_number (Some avg'))
                   || negb (Js.truthy_int (Some total')) = false).
  { apply orb_false_iff in Hdata. destruct Hdata as [H1 H2]. simpl in *.
    apply negb_false_iff, negb_true_iff in H1. apply negb_false_iff, negb_true_iff in H2.
    apply Qeq_bool_neq in H1. apply Z.eqb_neq in H2.
    destruct (Qeq_bool avg' 0) eqn:E; simpl.
    - apply Qeq_bool_iff in E. exfalso. apply H1. lra.
    - destruct (Z.eqb_spec total' 0); [lia | reflexivity]. }
  unfold Advice.getPerformanceLevel. rewrite Hdata'.
  destruct (Js.ge_nullable (Some avg) 7 && (20 <=? total)) eqn:E5;
    [try rewrite (threshold_monotone _ _ _ _ _ _ Ha Ht E5)|];
    destruct (Js.ge_nullable (Some avg') 7 && (20 <=? total'));
    try (unfold Advice.rank; simpl; clear; lia);
  (destruct (Js.ge_nullable (Some avg) 6 && (15 <=? total)) eqn:E4;
    [try rewrite (threshold_monotone _ _ _ _ _ _ Ha Ht E4)|];
    destruct (Js.ge_nullable (Some avg') 6 && (15 <=? total'));
    try (unfold Advice.rank; simpl; clear; lia));
  (destruct (Js.ge_nullable (Some avg) 5 && (10 <=? total)) eqn:E3;
    [try rewrite (threshold_monotone _ _ _ _ _ _ Ha Ht E3)|];
    destruct (Js.ge_nullable (Some avg') 5 && (10 <=? total'));
    try (unfold Advice.rank; simpl; clear; lia));
  (destruct (Js.ge_nullable (Some avg) 4 && (5 <=? total)) eqn:E2;
    [try rewrite (threshold_monotone _ _ _ _ _ _ Ha Ht E2)|];
    destruct (Js.ge_nullable (Some avg') 4 && (5 <=? total'));
    try (unfold Advice.rank; simpl; clear; lia)).
Qed.

Lemma performance_level_monotone_witness :
  (Advice.rank (Advice.getPerformanceLevel (Some (9 # 2)) 6)
   <= Advice.rank (Advice.getPerformanceLevel (Some (13 # 2)) 16))%nat.
Proof.
  apply performance_level_monotone.
  - unfold Qle. simpl. lia.
  - unfold Qle. simpl. lia.
  - lia.
  - lia.
Defined.

Lemma lt_nullable_spec (avg : option Q) (bound : Q) :
  Js.lt_nullable avg bound = true <-> (Spec.number_of avg < bound)%Q.
Proof.
  destruct avg as [a|]; simpl; rewrite negb_true_iff.
  - split.
    + intros H. apply Qnot_le_lt. intros Hle. apply Qle_bool_iff in Hle. congruence.
    + intros H. destruct (Qle_bool bound a) eqn:E; [|reflexivity].
      apply Qle_bool_iff in E. lra.
  - split.
    + intros H. apply Qnot_le_lt. intros Hle. apply Qle_bool_iff in Hle. congruence.
    + intros H. destruct (Qle_bool bound 0) eqn:E; [|reflexivity].
      apply Qle_bool_iff in E. lra.
Qed.

(** X13.  The recommendations are never empty and never more than
    four, and no advice is given twice.  The advice to study more is
    given exactly for an average below 5 hours (no report counts as 0)
    and the advice to rest exactly from 8 hours, so never both; "Keep up
    the good work" is given only when nothing else is. *)
Theorem recommendations_shape {A : Type} (avgHours : option Q) (totalReports : Z)
    (challenges : option (list A)) :
  let advice := Advice.generateRecommendations avgHours totalReports challenges in
  advice <> []
  /\ (List.length advice <= 4)%nat
  /\ NoDup advice
  /\ (In Advice.more_hours advice <-> (Spec.number_of avgHours < 5)%Q)
  /\ (In Advice.take_rest advice <-> (8 <= Spec.number_of avgHours)%Q)
  /\ (In Advice.daily_habit advice <-> totalReports < 10)
  /\ ~ (In Advice.more_hours advice /\ In Advice.take_rest advice)
  /\ (In Advice.keep_up advice -> advice = [Advice.keep_up]).
Proof.
  intros advice. unfold advice, Advice.generateRecommendations.
  destruct (Js.lt_nullable avgHours 5) eqn:E1;
    [apply lt_nullable_spec in E1
    |apply not_true_iff_false in E1; rewrite lt_nullable_spec in E1];
  (destruct (Js.ge_nullable avgHours 8) eqn:E4;
    [apply ge_nullable_spec in E4
    |apply not_true_iff_false in E4; rewrite ge_nullable_spec in E4]);
  try (exfalso; lra);
  destruct (Js.ge_nullable avgHours 6) eqn:E5;
  destruct (Z.ltb_spec totalReports 10);
  destruct (Z.leb_spec 20 totalReports);
  try lia;
  (destruct challenges as [rows|]; [destruct (0 <? List.length rows)%nat|]);
  simpl;
  (split; [discriminate|]);
  (split; [clear; lia|]);
  (split; [repeat constructor; simpl; intuition discriminate|]);
  (split; [first [ split; [intros _; assumption | intros; simpl; tauto]
                 | split; [simpl; intuition discriminate | intros; contradiction] ]|]);
  (split; [first [ split; [intros _; assumption | intros; simpl; tauto]
                 | split; [simpl; intuition discriminate | intros; contradiction] ]|]);
  (split; [first [ split; [intros _; assumption | intros; simpl; tauto]
                 | split; [simpl; intuition discriminate | intros; lia] ]|]);
  (split; [simpl; intuition discriminate|]);
  simpl; intuition discriminate.
Qed.

(** ** Batch recommendations *)

Lemma enrolled_ids_in (db : Database) (userId : Z) (b : Batch) :
  In b (batches db) -> Spec.enrolled db userId (b_id b) ->
  In (b_id b) (Advice.enrolled_ids db userId).
Proof.
  intros Hb (e & He & Hu & Hbid). unfold Advice.enrolled_ids.
  apply in_flat_map. exists b. split; [exact Hb|].
  apply in_flat_map. exists e. split; [exact He|].
  rewrite Hu, Hbid, !Z.eqb_refl. left. reflexivity.
Qed.

Lemma batch_by_id_distinct (db : Database) (b : Batch) :
  Inv.distinct_batch_ids db -> In b (batches db) ->
  Sql.batch_by_id db (b_id b) = Some b.
Proof.
  intros Hids Hb. destruct (Sql.batch_by_id db (b_id b)) as [found|] eqn:E.
  - destruct (batch_by_id_some db _ _ E) as [Hin Hid].
    f_equal. apply (nodup_map_injective b_id (batches db)); assumption.
  - apply batch_by_id_none in E. exfalso. apply E. exists b. split; [exact Hb | reflexivity].
Qed.

(** X14.  At most three batches are recommended; each one is a batch
    of the batch table that is active or upcoming, in which the user is
    not enrolled and which has free seats, as many as the
    recommendation says.  When batch ids are distinct, an enroll request
    of that user for a recommended batch succeeds. *)
Theorem recommended_batches_open (env : Env) (caller : Caller) (db : Database)
    (recommendations : list Advice.Recommendation) (pick : Advice.Recommendation) :
  Advice.generateBatchRecommendations env (c_id caller) db = inr recommendations ->
  In pick recommendations ->
  (List.length recommendations <= 3)%nat
  /\ exists b,
       In b (batches db)
       /\ Advice.batchId pick = b_id b
       /\ Advice.batchName pick = b_name b
       /\ (b_status b = "active" \/ b_status b = "upcoming")
       /\ ~ Spec.enrolled db (c_id caller) (b_id b)
       /\ Advice.availability pick
          = b_max_participants b - Sql.enrollment_count db (b_id b)
       /\ 0 < Advice.availability pick
       /\ (Inv.distinct_batch_ids db ->
           forall t,
             snd (Server.enroll (calm t) caller (Advice.batchId pick) db)
             = Respond 200 (JsonMessage "Enrolled successfully")).
Proof.
  unfold Advice.generateBatchRecommendations, Sql.call.
  destruct (fault env 0); [discriminate|]. destruct (fault env 1); [discriminate|].
  match goal with
  | |- inr (firstn 3 ?l) = _ -> _ =>
    remember l as all eqn:Hdef; remember (firstn 3 all) as top eqn:Htop
  end.
  intros H Hin. injection H as <-. subst top. split; [apply firstn_le_length|].
  assert (Hall : In pick all).
  { rewrite <- (firstn_skipn 3 all). apply in_or_app. left. exact Hin. }
  clear Hin. subst all. apply in_map_iff in Hall. destruct Hall as ([b count] & <- & Hb).
  apply filter_In in Hb. destruct Hb as [Hb Hfree].
  apply filter_In in Hb. destruct Hb as [Hb Hnot].
  unfold Advice.open_batches in Hb. apply in_map_iff in Hb.
  destruct Hb as (b' & Heq & Hb). injection Heq as -> <-.
  apply filter_In in Hb. destruct Hb as [Hb Hstatus]. simpl in *.
  apply Z.ltb_lt in Hfree. apply negb_true_iff in Hnot.
  assert (Hfreeseat : ~ Spec.enrolled db (c_id caller) (b_id b)).
  { intros Henrolled.
    assert (E : existsb (Z.eqb (b_id b)) (Advice.enrolled_ids db (c_id caller)) = true).
    { apply existsb_exists. exists (b_id b).
      split; [apply enrolled_ids_in; assumption | apply Z.eqb_refl]. }
    congruence. }
  exists b. split; [exact Hb|]. split; [reflexivity|]. split; [reflexivity|].
  split.
  { apply orb_true_iff in Hstatus. rewrite !String.eqb_eq in Hstatus. exact Hstatus. }
  split; [exact Hfreeseat|]. split; [reflexivity|]. split; [lia|].
  intros Hids t.
  apply (enroll_success t caller (b_id b) db b);
    [apply batch_by_id_distinct; assumption | exact Hfree | exact Hfreeseat].
Qed.

Lemma recommended_batches_open_witness :
  snd (Server.enroll (calm 26) Sample.bob 1 Sample.db)
  = Respond 200 (JsonMessage "Enrolled successfully").
Proof.
  destruct (recommended_batches_open (calm 25) Sample.bob Sample.db
              [ {| Advice.batchId := 1;
                   Advice.batchName := "Web Development Fundamentals";
                   Advice.reason :=
                     "Based on your learning interests and batch availability";
                   Advice.availability := 1;
                   Advice.startDate := "2026-01-15" |} ]
              {| Advice.batchId := 1;
                 Advice.batchName := "Web Development Fundamentals";
                 Advice.reason :=
                   "Based on your learning interests and batch availability";
                 Advice.availability := 1;
                 Advice.startDate := "2026-01-15" |}
              eq_refl (or_introl eq_refl))
    as (_ & b & _ & _ & _ & _ & _ & _ & _ & Henroll).
  apply Henroll. apply sample_batch_ids.
Defined.

(** ** Quoting a field of the report export *)

Lemma read_quoted_doubled (text tail : string) :
  match tail with
  | String c _ => c <> Exports.quote
  | EmptyString => True
  end ->
  Exports.read_quoted (Exports.double_quotes text ++ String Exports.quote tail)%string
  = Some (text, tail).
Proof.
  intros Htail. induction text as [|c text IH]; simpl.
  - destruct tail as [|c' tail']; [reflexivity|].
    apply Ascii.eqb_neq in Htail. rewrite Htail. reflexivity.
  - destruct (Ascii.eqb c Exports.quote) eqn:E; simpl.
    + rewrite IH. simpl. apply Ascii.eqb_eq in E. rewrite E. reflexivity.
    + rewrite E. rewrite IH. reflexivity.
Qed.

(** X15.  A text quoted by escapeCsv is read back unchanged by a CSV
    reader, whatever commas, line breaks and quotes it contains, and the
    reader stops exactly where the field ends: reading
    [escapeCsv(text)] followed by any text that does not start with a
    quote gives [text] and that rest.  [null] and the empty text both
    give an empty, unquoted field. *)
Theorem escape_csv_round_trip (text tail : string) :
  text <> "" ->
  match tail with
  | String c _ => c <> Exports.quote
  | EmptyString => True
  end ->
  Exports.read_field (Exports.escapeCsv (Some text) ++ tail)%string = Some (text, tail)
  /\ Exports.escapeCsv None = ""
  /\ Exports.escapeCsv (Some "") = "".
Proof.
  intros Htext Htail. split; [|split; reflexivity].
  unfold Exports.escapeCsv. simpl. apply String.eqb_neq in Htext. rewrite Htext. simpl.
  replace ((Exports.double_quotes text ++ String Exports.quote "") ++ tail)%string
    with (Exports.double_quotes text ++ String Exports.quote tail)%string.
  - apply read_quoted_doubled. exact Htail.
  - induction (Exports.double_quotes text) as [|c s IH]; simpl; [reflexivity|].
    rewrite IH. reflexivity.
Qed.

Lemma escape_csv_round_trip_witness :
  Exports.read_field
    (Exports.escapeCsv (Some (String "a" (String Exports.quote (String "," "b"))))
     ++ ",7")%string
  = Some (String "a" (String Exports.quote (String "," "b")), ",7").
Proof.
  apply (proj1 (escape_csv_round_trip
                  (String "a" (String Exports.quote (String "," "b"))) ",7"
                  ltac:(discriminate) ltac:(discriminate))).
Defined.

(** ** Listings *)

Section SortBy.

Context {A : Type} (before : A -> A -> bool).

Lemma insert_by_in (x y : A) (rows : list A) :
  In y (Listing.insert_by before x rows) <-> y = x \/ In y rows.
Proof.
  induction rows as [|z rows IH]; simpl.
  - split; [intros [<- | []]; auto | intros [-> | []]; auto].
  - destruct (before x z); simpl.
    + split; [intros [<- | [<- | H]]; auto | intros [-> | [-> | H]]; auto].
    + rewrite IH. split; [intros [<- | [-> | H]]; auto | intros [-> | [-> | H]]; auto].
Qed.

Lemma sort_by_in (y : A) (rows : list A) :
  In y (Listing.sort_by before rows) <-> In y rows.
Proof.
  unfold Listing.sort_by. induction rows as [|x rows IH]; simpl; [tauto|].
  rewrite insert_by_in, IH. split; [intros [-> | H]; auto | intros [-> | H]; auto].
Qed.

Hypothesis before_total : forall x y, before x y = false -> before y x = true.

Lemma insert_by_sorted (x : A) (rows : list A) :
  Sorted (fun a b => before a b = true) rows ->
  Sorted (fun a b => before a b = true) (Listing.insert_by before x rows).
Proof.
  induction rows as [|y rows IH]; simpl; intros Hs.
  - constructor; constructor.
  - destruct (before x y) eqn:E.
    + constructor; [exact Hs | constructor; exact E].
    + inversion Hs as [|? ? Hrest Hhd]; subst. constructor; [apply IH; exact Hrest|].
      destruct rows as [|z rows]; simpl.
      * constructor. apply before_total. exact E.
      * destruct (before x z); constructor;
          [apply before_total; exact E | inversion Hhd; assumption].
Qed.

Lemma sort_by_sorted (rows : list A) :
  Sorted (fun a b => before a b = true) (Listing.sort_by before rows).
Proof.
  unfold Listing.sort_by. induction rows as [|x rows IH]; simpl.
  - constructor.
  - apply insert_by_sorted. exact IH.
Qed.

End SortBy.

Lemma with_instructor_rows (db : Database) (b : Batch) (row : Listing.BatchRow) :
  In row (Listing.with_instructor db b) ->
  Listing.row_batch row = b
  /\ Listing.participant_count row = Sql.enrollment_count db (b_id b)
  /\ (Listing.instructor_name row = None
      \/ exists u, In u (users db) /\ u_id u = b_instructor_id b
                   /\ Listing.instructor_name row = Some (u_full_name u)).
Proof.
  unfold Listing.with_instructor.
  destruct (filter (fun u => b_instructor_id b =? u_id u) (users db)) as [|u0 us] eqn:F.
  - intros [<- | []]. simpl. auto.
  - intros Hin. apply in_map_iff in Hin. destruct Hin as (u & <- & Hu). simpl.
    split; [reflexivity|]. split; [reflexivity|]. right. exists u.
    assert (Hf : In u (filter (fun u => b_instructor_id b =? u_id u) (users db)))
      by (rewrite F; exact Hu).
    apply filter_In in Hf. destruct Hf as [Hin Heq]. apply Z.eqb_eq in Heq.
    split; [exact Hin|]. split; [symmetry; exact Heq | reflexivity].
Qed.

Lemma with_instructor_some (db : Database) (b : Batch) :
  exists row, In row (Listing.with_instructor db b).
Proof.
  unfold Listing.with_instructor.
  destruct (filter (fun u => b_instructor_id b =? u_id u) (users db)) as [|u0 us].
  - eexists. left. reflexivity.
  - eexists. left. reflexivity.
Qed.

(** X16.  my-batches lists exactly the batches the caller is enrolled
    in: a batch has a row in the answer if and only if it is in the
    batch table and the caller has an enrollment for it, and every row
    carries the current enrollment count of its batch. *)
Theorem my_batches_are_enrollments (env : Env) (caller : Caller) (db : Database)
    (rows : list Listing.BatchRow) :
  Listing.myBatches env caller db = Result rows ->
  (forall b,
      (exists row, In row rows /\ Listing.row_batch row = b)
      <-> In b (batches db) /\ Spec.enrolled db (c_id caller) (b_id b))
  /\ (forall row, In row rows ->
      Listing.participant_count row
      = Sql.enrollment_count db (b_id (Listing.row_batch row))).
Proof.
  unfold Listing.myBatches, Sql.call. destruct (fault env 0); [discriminate|].
  intros H. injection H as <-.
  assert (Hrow : forall row,
             In row (Listing.sort_by Listing.later_start
                       (flat_map (fun b =>
                          flat_map (fun e =>
                            if (b_id b =? e_batch_id e) && (e_user_id e =? c_id caller)
                            then Listing.with_instructor db b else [])
                            (enrollments db))
                          (batches db)))
             <-> exists b e,
                   In b (batches db) /\ In e (enrollments db)
                   /\ e_batch_id e = b_id b /\ e_user_id e = c_id caller
                   /\ In row (Listing.with_instructor db b)).
  { intros row. rewrite sort_by_in, in_flat_map. split.
    - intros (b & Hb & Hin). apply in_flat_map in Hin. destruct Hin as (e & He & Hin).
      destruct ((b_id b =? e_batch_id e) && (e_user_id e =? c_id caller)) eqn:K;
        [|destruct Hin].
      apply andb_true_iff in K. rewrite !Z.eqb_eq in K. destruct K as [K1 K2].
      exists b, e. repeat split; auto.
    - intros (b & e & Hb & He & E1 & E2 & Hin). exists b. split; [exact Hb|].
      apply in_flat_map. exists e. split; [exact He|].
      rewrite E1, E2, !Z.eqb_refl. exact Hin. }
  split.
  - intros b. split.
    + intros (row & Hin & <-). apply Hrow in Hin.
      destruct Hin as (b & e & Hb & He & E1 & E2 & Hin).
      destruct (with_instructor_rows _ _ _ Hin) as (-> & _).
      split; [exact Hb|]. exists e. repeat split; assumption.
    + intros (Hb & e & He & E2 & E1).
      destruct (with_instructor_some db b) as (row & Hin).
      exists row. split; [|apply (with_instructor_rows _ _ _ Hin)].
      apply Hrow. exists b, e. repeat split; assumption.
  - intros row Hin. apply Hrow in Hin.
    destruct Hin as (b & e & _ & _ & _ & _ & Hin).
    destruct (with_instructor_rows _ _ _ Hin) as (-> & -> & _). reflexivity.
Qed.

Lemma my_batches_are_enrollments_witness :
  exists rows,
    Listing.myBatches (calm 27) Sample.bob Sample.in_between = Result rows
    /\ exists row, In row rows /\ Listing.row_batch row = Examples.web_batch.
Proof.
  eexists. split; [reflexivity|].
  apply (proj1 (my_batches_are_enrollments (calm 27) Sample.bob Sample.in_between _
                  eq_refl)).
  split; [left; reflexivity|].
  eexists. split; [right; left; reflexivity|]. split; reflexivity.
Defined.

Lemma name_order_total (x y : Listing.Participant) :
  Listing.name_order x y = false -> Listing.name_order y x = true.
Proof.
  unfold Listing.name_order, String.leb.
  rewrite (String.compare_antisym (Listing.p_full_name y)).
  destruct (String.compare (Listing.p_full_name x) (Listing.p_full_name y));
    simpl; congruence.
Qed.

(** X17.  The participants of a batch are listed by full name in
    ascending order (compared as text), and the list has exactly one
    entry for every pair of an account and an enrollment of that
    account in the batch, with the account's id, username, full name and
    email and the time of the enrollment. *)
Theorem participants_are_enrollments (env : Env) (batchId : Z) (db : Database)
    (rows : list Listing.Participant) :
  Listing.participants env batchId db = Result rows ->
  Sorted (fun x y => String.leb (Listing.p_full_name x) (Listing.p_full_name y) = true)
         rows
  /\ forall p,
       In p rows <->
       exists u e,
         In u (users db) /\ In e (enrollments db)
         /\ e_user_id e = u_id u /\ e_batch_id e = batchId
         /\ p = {| Listing.p_id := u_id u; Listing.p_username := u_username u;
                   Listing.p_full_name := u_full_name u; Listing.p_email := u_email u;
                   Listing.p_enrolled_at := e_enrolled_at e |}.
Proof.
  unfold Listing.participants, Sql.call. destruct (fault env 0); [discriminate|].
  intros H. injection H as <-. split.
  - apply (sort_by_sorted Listing.name_order name_order_total).
  - intros p. rewrite sort_by_in, in_flat_map. split.
    + intros (u & Hu & Hin). apply in_flat_map in Hin. destruct Hin as (e & He & Hin).
      destruct ((u_id u =? e_user_id e) && (e_batch_id e =? batchId)) eqn:K;
        [|destruct Hin].
      apply andb_true_iff in K. rewrite !Z.eqb_eq in K. destruct K as [K1 K2].
      destruct Hin as [<- | []]. exists u, e. repeat split; auto.
    + intros (u & e & Hu & He & E1 & E2 & ->). exists u. split; [exact Hu|].
      apply in_flat_map. exists e. split; [exact He|].
      rewrite E1, E2, !Z.eqb_refl. left. reflexivity.
Qed.

Lemma participants_are_enrollments_witness :
  exists rows,
    Listing.participants (calm 27) 1 Sample.in_between = Result rows
    /\ Sorted (fun x y =>
                 String.leb (Listing.p_full_name x) (Listing.p_full_name y) = true) rows
    /\ In {| Listing.p_id := 3; Listing.p_username := "bob";
             Listing.p_full_name := "bob"; Listing.p_email := "bob@training.com";
             Listing.p_enrolled_at := 25 |} rows.
Proof.
  eexists. split; [reflexivity|].
  destruct (participants_are_enrollments (calm 27) 1 Sample.in_between _ eq_refl)
    as [Hsorted Hin].
  split; [exact Hsorted|]. apply Hin.
  exists (Sample.account 3 "bob" "student"),
    {| e_id := 2; e_user_id := 3; e_batch_id := 1; e_enrolled_at := 25 |}.
  split; [right; right; left; reflexivity|].
  split; [right; left; reflexivity|]. repeat split; reflexivity.
Defined.

Lemma later_start_total (x y : Listing.BatchRow) :
  Listing.later_start x y = false -> Listing.later_start y x = true.
Proof.
  unfold Listing.later_start, String.ltb.
  rewrite (String.compare_antisym (b_start_date (Listing.row_batch x))).
  destruct (String.compare (b_start_date (Listing.row_batch y))
              (b_start_date (Listing.row_batch x))); simpl; congruence.
Qed.

(** X18.  When every stored start date is a calendar date
    [YYYY-MM-DD], the batch listing is in chronological order of the
    start dates, latest first (the dates are compared as text, which
    for calendar dates is the order of the days).
    With a status filter other than "all" it lists exactly the batches
    of that status; without filter, with an empty filter or with "all"
    it lists every batch.  Every row carries the current enrollment
    count of its batch. *)
Theorem list_batches_by_status (env : Env) (status : option string) (db : Database)
    (rows : list Listing.BatchRow) :
  Listing.listBatches env status db = Result rows ->
  (Inv.batches_dated db ->
   Sorted (fun x y =>
             String.ltb (b_start_date (Listing.row_batch x))
                        (b_start_date (Listing.row_batch y)) = false) rows
   /\ Sorted (fun x y =>
                Inv.day_le (b_start_date (Listing.row_batch y))
                           (b_start_date (Listing.row_batch x))) rows)
  /\ (forall b,
      (exists row, In row rows /\ Listing.row_batch row = b)
      <-> In b (batches db)
          /\ (status = None \/ status = Some "" \/ status = Some "all"
              \/ status = Some (b_status b)))
  /\ (forall row, In row rows ->
      Listing.participant_count row
      = Sql.enrollment_count db (b_id (Listing.row_batch row))).
Proof.
  unfold Listing.listBatches, Sql.call. destruct (fault env 0); [discriminate|].
  intros H. injection H as <-.
  set (wanted := fun b : Batch =>
         match status with
         | Some s =>
           if Js.truthy_string status && negb (String.eqb s "all")
           then String.eqb (b_status b) s else true
         | None => true
         end).
  assert (Hwanted : forall b,
             wanted b = true <->
             status = None \/ status = Some "" \/ status = Some "all"
             \/ status = Some (b_status b)).
  { intros b. unfold wanted. destruct status as [s|]; [|tauto]. simpl.
    destruct (String.eqb_spec s "") as [->|Hs]; simpl; [tauto|].
    destruct (String.eqb_spec s "all") as [->|Ha]; simpl; [tauto|].
    rewrite String.eqb_eq. split.
    - intros <-. auto.
    - intros [H | [H | [H | H]]]; try discriminate; congruence. }
  assert (Hrow : forall row,
             In row (Listing.sort_by Listing.later_start
                       (flat_map (Listing.with_instructor db)
                          (filter wanted (batches db))))
             <-> exists b, In b (batches db) /\ wanted b = true
                           /\ In row (Listing.with_instructor db b)).
  { intros row. rewrite sort_by_in, in_flat_map. split.
    - intros (b & Hb & Hin). apply filter_In in Hb. exists b. tauto.
    - intros (b & Hb & Hw & Hin). exists b. split; [apply filter_In; tauto | exact Hin]. }
  split; [|split].
  - intros Hdated.
    assert (Htext : Sorted (fun x y =>
                              String.ltb (b_start_date (Listing.row_batch x))
                                         (b_start_date (Listing.row_batch y)) = false)
                      (Listing.sort_by Listing.later_start
                         (flat_map (Listing.with_instructor db)
                            (filter wanted (batches db))))).
    { eapply Sorted_ind with (R := fun a b => Listing.later_start a b = true).
      + constructor.
      + intros x l _ IH Hhd. constructor; [exact IH|].
        destruct Hhd as [|y l' Hxy]; constructor.
        unfold Listing.later_start in Hxy. apply negb_true_iff in Hxy. exact Hxy.
      + apply (sort_by_sorted Listing.later_start later_start_total). }
    split; [exact Htext|].
    eapply sorted_among; [|exact Htext].
    assert (Hday : forall row,
               In row (Listing.sort_by Listing.later_start
                         (flat_map (Listing.with_instructor db)
                            (filter wanted (batches db)))) ->
               exists day,
                 Js.calendar_day (b_start_date (Listing.row_batch row)) = Some day).
    { intros row Hin. apply Hrow in Hin. destruct Hin as (b & Hb & _ & Hin).
      destruct (with_instructor_rows _ _ _ Hin) as (-> & _).
      specialize (Hdated _ Hb). unfold Inv.is_date in Hdated.
      destruct (Js.calendar_day (b_start_date b)) as [day|];
        [exists day; reflexivity | contradiction]. }
    intros x y Hx Hy Hxy. simpl in Hxy.
    destruct (Hday x Hx) as [dx Ex], (Hday y Hy) as [dy Ey].
    exists dy, dx. split; [exact Ey|]. split; [exact Ex|].
    unfold String.ltb in Hxy. rewrite (calendar_day_compare _ _ dx dy Ex Ey) in Hxy.
    destruct (Z.compare_spec dx dy); try discriminate; lia.
  - intros b. rewrite <- Hwanted. split.
    + intros (row & Hin & <-). apply Hrow in Hin. destruct Hin as (b & Hb & Hw & Hin).
      destruct (with_instructor_rows _ _ _ Hin) as (-> & _). tauto.
    + intros (Hb & Hw). destruct (with_instructor_some db b) as (row & Hin).
      exists row. split; [|apply (with_instructor_rows _ _ _ Hin)].
      apply Hrow. exists b. tauto.
  - intros row Hin. apply Hrow in Hin. destruct Hin as (b & _ & _ & Hin).
    destruct (with_instructor_rows _ _ _ Hin) as (-> & -> & _). reflexivity.
Qed.

Lemma list_batches_by_status_witness :
  (exists rows,
      Listing.listBatches (calm 51) (Some "upcoming") Examples.with_workshop = Result rows
      /\ (exists row, In row rows /\ b_name (Listing.row_batch row) = "Git Workshop")
      /\ ~ (exists row, In row rows /\ Listing.row_batch row = Examples.web_batch))
  /\ (exists rows,
        Listing.listBatches (calm 51) None Examples.with_workshop = Result rows
        /\ List.length rows = 2%nat
        /\ Sorted (fun x y =>
                     Inv.day_le (b_start_date (Listing.row_batch y))
                                (b_start_date (Listing.row_batch x))) rows).
Proof.
  split.
  - eexists. split; [reflexivity|].
    destruct (list_batches_by_status (calm 51) (Some "upcoming") Examples.with_workshop
                _ eq_refl) as (_ & Hlisted & _).
    split.
    + destruct (proj2 (Hlisted
          {| b_id := 2; b_name := "Git Workshop"; b_instructor_id := 4;
             b_duration := "1 week"; b_start_date := "2026-03-02";
             b_status := "upcoming"; b_max_participants := 100; b_created_at := 50 |}))
        as (row & Hin & Hrow).
      * split; [right; left; reflexivity|]. right. right. right. reflexivity.
      * exists row. split; [exact Hin|]. rewrite Hrow. reflexivity.
    + intros H. apply Hlisted in H. destruct H as [_ [H | [H | [H | H]]]]; discriminate H.
  - eexists. split; [reflexivity|]. split; [reflexivity|].
    destruct (list_batches_by_status (calm 51) None Examples.with_workshop
                _ eq_refl) as (Hsorted & _).
    apply Hsorted. intros b [<- | [<- | []]]; discriminate.
Defined.

(** ** Counts and dumps *)

(** X19.  The stats endpoint never reports a storage failure: it always
    answers with the counts of the queries that succeeded and leaves out
    the key of each query that failed.  Without failure it answers with
    the four counts, and activeBatches never exceeds totalBatches. *)
Theorem stats_leave_out_failures (env : Env) (db : Database) :
  exists fields,
    Listing.stats env db = Result fields
    /\ (forall k key count,
        nth_error (Listing.stat_queries db) k = Some (key, count) ->
        (In (key, count) fields <-> fault env k = None))
    /\ (forall key count, In (key, count) fields ->
        In (key, count) (Listing.stat_queries db))
    /\ ((forall k, (k < 4)%nat -> fault env k = None) ->
        fields = Listing.stat_queries db)
    /\ (forall active total,
        In ("activeBatches", active) fields -> In ("totalBatches", total) fields ->
        active <= total).
Proof.
  eexists. split; [reflexivity|].
  unfold Listing.stat_queries, Listing.collect, Sql.call.
  split; [|split; [|split]].
  - intros k key count Hk.
    destruct k as [|[|[|[|k]]]]; simpl in Hk;
      try (destruct k; discriminate Hk);
      injection Hk as <- <-;
      destruct (fault env 0), (fault env 1), (fault env 2), (fault env 3); simpl;
      split; intros H; try reflexivity; try discriminate;
      try (repeat (destruct H as [H | H]; try discriminate H); contradiction);
      auto 6.
  - intros key count.
    destruct (fault env 0), (fault env 1), (fault env 2), (fault env 3); simpl;
      intuition auto.
  - intros Hcalm.
    rewrite (Hcalm 0%nat), (Hcalm 1%nat), (Hcalm 2%nat), (Hcalm 3%nat) by lia.
    reflexivity.
  - intros active total.
    pose proof (filter_length_le (fun b => String.eqb (b_status b) "active")
                  (batches db)) as Hle.
    destruct (fault env 0), (fault env 1), (fault env 2), (fault env 3); simpl;
      intros Ha Ht;
      repeat (destruct Ha as [Ha | Ha]; try discriminate Ha); try contradiction;
      repeat (destruct Ht as [Ht | Ht]; try discriminate Ht); try contradiction;
      injection Ha as <-; injection Ht as <-; lia.
Qed.

(** X20.  For an admin, export-all answers only when all four of its
    queries succeed, and then with the rows of the four tables (the
    accounts without their password hashes) and their numbers; when any
    of the four queries fails, reading the length of the missing result
    throws and no answer is sent.  Any other role is refused with 403. *)
Theorem export_all_or_nothing (env : Env) (caller : Caller) (db : Database) :
  (c_role caller = "admin" ->
   ((forall k, (k < 4)%nat -> fault env k = None) ->
    exists dump,
      Exports.exportAll env caller db = Result dump
      /\ Exports.d_users dump = map Exports.public (users db)
      /\ Exports.d_batches dump = batches db
      /\ Exports.d_enrollments dump = Exports.joined_enrollments db
      /\ Exports.d_reports dump = Exports.exported_reports db
      /\ Exports.totalUsers dump = Z.of_nat (List.length (users db))
      /\ Exports.totalBatches dump = Z.of_nat (List.length (batches db))
      /\ Exports.totalEnrollments dump
         = Z.of_nat (List.length (Exports.joined_enrollments db))
      /\ Exports.totalReports dump
         = Z.of_nat (List.length (Sql.joined_reports db)))
   /\ ((exists k, (k < 4)%nat /\ fault env k <> None) ->
       Exports.exportAll env caller db
       = Uncaught "TypeError: Cannot read properties of undefined (reading 'length')"))
  /\ (c_role caller <> "admin" ->
      Exports.exportAll env caller db
      = Respond 403 (JsonError "Insufficient permissions")).
Proof.
  unfold Exports.exportAll, Server.authorizeRole, Sql.call. simpl. split.
  - intros ->. simpl. split.
    + intros Hcalm.
      rewrite (Hcalm 0%nat), (Hcalm 1%nat), (Hcalm 2%nat), (Hcalm 3%nat) by lia.
      eexists. split; [reflexivity|]. simpl.
      unfold Exports.exported_reports. rewrite !length_map. repeat split; reflexivity.
    + intros (k & Hk & Hfail).
      destruct k as [|[|[|[|k]]]]; [| | | |lia];
        destruct (fault env 0), (fault env 1), (fault env 2), (fault env 3);
        try reflexivity; contradiction.
  - intros Hrole. apply String.eqb_neq in Hrole. rewrite Hrole. reflexivity.
Qed.

Lemma export_all_or_nothing_witness :
  Exports.exportAll (Sample.failing 2)
    {| c_id := 1; c_username := "admin"; c_role := "admin" |} Sample.db
  = Uncaught "TypeError: Cannot read properties of undefined (reading 'length')"
  /\ Exports.exportAll (calm 60) Sample.carol Sample.db
     = Respond 403 (JsonError "Insufficient permissions").
Proof.
  split.
  - apply (proj1 (export_all_or_nothing (Sample.failing 2)
                    {| c_id := 1; c_username := "admin"; c_role := "admin" |}
                    Sample.db) eq_refl).
    exists 2%nat. split; [lia | discriminate].
  - apply (proj2 (export_all_or_nothing (calm 60) Sample.carol Sample.db)).
    discriminate.
Defined.

(** ** From enrollment to the report list *)

Lemma reports_of_in (db : Database) (u b : Z) (d : string) (row : Report) :
  Spec.reports_of db u b d = [row] ->
  In row (daily_reports db)
  /\ r_user_id row = u /\ r_batch_id row = b /\ r_report_date row = d.
Proof.
  intros H.
  assert (Hin : In row (Spec.reports_of db u b d)) by (rewrite H; left; reflexivity).
  apply filter_In in Hin. destruct Hin as [Hin Hk]. apply same_key_true in Hk. tauto.
Qed.

(** An enroll request answered with 200 passed the three checks and
    appended the caller's row. *)
Lemma enroll_succeeded (env : Env) (caller : Caller) (batchId : Z)
    (db db1 : Database) (json : Json) :
  Server.enroll env caller batchId db = (db1, Respond 200 json) ->
  exists batch,
    Sql.batch_by_id db batchId = Some batch
    /\ Sql.enrollment_count db batchId < b_max_participants batch
    /\ Sql.enrollment_of db (c_id caller) batchId = None
    /\ Spec.enrolls db db1 (c_id caller) batchId.
Proof.
  unfold Server.enroll, Sql.call.
  destruct (fault env 0); [discriminate|].
  destruct (Sql.batch_by_id db batchId) as [batch|]; [|discriminate].
  destruct (fault env 1); [discriminate|].
  destruct (Z.geb_spec (Sql.enrollment_count db batchId) (b_max_participants batch));
    [discriminate|].
  unfold Sql.insert_enrollment.
  destruct (fault env 2) as [message|].
  { destruct (Js.includes "UNIQUE" message); discriminate. }
  destruct (Sql.enrollment_of db (c_id caller) batchId) eqn:He.
  { rewrite unique_enrollment_message_includes. discriminate. }
  intros Hres. inversion Hres. subst. exists batch. repeat split; try lia.
  eexists. simpl. repeat split; reflexivity.
Qed.

(** A submission with its required fields, by an enrolled caller, is
    accepted when the storage engine answers. *)
Lemma submit_accepts (t : Z) (caller : Caller) (body : Server.ReportBody)
    (db : Database) (batch : Z) (date tasks : string) (hours : Q) :
  Spec.required_fields body batch date tasks hours ->
  Spec.enrolled db (c_id caller) batch ->
  Spec.one_report_per_day db ->
  snd (Server.submitReport (calm t) caller body db)
  = Respond 200
      (JsonCreated "Report submitted successfully"
         (last_insert_rowid (fst (Server.submitReport (calm t) caller body db))))
  /\ exists row,
       Spec.reports_of (fst (Server.submitReport (calm t) caller body db))
         (c_id caller) batch date = [row]
       /\ r_tasks_completed row = tasks
       /\ r_hours_worked row = hours.
Proof.
  intros Hreq Henrolled Hinv.
  rewrite (submit_with_fields _ _ _ _ _ _ _ _ Hreq).
  destruct (enrollment_of_some db _ _ Henrolled) as [e He].
  unfold Sql.call. simpl. rewrite He.
  destruct (Sql.upsert_report (calm t) 1 db (c_id caller) batch date tasks
              (Server.challenges body) hours (Server.notes body))
    as [msg | db'] eqn:Hu.
  - unfold Sql.upsert_report in Hu. simpl in Hu.
    destruct (existsb _ _); discriminate.
  - simpl. split; [reflexivity|].
    destruct (upsert_row _ _ _ _ _ _ _ _ _ _ _ Hu Hinv)
      as (row & Hrow & Htasks & _ & Hhours & _).
    exists row. repeat split; assumption.
Qed.

(** X21.  The workflow end to end, with a storage engine that answers:
    when a student who has an account enrolls in a batch and the request
    succeeds, a report of that student for the batch with all required
    fields is accepted, and a report query of the student without
    filters and cap then returns a row for that report, with the
    submitted tasks and hours, the account's username and, the report
    being dated by a calendar date [YYYY-MM-DD], the submitted date. *)
Theorem enroll_report_query (t1 t2 t3 : Z) (caller : Caller) (account : User)
    (batchId : Z) (body : Server.ReportBody) (date tasks : string) (hours : Q)
    (db db1 : Database) (json : Json) :
  c_role caller = "student" ->
  In account (users db) -> u_id account = c_id caller ->
  Spec.one_report_per_day db ->
  Server.enroll (calm t1) caller batchId db = (db1, Respond 200 json) ->
  Spec.required_fields body batchId date tasks hours ->
  Inv.is_date date ->
  let after := Server.submitReport (calm t2) caller body db1 in
  snd after
  = Respond 200 (JsonCreated "Report submitted successfully" (last_insert_rowid (fst after)))
  /\ exists rows row,
       Server.queryReports (calm t3) caller
         {| Server.q_batch_id := None; Server.q_user_id := None;
            Server.q_start_date := None; Server.q_end_date := None;
            Server.q_limit := Some (-1) |} (fst after)
       = Result rows
       /\ In row rows
       /\ r_user_id (Sql.row_report row) = c_id caller
       /\ r_batch_id (Sql.row_report row) = batchId
       /\ r_report_date (Sql.row_report row) = date
       /\ r_tasks_completed (Sql.row_report row) = tasks
       /\ r_hours_worked (Sql.row_report row) = hours
       /\ Sql.row_username row = u_username account.
Proof.
  intros Hrole Haccount Hid Hinv Henroll Hreq _ after.
  destruct (enroll_succeeded _ _ _ _ _ _ Henroll)
    as (batch & Hfound & _ & _ & (row0 & Hrows & Hru & Hrb & Husers & Hbatches & Hreports)).
  assert (Henrolled : Spec.enrolled db1 (c_id caller) batchId).
  { exists row0. rewrite Hrows.
    split; [apply in_or_app; right; left; reflexivity | split; assumption]. }
  assert (Hinv1 : Spec.one_report_per_day db1).
  { intros u b d. unfold Spec.reports_of. rewrite Hreports. apply Hinv. }
  destruct (submit_accepts t2 caller body db1 batchId date tasks hours
              Hreq Henrolled Hinv1) as (Hok & row & Hrow & Htasks & Hhours).
  fold after in Hok, Hrow. split; [exact Hok|].
  destruct (reports_of_in _ _ _ _ _ Hrow) as (Hin & Hu & Hb & Hd).
  destruct (batch_by_id_some db _ _ Hfound) as [Hbin Hbid].
  destruct (submit_keeps_seats (calm t2) caller body db1) as [Hbs _].
  fold after in Hbs.
  assert (Husers2 : users (fst after) = users db1).
  { destruct (submit_outcome (calm t2) caller body db1)
      as [(Hsame & _) | (b' & d' & t' & h' & e & _ & _ & Hupsert & _)].
    - fold after in Hsame. rewrite Hsame. reflexivity.
    - apply (upsert_other_tables _ _ _ _ _ _ _ _ _ _ _ Hupsert). }
  assert (Hacc2 : In account (users (fst after))).
  { rewrite Husers2, Husers. exact Haccount. }
  assert (Hbin2 : In batch (batches (fst after))).
  { rewrite Hbs, Hbatches. exact Hbin. }
  destruct (selected_when_uncapped t3 caller
              {| Server.q_batch_id := None; Server.q_user_id := None;
                 Server.q_start_date := None; Server.q_end_date := None;
                 Server.q_limit := Some (-1) |}
              (fst after) row account batch (-1) eq_refl ltac:(lia) Hin Hacc2
              ltac:(congruence) Hbin2 ltac:(congruence) ltac:(intros _; exact Hu)
              ltac:(discriminate) ltac:(discriminate) ltac:(discriminate)
              ltac:(discriminate))
    as (rows & Hquery & Hlisted).
  exists rows. eexists. split; [exact Hquery|]. split; [exact Hlisted|]. simpl.
  repeat split; assumption.
Qed.

Lemma enroll_report_query_witness :
  snd (Server.submitReport (calm 35) Sample.bob
         (Sample.report (Some "layout") (Some (5 # 1))) Sample.in_between)
  = Respond 200
      (JsonCreated "Report submitted successfully"
         (last_insert_rowid
            (fst (Server.submitReport (calm 35) Sample.bob
                    (Sample.report (Some "layout") (Some (5 # 1))) Sample.in_between))))
  /\ exists rows row,
       Server.queryReports (calm 40) Sample.bob
         {| Server.q_batch_id := None; Server.q_user_id := None;
            Server.q_start_date := None; Server.q_end_date := None;
            Server.q_limit := Some (-1) |}
         (fst (Server.submitReport (calm 35) Sample.bob
                 (Sample.report (Some "layout") (Some (5 # 1))) Sample.in_between))
       = Result rows
       /\ In row rows
       /\ r_user_id (Sql.row_report row) = 3
       /\ r_batch_id (Sql.row_report row) = 1
       /\ r_report_date (Sql.row_report row) = "2026-01-05"
       /\ r_tasks_completed (Sql.row_report row) = "layout"
       /\ r_hours_worked (Sql.row_report row) = 5 # 1
       /\ Sql.row_username row = "bob".
Proof.
  apply (enroll_report_query 25 35 40 Sample.bob (Sample.account 3 "bob" "student") 1
           (Sample.report (Some "layout") (Some (5 # 1))) "2026-01-05" "layout" (5 # 1)
           Sample.after_first Sample.in_between (JsonMessage "Enrolled successfully")).
  - reflexivity.
  - right. right. left. reflexivity.
  - reflexivity.
  - intros u b d. unfold Spec.reports_of.
    apply (Nat.le_trans _ _ _ (filter_length_le _ _)). simpl. lia.
  - reflexivity.
  - repeat split; try reflexivity; discriminate.
  - discriminate.
Defined.
